(** * File factory: classification, construction, upload policy, storage keys

    A shallow embedding of [api/factories/file_factory.py].

    Python values are modelled as follows.
    - A value that is either [None] or a [str] is an [option string].
    - A descriptor ([Mapping[str, Any]]) is a [gmap string (option string)]:
      a key may be absent, present with [None], or present with a string.
    - Every [raise] is an [Error]; a function that may raise returns
      [Error + A].
    - [File] objects are mutable and shared: the storage-key loader works on
      a heap of [File]s addressed by location. *)

From stdpp Require Import gmap strings list functions.
From Stdlib Require Import ZArith Ascii String.

Local Open Scope string_scope.
Local Open Scope Z_scope.

(** ** Python's [str] and truthiness *)

Module Py.

(** [bool(v)] for [v : str | None]. *)
Definition truthy (v : option string) : bool :=
  match v with
  | None | Some EmptyString => false
  | Some _ => true
  end.

(** [v] when it is truthy: a non-empty string. *)
Definition nonempty (v : option string) : option string :=
  if truthy v then v else None.

(** [a or b]. *)
Definition or_else (a b : option string) : option string :=
  if truthy a then a else b.

(** [c in s] for a one-character [c]. *)
Fixpoint has_char (c : ascii) (s : string) : bool :=
  match s with
  | EmptyString => false
  | String d s' => Ascii.eqb c d || has_char c s'
  end.

(** [needle in hay]. *)
Fixpoint contains (needle hay : string) : bool :=
  String.prefix needle hay ||
  match hay with
  | EmptyString => false
  | String _ hay' => contains needle hay'
  end.

(** [s.lstrip(c)]. *)
Fixpoint lstrip (c : ascii) (s : string) : string :=
  match s with
  | String d s' => if Ascii.eqb c d then lstrip c s' else s
  | EmptyString => EmptyString
  end.

(** The text after the last [c] of [s], if [s] has one. *)
Fixpoint after_last_char (c : ascii) (s : string) : option string :=
  match s with
  | EmptyString => None
  | String d s' =>
      match after_last_char c s' with
      | Some r => Some r
      | None => if Ascii.eqb c d then Some s' else None
      end
  end.

(** [s.split(c)[-1]]. *)
Definition split_last_char (c : ascii) (s : string) : string :=
  default s (after_last_char c s).

Fixpoint drop (n : nat) (s : string) : string :=
  match n, s with
  | O, _ => s
  | S n', String _ s' => drop n' s'
  | S _, EmptyString => EmptyString
  end.

(** The text after the rightmost occurrence of [sep] in [s]. *)
Fixpoint after_last (sep s : string) : option string :=
  match s with
  | EmptyString => None
  | String _ s' =>
      match after_last sep s' with
      | Some r => Some r
      | None =>
          if String.prefix sep s then Some (drop (String.length sep) s)
          else None
      end
  end.

(** [s.split(sep)[-1]], for a separator that cannot overlap itself (no
    proper prefix of it is also a suffix), as in ["filename="]. *)
Definition split_last (sep s : string) : string :=
  default s (after_last sep s).

Fixpoint rev_onto (s acc : string) : string :=
  match s with
  | EmptyString => acc
  | String c s' => rev_onto s' (String c acc)
  end.

Definition rev (s : string) : string := rev_onto s EmptyString.

(** [s.strip(c)]. *)
Definition strip (c : ascii) (s : string) : string :=
  rev (lstrip c (rev (lstrip c s))).

(** [x in xs] for a list of strings. *)
Definition mem (x : string) (xs : list string) : bool :=
  bool_decide (x ∈ xs).

(** [os.path.basename] on POSIX: the text after the last slash. *)
Definition basename (p : string) : string := split_last_char "/" p.

Definition dot : ascii := ".".
Definition dquote : ascii := ascii_of_nat 34.

End Py.

(** ** Errors

    Every failure of the module is a Python [ValueError] told apart by its
    message, except where noted. *)

Inductive Error : Type :=
| InvalidReference    (* "Invalid upload file id", "Invalid upload file id format",
                         and [uuid.UUID] rejecting a related id *)
| RecordNotFound      (* "Invalid upload file", "ToolFile ... not found",
                         "Upload file not found for id", "Tool file not found for id" *)
| TypeMismatch        (* "Detected file type does not match the specified type..." *)
| UnsupportedMethod   (* [FileTransferMethod.value_of] finds no member *)
| InvalidUrl          (* "Invalid file url" *)
| InvalidCategory     (* [FileType(token)] finds no member *)
| PolicyViolation     (* "File validation failed for file: ..." *)
| TooManyImages       (* "Number of image files exceeds the maximum limit ..." *)
| TooManyFiles        (* "Number of files exceeds the maximum limit ..." *)
| MissingReference    (* "file id should not be None." *)
| TenantMismatch      (* "invalid file, expected tenant_id=..." *)
| BadContentLength    (* [int] rejecting the Content-Length header *)
| AttributeError.     (* [mimetypes.guess_extension(None)] *)

Global Instance Error_eq_dec : EqDecision Error.
Proof. solve_decision. Defined.

Definition result (A : Type) : Type := Error + A.

Definition Ok {A} (a : A) : result A := inr a.
Definition Raise {A} (e : Error) : result A := inl e.

Definition rbind {A B} (r : result A) (k : A → result B) : result B :=
  match r with
  | inl e => inl e
  | inr a => k a
  end.

Notation "'let*' x ':=' r 'in' k" := (rbind r (fun x => k))
  (at level 10, x name, r at level 100, k at level 200).

(** [if c: raise e]. *)
Definition raise_if (c : bool) (e : Error) : result unit :=
  if c then Raise e else Ok tt.

(** A list comprehension whose body may raise: the first exception ends it. *)
Fixpoint mapM {A B} (f : A → result B) (xs : list A) : result (list B) :=
  match xs with
  | [] => Ok []
  | x :: xs' =>
      let* y := f x in
      let* ys := mapM f xs' in
      Ok (y :: ys)
  end.

(** ** Enumerations of [core.file] *)

(** Modelled from the spec: [FileType] is declared in [core.file], outside
    this module; the spec gives its five categories, and the module compares
    [value] with the token ["custom"]. *)
Inductive FileType : Type := IMAGE | DOCUMENT | AUDIO | VIDEO | CUSTOM.

Global Instance FileType_eq_dec : EqDecision FileType.
Proof. solve_decision. Defined.

Module FileTypeOps.
Definition value (t : FileType) : string :=
  match t with
  | IMAGE => "image"
  | DOCUMENT => "document"
  | AUDIO => "audio"
  | VIDEO => "video"
  | CUSTOM => "custom"
  end.

Definition all : list FileType := [IMAGE; DOCUMENT; AUDIO; VIDEO; CUSTOM].

(** [FileType(token)]: the member with that value, else [ValueError]. *)
Definition of_value (token : string) : result FileType :=
  match List.find (fun t => String.eqb (value t) token) all with
  | Some t => Ok t
  | None => Raise InvalidCategory
  end.

(** [member == v] and [v == member] for [v : str | None]: a string enum
    compares as its value. *)
Definition eq_token (v : option string) (t : FileType) : bool :=
  bool_decide (v = Some (value t)).
End FileTypeOps.

(** Modelled from the spec: [FileTransferMethod] is declared in [core.file];
    the spec gives its three methods. *)
Inductive FileTransferMethod : Type := LOCAL_FILE | REMOTE_URL | TOOL_FILE.

Global Instance FileTransferMethod_eq_dec : EqDecision FileTransferMethod.
Proof. solve_decision. Defined.

Module FileTransferMethodOps.
Definition value (m : FileTransferMethod) : string :=
  match m with
  | LOCAL_FILE => "local_file"
  | REMOTE_URL => "remote_url"
  | TOOL_FILE => "tool_file"
  end.

(** [FileTransferMethod.value_of(v)]. *)
Definition value_of (v : option string) : result FileTransferMethod :=
  match v with
  | Some "local_file" => Ok LOCAL_FILE
  | Some "remote_url" => Ok REMOTE_URL
  | Some "tool_file" => Ok TOOL_FILE
  | _ => Raise UnsupportedMethod
  end.
End FileTransferMethodOps.

(** ** The type classifier *)

Section Classifier.

(** The extension tables of the [constants] module. *)
Variables IMAGE_EXTENSIONS VIDEO_EXTENSIONS AUDIO_EXTENSIONS
          DOCUMENT_EXTENSIONS : list string.

Definition _get_file_type_by_extension (extension : string) : option FileType :=
  let extension := Py.lstrip Py.dot extension in
  if Py.mem extension IMAGE_EXTENSIONS then Some IMAGE
  else if Py.mem extension VIDEO_EXTENSIONS then Some VIDEO
  else if Py.mem extension AUDIO_EXTENSIONS then Some AUDIO
  else if Py.mem extension DOCUMENT_EXTENSIONS then Some DOCUMENT
  else None.

Definition _get_file_type_by_mimetype (mime_type : string) : option FileType :=
  if Py.contains "image" mime_type then Some IMAGE
  else if Py.contains "video" mime_type then Some VIDEO
  else if Py.contains "audio" mime_type then Some AUDIO
  else if Py.contains "text" mime_type || Py.contains "pdf" mime_type
  then Some DOCUMENT
  else Some CUSTOM.

Definition _standardize_file_type
    (extension : string) (mime_type : option string) : FileType :=
  let guessed_type :=
    if Py.truthy (Some extension) then _get_file_type_by_extension extension
    else None in
  let guessed_type :=
    match guessed_type, mime_type with
    | None, Some m =>
        if Py.truthy (Some m) then _get_file_type_by_mimetype m else None
    | g, _ => g
    end in
  default CUSTOM guessed_type.

End Classifier.

(** ** Records of [models] and values of [core.file] *)

(** Modelled from the spec: the [UploadFile] row of [models], with the
    columns this module reads. *)
Module UploadFile.
Record t : Type := mk {
  id : string;
  tenant_id : string;
  name : string;
  extension : string;
  mime_type : option string;
  size : Z;
  key : string;
  source_url : option string;
}.
End UploadFile.

(** Modelled from the spec: the [ToolFile] row of [models], with the columns
    this module reads. *)
Module ToolFile.
Record t : Type := mk {
  id : string;
  tenant_id : string;
  name : string;
  file_key : string;
  mimetype : option string;
  size : Z;
  original_url : option string;
}.
End ToolFile.

(** Modelled from the spec: the [File] value of [core.file], with the
    arguments this module passes to its constructor. [storage_key] is the
    attribute [_storage_key], the only one assigned after construction. *)
Module File.
Record t : Type := mk {
  id : option string;
  tenant_id : string;
  type : FileType;
  transfer_method : FileTransferMethod;
  remote_url : option string;
  related_id : option string;
  filename : option string;
  extension : option string;
  mime_type : option string;
  size : Z;
  storage_key : string;
}.

Definition set_storage_key (k : string) (f : t) : t :=
  mk (id f) (tenant_id f) (type f) (transfer_method f) (remote_url f)
     (related_id f) (filename f) (extension f) (mime_type f) (size f) k.
End File.

(** Modelled from the spec: [ImageConfig] and [FileUploadConfig] of
    [core.file], with the fields this module reads. A list that is not set
    is the empty list, except [allowed_file_extensions], which the module
    tests against [None]. *)
Module ImageConfig.
Record t : Type := mk {
  number_limits : Z;
  transfer_methods : list FileTransferMethod;
}.
End ImageConfig.

Module FileUploadConfig.
Record t : Type := mk {
  image_config : option ImageConfig.t;
  allowed_file_types : list FileType;
  allowed_file_extensions : option (list string);
  allowed_file_upload_methods : list FileTransferMethod;
  number_limits : Z;
}.
End FileUploadConfig.

(** ** Descriptors *)

Module Mapping.
Abbreviation t := (gmap string (option string)).

(** [mapping.get(k)]. *)
Definition get (m : t) (k : string) : option string :=
  default None (m !! k).

(** [mapping.get(k, d)]. *)
Definition get_or (m : t) (k : string) (d : string) : option string :=
  default (Some d) (m !! k).
End Mapping.

(** ** External collaborators *)

(** A UUID is its 128-bit integer. *)
Abbreviation uuid := N.

(** The queries this module sends through a SQLAlchemy session. *)
Module Session.
Record t : Type := mk {
  (* select(UploadFile).where(id == i, tenant_id == t), first row *)
  scalar_upload_file : string → string → option UploadFile.t;
  (* select(ToolFile).where(id == i, tenant_id == t), first row *)
  scalar_tool_file : option string → string → option ToolFile.t;
  (* select(UploadFile).where(id.in_(ids), tenant_id == t), all rows *)
  scalars_upload_files : list uuid → string → list UploadFile.t;
  (* select(ToolFile).where(id.in_(ids), tenant_id == t), all rows *)
  scalars_tool_files : list uuid → string → list ToolFile.t;
}.
End Session.

(** The answer of [ssrf_proxy.head]. *)
Module Response.
Record t : Type := mk {
  status_code : Z;
  (* the headers, keyed by their lower-cased name *)
  headers : gmap string string;
}.

Definition lower_ascii (c : ascii) : ascii :=
  let n := nat_of_ascii c in
  if (65 <=? n)%nat && (n <=? 90)%nat then ascii_of_nat (n + 32) else c.

Fixpoint lower (s : string) : string :=
  match s with
  | EmptyString => EmptyString
  | String c s' => String (lower_ascii c) (lower s')
  end.

(** [resp.headers.get(name)]: header names are matched without regard to
    case. *)
Definition get (resp : t) (name : string) : option string :=
  headers resp !! lower name.
End Response.

Definition HTTP_OK : Z := 200.

(** ** Building files *)

Section Factory.

Variables IMAGE_EXTENSIONS VIDEO_EXTENSIONS AUDIO_EXTENSIONS
          DOCUMENT_EXTENSIONS : list string.

(** [uuid.UUID(s)], [None] when it raises [ValueError]. *)
Variable UUID : string → option uuid.
(** [urllib.parse.urlparse(url).path]. *)
Variable url_path : string → string.
(** [mimetypes.guess_type(name)[0]] and [mimetypes.guess_extension(type)]. *)
Variable guess_type : string → option string.
Variable guess_extension : string → option string.
(** [int(s)], [None] when it raises [ValueError]. *)
Variable py_int : string → option Z.
(** [ssrf_proxy.head(url, follow_redirects=True)]. *)
Variable head : string → Response.t.
(** [helpers.get_signed_file_url(upload_file_id=...)]. *)
Variable get_signed_file_url : string → string.
(** [db.session]. *)
Variable db_session : Session.t.

Abbreviation standardize :=
  (_standardize_file_type IMAGE_EXTENSIONS VIDEO_EXTENSIONS AUDIO_EXTENSIONS
     DOCUMENT_EXTENSIONS).

(** [detected.value != specified]. *)
Definition type_differs (detected : FileType) (specified : option string) : bool :=
  negb (FileTypeOps.eq_token specified detected).

(** [FileType(specified) if specified and specified != FileType.CUSTOM
     else detected], the expression the three record-backed paths share. *)
Definition specified_or_detected
    (specified : option string) (detected : FileType) : result FileType :=
  match specified with
  | Some token =>
      if Py.truthy specified && negb (FileTypeOps.eq_token specified CUSTOM)
      then FileTypeOps.of_value token
      else Ok detected
  | None => Ok detected
  end.

Definition _build_from_local_file
    (mapping : Mapping.t) (tenant_id : string)
    (transfer_method : FileTransferMethod) (strict_type_validation : bool)
  : result File.t :=
  match Py.nonempty (Mapping.get mapping "upload_file_id") with
  | None => Raise InvalidReference
  | Some upload_file_id =>
  (* check if upload_file_id is a valid uuid *)
  let* _ := raise_if (bool_decide (UUID upload_file_id = None)) InvalidReference in
  match Session.scalar_upload_file db_session upload_file_id tenant_id with
  | None => Raise RecordNotFound
  | Some row =>
  let detected_file_type :=
    standardize ("." ++ UploadFile.extension row) (UploadFile.mime_type row) in
  let specified_type := Mapping.get_or mapping "type" "custom" in
  let* _ := raise_if (strict_type_validation
                      && type_differs detected_file_type specified_type)
                     TypeMismatch in
  let* file_type := specified_or_detected specified_type detected_file_type in
  Ok (File.mk
        (Mapping.get mapping "id")
        tenant_id
        file_type
        transfer_method
        (UploadFile.source_url row)
        (Mapping.get mapping "upload_file_id")
        (Some (UploadFile.name row))
        (Some ("." ++ UploadFile.extension row))
        (UploadFile.mime_type row)
        (UploadFile.size row)
        (UploadFile.key row))
  end
  end.

Definition _get_remote_file_info (url : string)
  : result (option string * string * Z) :=
  let file_size := -1 in
  let url_path := url_path url in
  let filename := Py.basename url_path in
  (* Initialize mime_type from filename as fallback *)
  let mime_type := guess_type filename in
  let resp := head url in
  if bool_decide (Response.status_code resp = HTTP_OK) then
    let content_disposition := Response.get resp "Content-Disposition" in
    let '(filename, mime_type) :=
      match Py.nonempty content_disposition with
      | Some content_disposition =>
          let filename :=
            Py.strip Py.dquote (Py.split_last "filename=" content_disposition) in
          (* Re-guess mime_type from updated filename *)
          (filename, guess_type filename)
      | None => (filename, mime_type)
      end in
    let* file_size :=
      match Response.get resp "Content-Length" with
      | Some s =>
          match py_int s with
          | Some n => Ok n
          | None => Raise BadContentLength
          end
      | None => Ok file_size
      end in
    Ok (mime_type, filename, file_size)
  else
    Ok (mime_type, filename, file_size).

(** [_build_from_remote_url] when [upload_file_id] is truthy. *)
Definition _build_from_remote_url_record
    (upload_file_id : string)
    (mapping : Mapping.t) (tenant_id : string)
    (transfer_method : FileTransferMethod) (strict_type_validation : bool)
  : result File.t :=
  let* _ := raise_if (bool_decide (UUID upload_file_id = None)) InvalidReference in
  match Session.scalar_upload_file db_session upload_file_id tenant_id with
  | None => Raise RecordNotFound
  | Some upload_file =>
  let detected_file_type :=
    standardize ("." ++ UploadFile.extension upload_file)
                (UploadFile.mime_type upload_file) in
  let specified_type := Mapping.get mapping "type" in
  let* _ := raise_if (strict_type_validation
                      && Py.truthy specified_type
                      && type_differs detected_file_type specified_type)
                     TypeMismatch in
  let* file_type := specified_or_detected specified_type detected_file_type in
  Ok (File.mk
        (Mapping.get mapping "id")
        tenant_id
        file_type
        transfer_method
        (Some (get_signed_file_url upload_file_id))
        (Mapping.get mapping "upload_file_id")
        (Some (UploadFile.name upload_file))
        (Some ("." ++ UploadFile.extension upload_file))
        (UploadFile.mime_type upload_file)
        (UploadFile.size upload_file)
        (UploadFile.key upload_file))
  end.

(** [mimetypes.guess_extension(mime_type) or ("." + filename.split(".")[-1]
     if "." in filename else ".bin")]; [guess_extension(None)] raises. *)
Definition remote_extension (mime_type : option string) (filename : string)
  : result string :=
  match mime_type with
  | None => Raise AttributeError
  | Some m =>
      match Py.nonempty (guess_extension m) with
      | Some e => Ok e
      | None =>
          Ok (if Py.has_char Py.dot filename
              then "." ++ Py.split_last_char Py.dot filename
              else ".bin")
      end
  end.

(** [_build_from_remote_url] past the [if upload_file_id:] block. *)
Definition _build_from_remote_url_bare
    (mapping : Mapping.t) (tenant_id : string)
    (transfer_method : FileTransferMethod)
  : result File.t :=
  let url := Py.or_else (Mapping.get mapping "url")
                        (Mapping.get mapping "remote_url") in
  match Py.nonempty url with
  | None => Raise InvalidUrl
  | Some url =>
  let* info := _get_remote_file_info url in
  let '(mime_type, filename, file_size) := info in
  let* extension := remote_extension mime_type filename in
  let file_type := standardize extension mime_type in
  let* _ := raise_if (type_differs file_type (Mapping.get_or mapping "type" "custom"))
                     TypeMismatch in
  Ok (File.mk
        (Mapping.get mapping "id")
        tenant_id
        file_type
        transfer_method
        (Some url)
        None
        (Some filename)
        (Some extension)
        mime_type
        file_size
        "")
  end.

Definition _build_from_remote_url
    (mapping : Mapping.t) (tenant_id : string)
    (transfer_method : FileTransferMethod) (strict_type_validation : bool)
  : result File.t :=
  match Py.nonempty (Mapping.get mapping "upload_file_id") with
  | Some upload_file_id =>
      _build_from_remote_url_record upload_file_id mapping tenant_id
        transfer_method strict_type_validation
  | None =>
      _build_from_remote_url_bare mapping tenant_id transfer_method
  end.

(** ["." + file_key.split(".")[-1] if "." in file_key else ".bin"]. *)
Definition tool_extension (tool_file : ToolFile.t) : string :=
  if Py.has_char Py.dot (ToolFile.file_key tool_file)
  then "." ++ Py.split_last_char Py.dot (ToolFile.file_key tool_file)
  else ".bin".

Definition _build_from_tool_file
    (mapping : Mapping.t) (tenant_id : string)
    (transfer_method : FileTransferMethod) (strict_type_validation : bool)
  : result File.t :=
  match Session.scalar_tool_file db_session
          (Mapping.get mapping "tool_file_id") tenant_id with
  | None => Raise RecordNotFound
  | Some tool_file =>
  let extension := tool_extension tool_file in
  let detected_file_type := standardize extension (ToolFile.mimetype tool_file) in
  let specified_type := Mapping.get mapping "type" in
  let* _ := raise_if (strict_type_validation
                      && Py.truthy specified_type
                      && type_differs detected_file_type specified_type)
                     TypeMismatch in
  let* file_type := specified_or_detected specified_type detected_file_type in
  Ok (File.mk
        (Mapping.get mapping "id")
        tenant_id
        file_type
        transfer_method
        (ToolFile.original_url tool_file)
        (Some (ToolFile.id tool_file))
        (Some (ToolFile.name tool_file))
        (Some extension)
        (ToolFile.mimetype tool_file)
        (ToolFile.size tool_file)
        (ToolFile.file_key tool_file))
  end.

(** ** The upload policy *)

Definition _is_file_valid_with_config
    (input_file_type : option string) (file_extension : string)
    (file_transfer_method : FileTransferMethod) (config : FileUploadConfig.t)
  : bool :=
  if negb (bool_decide (FileUploadConfig.allowed_file_types config = []))
     && negb (existsb (FileTypeOps.eq_token input_file_type)
                      (FileUploadConfig.allowed_file_types config))
     && negb (FileTypeOps.eq_token input_file_type CUSTOM)
  then false
  else
  if FileTypeOps.eq_token input_file_type CUSTOM
     && match FileUploadConfig.allowed_file_extensions config with
        | Some allowed => negb (Py.mem file_extension allowed)
        | None => false
        end
  then false
  else
  if FileTypeOps.eq_token input_file_type IMAGE then
    if match FileUploadConfig.image_config config with
       | Some image_config =>
           negb (bool_decide (ImageConfig.transfer_methods image_config = []))
           && negb (bool_decide (file_transfer_method
                                 ∈ ImageConfig.transfer_methods image_config))
       | None => false
       end
    then false
    else true
  else
  if negb (bool_decide (FileUploadConfig.allowed_file_upload_methods config = []))
     && negb (bool_decide (file_transfer_method
                           ∈ FileUploadConfig.allowed_file_upload_methods config))
  then false
  else true.

(** ** Entry points *)

Definition build_from_mapping
    (mapping : Mapping.t) (tenant_id : string)
    (config : option FileUploadConfig.t) (strict_type_validation : bool)
  : result File.t :=
  let* transfer_method :=
    FileTransferMethodOps.value_of (Mapping.get mapping "transfer_method") in
  let build_func :=
    match transfer_method with
    | LOCAL_FILE => _build_from_local_file
    | REMOTE_URL => _build_from_remote_url
    | TOOL_FILE => _build_from_tool_file
    end in
  let* file := build_func mapping tenant_id transfer_method strict_type_validation in
  let* _ :=
    match config with
    | Some config =>
        raise_if (negb (_is_file_valid_with_config
                          (Mapping.get_or mapping "type" (FileTypeOps.value CUSTOM))
                          (default "" (Py.nonempty (File.extension file)))
                          (File.transfer_method file)
                          config))
                 PolicyViolation
    | None => Ok tt
    end in
  Ok file.

(** [sum(1 for _ in filter(lambda x: x.type == FileType.IMAGE, files))]. *)
Definition count_images (files : list File.t) : Z :=
  Z.of_nat (List.length (filter (λ x, File.type x = IMAGE) files)).

Definition build_from_mappings
    (mappings : list Mapping.t) (config : option FileUploadConfig.t)
    (tenant_id : string) (strict_type_validation : bool)
  : result (list File.t) :=
  let* files :=
    mapM (λ mapping,
            build_from_mapping mapping tenant_id config strict_type_validation)
         mappings in
  let* _ :=
    match config with
    | Some config =>
        match FileUploadConfig.image_config config with
        | Some image_config =>
            (* And the number of image files exceeds the maximum limit *)
            raise_if (bool_decide
                        (count_images files > ImageConfig.number_limits image_config))
                     TooManyImages
        | None => Ok tt
        end
    | None => Ok tt
    end in
  let* _ :=
    match config with
    | Some config =>
        raise_if (negb (bool_decide (FileUploadConfig.number_limits config = 0))
                  && bool_decide (Z.of_nat (List.length files)
                                  > FileUploadConfig.number_limits config))
                 TooManyFiles
    | None => Ok tt
    end in
  Ok files.

End Factory.

(** ** The storage-key loader

    [load_storage_keys] assigns to the [File] objects of its caller. The
    objects live in a heap; the input sequence is a list of locations, so
    one object may occur in it more than once. Each query sent to the
    session is recorded, in the order sent. *)

Abbreviation loc := nat.

Inductive Query : Type :=
| SelectUploadFiles (ids : list uuid) (tenant_id : string)
| SelectToolFiles (ids : list uuid) (tenant_id : string).

Module World.
Record t : Type := mk {
  objects : loc → File.t;
  queries : list Query;
}.
End World.

(** Computations that read and assign objects, send queries, and may raise.
    The world reached when an exception is raised is kept: the caller sees
    the assignments made before it. *)
Module M.
Definition t (A : Type) : Type := World.t → World.t * result A.

Definition ret {A} (a : A) : t A := λ w, (w, Ok a).

Definition raise {A} (e : Error) : t A := λ w, (w, Raise e).

Definition bind {A B} (c : t A) (k : A → t B) : t B :=
  λ w, match c w with
       | (w', inr a) => k a w'
       | (w', inl e) => (w', inl e)
       end.

(** The object at a location. *)
Definition read (l : loc) : t File.t := λ w, (w, Ok (World.objects w l)).

(** [file._storage_key = k]. *)
Definition assign_storage_key (l : loc) (k : string) : t unit :=
  λ w, (World.mk (<[l := File.set_storage_key k (World.objects w l)]>
                    (World.objects w))
                 (World.queries w),
        Ok tt).

(** Send a query. *)
Definition send (q : Query) : t unit :=
  λ w, (World.mk (World.objects w) (World.queries w ++ [q]), Ok tt).
End M.

Notation "'let+' x ':=' c 'in' k" := (M.bind c (fun x => k))
  (at level 10, x name, c at level 100, k at level 200).

Module StorageKeyLoader.
Record t : Type := mk {
  _session : Session.t;
  _tenant_id : string;
}.
End StorageKeyLoader.

Section StorageKeys.

(** [uuid.UUID(s)], [None] when it raises [ValueError]. *)
Variable UUID : string → option uuid.

(** [{uuid.UUID(id_of(i)): i for i in rows}], extending [acc]. *)
Fixpoint dict_by_uuid {R} (id_of : R → string) (rows : list R)
    (acc : gmap uuid R) : result (gmap uuid R) :=
  match rows with
  | [] => Ok acc
  | i :: rows' =>
      match UUID (id_of i) with
      | Some u => dict_by_uuid id_of rows' (<[u := i]> acc)
      | None => Raise InvalidReference
      end
  end.

Definition _load_upload_files (self : StorageKeyLoader.t)
    (upload_file_ids : list uuid) : M.t (gmap uuid UploadFile.t) :=
  let+ _ := M.send (SelectUploadFiles upload_file_ids
                      (StorageKeyLoader._tenant_id self)) in
  match dict_by_uuid UploadFile.id
          (Session.scalars_upload_files (StorageKeyLoader._session self)
             upload_file_ids (StorageKeyLoader._tenant_id self)) ∅ with
  | inr d => M.ret d
  | inl e => M.raise e
  end.

Definition _load_tool_files (self : StorageKeyLoader.t)
    (tool_file_ids : list uuid) : M.t (gmap uuid ToolFile.t) :=
  let+ _ := M.send (SelectToolFiles tool_file_ids
                      (StorageKeyLoader._tenant_id self)) in
  match dict_by_uuid ToolFile.id
          (Session.scalars_tool_files (StorageKeyLoader._session self)
             tool_file_ids (StorageKeyLoader._tenant_id self)) ∅ with
  | inr d => M.ret d
  | inl e => M.raise e
  end.

(** The first loop of [load_storage_keys]: check every file and collect the
    ids by record type. *)
Fixpoint partition_ids (self : StorageKeyLoader.t) (files : list loc)
    (upload_file_ids tool_file_ids : list uuid)
  : M.t (list uuid * list uuid) :=
  match files with
  | [] => M.ret (upload_file_ids, tool_file_ids)
  | file :: files' =>
      let+ f := M.read file in
      match File.related_id f with
      | None => M.raise MissingReference
      | Some related_model_id =>
          if negb (bool_decide (File.tenant_id f = StorageKeyLoader._tenant_id self))
          then M.raise TenantMismatch
          else
            match UUID related_model_id with
            | None => M.raise InvalidReference
            | Some model_id =>
                match File.transfer_method f with
                | LOCAL_FILE | REMOTE_URL =>
                    partition_ids self files'
                      (upload_file_ids ++ [model_id]) tool_file_ids
                | TOOL_FILE =>
                    partition_ids self files'
                      upload_file_ids (tool_file_ids ++ [model_id])
                end
            end
      end
  end.

(** The second loop of [load_storage_keys]: assign each file the key of its
    record. *)
Fixpoint assign_keys (files : list loc)
    (upload_files : gmap uuid UploadFile.t) (tool_files : gmap uuid ToolFile.t)
  : M.t unit :=
  match files with
  | [] => M.ret tt
  | file :: files' =>
      let+ f := M.read file in
      match File.related_id f ≫= UUID with
      | None => M.raise InvalidReference
      | Some model_id =>
          let+ _ :=
            match File.transfer_method f with
            | LOCAL_FILE | REMOTE_URL =>
                match upload_files !! model_id with
                | None => M.raise RecordNotFound
                | Some upload_file_row =>
                    M.assign_storage_key file (UploadFile.key upload_file_row)
                end
            | TOOL_FILE =>
                match tool_files !! model_id with
                | None => M.raise RecordNotFound
                | Some tool_file_row =>
                    M.assign_storage_key file (ToolFile.file_key tool_file_row)
                end
            end in
          assign_keys files' upload_files tool_files
      end
  end.

Definition load_storage_keys (self : StorageKeyLoader.t) (files : list loc)
  : M.t unit :=
  let+ ids := partition_ids self files [] [] in
  let '(upload_file_ids, tool_file_ids) := ids in
  let+ tool_files := _load_tool_files self tool_file_ids in
  let+ upload_files := _load_upload_files self upload_file_ids in
  assign_keys files upload_files tool_files.

End StorageKeys.

(** ** A record store backed by two tables *)

Module TableStore.
Section TableStore.
Variable UUID : string → option uuid.
Variable upload_files : list UploadFile.t.
Variable tool_files : list ToolFile.t.

Definition id_in (ids : list uuid) (id : string) : bool :=
  match UUID id with
  | Some u => bool_decide (u ∈ ids)
  | None => false
  end.

Definition session : Session.t :=
  Session.mk
    (λ i t, List.find (λ r, String.eqb (UploadFile.id r) i
                            && String.eqb (UploadFile.tenant_id r) t)
                      upload_files)
    (λ i t, List.find (λ r, bool_decide (Some (ToolFile.id r) = i)
                            && String.eqb (ToolFile.tenant_id r) t)
                      tool_files)
    (λ ids t, List.filter (λ r, id_in ids (UploadFile.id r)
                                && String.eqb (UploadFile.tenant_id r) t)
                          upload_files)
    (λ ids t, List.filter (λ r, id_in ids (ToolFile.id r)
                                && String.eqb (ToolFile.tenant_id r) t)
                          tool_files).
End TableStore.
End TableStore.

(** ** A sample deployment

    Concrete collaborators on which the functions above can be run: extension
    tables, a small [mimetypes] database, a [HEAD] that answers 404 except
    for one URL, and a store with three rows. *)

Module Sample.

Definition IMAGE_EXTENSIONS : list string :=
  ["jpg"; "jpeg"; "png"; "webp"; "gif"; "svg"].
Definition VIDEO_EXTENSIONS : list string := ["mp4"; "mov"; "mpeg"; "mpga"].
Definition AUDIO_EXTENSIONS : list string := ["mp3"; "m4a"; "wav"; "webm"; "amr"].
Definition DOCUMENT_EXTENSIONS : list string :=
  ["txt"; "markdown"; "md"; "mdx"; "pdf"; "html"; "htm"; "xlsx"; "xls";
   "docx"; "csv"].

Definition id1 : string := "00000000-0000-0000-0000-000000000001".
Definition id2 : string := "00000000-0000-0000-0000-000000000002".
Definition id3 : string := "00000000-0000-0000-0000-000000000003".
Definition id9 : string := "00000000-0000-0000-0000-000000000009".

Definition UUID (s : string) : option uuid :=
  if String.eqb s id1 then Some 1%N
  else if String.eqb s id2 then Some 2%N
  else if String.eqb s id3 then Some 3%N
  else if String.eqb s id9 then Some 9%N
  else None.

Fixpoint after_first (sep s : string) : option string :=
  if String.prefix sep s then Some (Py.drop (String.length sep) s)
  else match s with
       | EmptyString => None
       | String _ s' => after_first sep s'
       end.

Fixpoint from_slash (s : string) : string :=
  match s with
  | EmptyString => EmptyString
  | String c s' => if Ascii.eqb c "/" then s else from_slash s'
  end.

Fixpoint upto_query (s : string) : string :=
  match s with
  | EmptyString => EmptyString
  | String c s' =>
      if Ascii.eqb c "?" || Ascii.eqb c "#" then EmptyString
      else String c (upto_query s')
  end.

(** The path of [scheme://host/path?query#fragment]. *)
Definition url_path (url : string) : string :=
  upto_query (from_slash (default url (after_first "://" url))).

Definition mime_db : list (string * string) :=
  [("csv", "text/csv"); ("txt", "text/plain"); ("png", "image/png");
   ("jpg", "image/jpeg"); ("pdf", "application/pdf"); ("mp4", "video/mp4")].

Definition guess_type (name : string) : option string :=
  if Py.has_char Py.dot name then
    snd <$> List.find (λ p, String.eqb (fst p) (Py.split_last_char Py.dot name))
                      mime_db
  else None.

Definition guess_extension (type : string) : option string :=
  (λ p, "." ++ fst p) <$> List.find (λ p, String.eqb (snd p) type) mime_db.

Definition digit (c : ascii) : option Z :=
  let n := Z.of_nat (nat_of_ascii c) in
  if (48 <=? n) && (n <=? 57) then Some (n - 48) else None.

Fixpoint digits (s : string) (acc : Z) : option Z :=
  match s with
  | EmptyString => Some acc
  | String c s' =>
      match digit c with
      | Some d => digits s' (10 * acc + d)
      | None => None
      end
  end.

(** [int] on unsigned decimal numerals. *)
Definition py_int (s : string) : option Z :=
  match s with
  | EmptyString => None
  | _ => digits s 0
  end.

Definition head (url : string) : Response.t :=
  if String.eqb url "https://cdn/report" then
    Response.mk 200
      (<["content-disposition" := "attachment; filename=r.pdf"]>
         (<["content-length" := "1234"]> ∅))
  else Response.mk 404 ∅.

Definition get_signed_file_url (upload_file_id : string) : string :=
  "/files/" ++ upload_file_id ++ "/file-preview".

Definition upload_rows : list UploadFile.t :=
  [UploadFile.mk id1 "t1" "cat.png" "png" (Some "image/png") 10 "upload/cat.png" None;
   UploadFile.mk id2 "t1" "notes" "" None 20 "upload/notes" None].

Definition tool_rows : list ToolFile.t :=
  [ToolFile.mk id3 "t1" "out.mp4" "tools/t1/out.mp4" (Some "video/mp4") 30 None].

Definition db_session : Session.t := TableStore.session UUID upload_rows tool_rows.

Definition standardize : string → option string → FileType :=
  _standardize_file_type IMAGE_EXTENSIONS VIDEO_EXTENSIONS AUDIO_EXTENSIONS
    DOCUMENT_EXTENSIONS.

Definition build
    (mapping : Mapping.t) (tenant_id : string)
    (config : option FileUploadConfig.t) (strict : bool) : result File.t :=
  build_from_mapping IMAGE_EXTENSIONS VIDEO_EXTENSIONS AUDIO_EXTENSIONS
    DOCUMENT_EXTENSIONS UUID url_path guess_type guess_extension py_int head
    get_signed_file_url db_session mapping tenant_id config strict.

Definition build_many
    (mappings : list Mapping.t) (config : option FileUploadConfig.t)
    (tenant_id : string) (strict : bool) : result (list File.t) :=
  build_from_mappings IMAGE_EXTENSIONS VIDEO_EXTENSIONS AUDIO_EXTENSIONS
    DOCUMENT_EXTENSIONS UUID url_path guess_type guess_extension py_int head
    get_signed_file_url db_session mappings config tenant_id strict.

Definition build_local :=
  _build_from_local_file IMAGE_EXTENSIONS VIDEO_EXTENSIONS AUDIO_EXTENSIONS
    DOCUMENT_EXTENSIONS UUID db_session.

Definition build_remote :=
  _build_from_remote_url IMAGE_EXTENSIONS VIDEO_EXTENSIONS AUDIO_EXTENSIONS
    DOCUMENT_EXTENSIONS UUID url_path guess_type guess_extension py_int head
    get_signed_file_url db_session.

Definition build_tool :=
  _build_from_tool_file IMAGE_EXTENSIONS VIDEO_EXTENSIONS AUDIO_EXTENSIONS
    DOCUMENT_EXTENSIONS db_session.

(** Descriptors. *)
Definition bare_csv : Mapping.t :=
  <["transfer_method" := Some "remote_url"]>
    (<["url" := Some "https://x/y.csv"]> ∅).

Definition bare_csv_document : Mapping.t :=
  <["type" := Some "document"]> bare_csv.

Definition local_png : Mapping.t :=
  <["transfer_method" := Some "local_file"]>
    (<["upload_file_id" := Some id1]> ∅).

Definition local_png_document : Mapping.t :=
  <["type" := Some "document"]> local_png.

Definition remote_png : Mapping.t :=
  <["transfer_method" := Some "remote_url"]>
    (<["upload_file_id" := Some id1]> ∅).

Definition tool_mp4 : Mapping.t :=
  <["transfer_method" := Some "tool_file"]>
    (<["tool_file_id" := Some id3]> ∅).

(** Files the descriptors build. *)
Definition cat_file : File.t :=
  File.mk None "t1" IMAGE LOCAL_FILE None (Some id1) (Some "cat.png")
    (Some ".png") (Some "image/png") 10 "upload/cat.png".

Definition csv_file : File.t :=
  File.mk None "t1" DOCUMENT REMOTE_URL (Some "https://x/y.csv") None
    (Some "y.csv") (Some ".csv") (Some "text/csv") (-1) "".

(** Policies. *)
Definition documents_only : FileUploadConfig.t :=
  FileUploadConfig.mk None [DOCUMENT] None [] 0.

Definition two_images : FileUploadConfig.t :=
  FileUploadConfig.mk (Some (ImageConfig.mk 2 [])) [] None [] 0.

Definition two_images_two_files : FileUploadConfig.t :=
  FileUploadConfig.mk (Some (ImageConfig.mk 2 [])) [] None [] 2.

(** Objects for the storage-key loader. *)
Definition file_of (method : FileTransferMethod) (related : option string)
    (tenant : string) : File.t :=
  File.mk None tenant CUSTOM method None related None None None (-1) "".

Definition loader : StorageKeyLoader.t := StorageKeyLoader.mk db_session "t1".

Definition objects (l : loc) : File.t :=
  match l with
  | 0%nat => file_of LOCAL_FILE (Some id1) "t1"
  | 1%nat => file_of LOCAL_FILE (Some id9) "t1"
  | 2%nat => file_of TOOL_FILE (Some id3) "t1"
  | 3%nat => file_of REMOTE_URL None "t1"
  | _ => file_of LOCAL_FILE (Some id2) "t2"
  end.

Definition world : World.t := World.mk objects [].

End Sample.

(** ** The policy gates, as the specification words them *)

Module Gates.

Definition category_is (category : option string) (t : FileType) : Prop :=
  category = Some (FileTypeOps.value t).

(** 1. An allowed-category list is configured, the category is not CUSTOM
    and is not in the list: reject. *)
Definition category_gate
    (category : option string) (config : FileUploadConfig.t) : Prop :=
  ¬ (FileUploadConfig.allowed_file_types config ≠ []
     ∧ ¬ category_is category CUSTOM
     ∧ ¬ ∃ t, t ∈ FileUploadConfig.allowed_file_types config
              ∧ category_is category t).

(** 2. The category is CUSTOM, an allowed-extension list is configured and
    the extension is not in it: reject. *)
Definition extension_gate
    (category : option string) (extension : string)
    (config : FileUploadConfig.t) : Prop :=
  ¬ (category_is category CUSTOM
     ∧ ∃ allowed, FileUploadConfig.allowed_file_extensions config = Some allowed
                  ∧ extension ∉ allowed).

(** 3. The category is IMAGE, an image-specific transfer-method list is
    configured and the method is not in it: reject. *)
Definition image_method_gate
    (category : option string) (method : FileTransferMethod)
    (config : FileUploadConfig.t) : Prop :=
  category_is category IMAGE →
  ¬ ∃ image_config,
      FileUploadConfig.image_config config = Some image_config
      ∧ ImageConfig.transfer_methods image_config ≠ []
      ∧ method ∉ ImageConfig.transfer_methods image_config.

(** 4. The category is not IMAGE, a general transfer-method list is
    configured and the method is not in it: reject. *)
Definition general_method_gate
    (category : option string) (method : FileTransferMethod)
    (config : FileUploadConfig.t) : Prop :=
  ¬ category_is category IMAGE →
  ¬ (FileUploadConfig.allowed_file_upload_methods config ≠ []
     ∧ method ∉ FileUploadConfig.allowed_file_upload_methods config).

End Gates.

(** ** What the storage-key loader is expected to compute *)

Module Expected.
Section Expected.
Variable UUID : string → option uuid.

(** The parsed related ids of the files whose transfer method satisfies
    [select], in input order. *)
Definition ids_of (select : FileTransferMethod → bool)
    (objects : loc → File.t) (files : list loc) : list uuid :=
  omap (λ l, if select (File.transfer_method (objects l))
             then File.related_id (objects l) ≫= UUID else None) files.

Definition is_upload (m : FileTransferMethod) : bool :=
  match m with LOCAL_FILE | REMOTE_URL => true | TOOL_FILE => false end.

Definition is_tool (m : FileTransferMethod) : bool :=
  match m with TOOL_FILE => true | _ => false end.

(** The stored key of the record a file is backed by, looked up in the
    two id-to-record maps. *)
Definition key_for
    (upload_files : gmap uuid UploadFile.t) (tool_files : gmap uuid ToolFile.t)
    (f : File.t) : option string :=
  model_id ← File.related_id f ≫= UUID;
  if is_upload (File.transfer_method f)
  then UploadFile.key <$> upload_files !! model_id
  else ToolFile.file_key <$> tool_files !! model_id.

(** Two objects that differ at most in their storage key. *)
Definition same_except_key (f g : File.t) : Prop :=
  File.set_storage_key "" f = File.set_storage_key "" g.

(** The first loop accepts a file. *)
Definition well_referenced (self : StorageKeyLoader.t) (f : File.t) : Prop :=
  File.tenant_id f = StorageKeyLoader._tenant_id self
  ∧ is_Some (File.related_id f ≫= UUID).

(** Every row the store returns carries an id that parses. *)
Definition rows_have_ids (self : StorageKeyLoader.t) : Prop :=
  (∀ ids r, r ∈ Session.scalars_tool_files (StorageKeyLoader._session self) ids
                  (StorageKeyLoader._tenant_id self) →
            is_Some (UUID (ToolFile.id r)))
  ∧ (∀ ids r, r ∈ Session.scalars_upload_files (StorageKeyLoader._session self) ids
                    (StorageKeyLoader._tenant_id self) →
              is_Some (UUID (UploadFile.id r))).

(** [k] is the stored key of a row that the batched lookups over
    [upload_file_ids] and [tool_file_ids] return for the related id of [f]. *)
Definition stored_key_of (self : StorageKeyLoader.t)
    (upload_file_ids tool_file_ids : list uuid) (f : File.t) (k : string)
  : Prop :=
  ∃ model_id,
    File.related_id f ≫= UUID = Some model_id
    ∧ if is_upload (File.transfer_method f)
      then ∃ row,
             row ∈ Session.scalars_upload_files (StorageKeyLoader._session self)
                     upload_file_ids (StorageKeyLoader._tenant_id self)
             ∧ UUID (UploadFile.id row) = Some model_id
             ∧ UploadFile.key row = k
      else ∃ row,
             row ∈ Session.scalars_tool_files (StorageKeyLoader._session self)
                     tool_file_ids (StorageKeyLoader._tenant_id self)
             ∧ UUID (ToolFile.id row) = Some model_id
             ∧ ToolFile.file_key row = k.

End Expected.
End Expected.

(** An extension as [File] promises it: empty, or led by the separator. *)
Definition dotted (extension : string) : Prop :=
  extension = "" ∨ ∃ rest, extension = String Py.dot rest.

(** ** The aggregate limits, as the specification words them *)

(** An image-count limit is configured and the number of IMAGE files
    exceeds it. *)
Definition image_limit_exceeded
    (config : FileUploadConfig.t) (files : list File.t) : Prop :=
  ∃ image_config,
    FileUploadConfig.image_config config = Some image_config
    ∧ count_images files > ImageConfig.number_limits image_config.

(** An overall count limit is configured and the total exceeds it. *)
Definition file_limit_exceeded
    (config : FileUploadConfig.t) (files : list File.t) : Prop :=
  FileUploadConfig.number_limits config ≠ 0
  ∧ Z.of_nat (List.length files) > FileUploadConfig.number_limits config.

(** ** The rest of the module *)

(** [get_file_type_by_mime_type]. *)
Definition get_file_type_by_mime_type (mime_type : string) : FileType :=
  default CUSTOM (_get_file_type_by_mimetype mime_type).

(** The [MessageFile] row of [models], declared outside this module, with
    the columns this module reads. *)
Module MessageFile.
Record t : Type := mk {
  id : string;
  type : string;
  transfer_method : string;
  url : option string;
  belongs_to : option string;
  upload_file_id : option string;
}.
End MessageFile.

(** [FileBelongsTo.ASSISTANT] of [core.file], declared outside this module:
    a string enumeration member, compared with the [belongs_to] column. *)
Definition ASSISTANT : string := "assistant".

Section MessageFiles.

Variables IMAGE_EXTENSIONS VIDEO_EXTENSIONS AUDIO_EXTENSIONS
          DOCUMENT_EXTENSIONS : list string.
Variable UUID : string → option uuid.
Variable url_path : string → string.
Variable guess_type : string → option string.
Variable guess_extension : string → option string.
Variable py_int : string → option Z.
Variable head : string → Response.t.
Variable get_signed_file_url : string → string.
Variable db_session : Session.t.

(** The descriptor [build_from_message_file] makes of a message file. *)
Definition message_file_mapping (message_file : MessageFile.t) : Mapping.t :=
  <["transfer_method" := Some (MessageFile.transfer_method message_file)]>
    (<["url" := MessageFile.url message_file]>
       (<["id" := Some (MessageFile.id message_file)]>
          (<["type" := Some (MessageFile.type message_file)]>
             (<["upload_file_id" := MessageFile.upload_file_id message_file]> ∅)))).

Definition build_from_message_file
    (message_file : MessageFile.t) (tenant_id : string)
    (config : FileUploadConfig.t) : result File.t :=
  let mapping := message_file_mapping message_file in
  build_from_mapping IMAGE_EXTENSIONS VIDEO_EXTENSIONS AUDIO_EXTENSIONS
    DOCUMENT_EXTENSIONS UUID url_path guess_type guess_extension py_int head
    get_signed_file_url db_session mapping tenant_id (Some config) false.

Definition build_from_message_files
    (message_files : list MessageFile.t) (tenant_id : string)
    (config : FileUploadConfig.t) : result (list File.t) :=
  let results :=
    mapM (λ file, build_from_message_file file tenant_id config)
         (filter (λ file, MessageFile.belongs_to file ≠ Some ASSISTANT)
                 message_files) in
  results.

End MessageFiles.

(** A [File] with another [remote_url]. *)
Definition with_remote_url (u : option string) (f : File.t) : File.t :=
  File.mk (File.id f) (File.tenant_id f) (File.type f) (File.transfer_method f)
    u (File.related_id f) (File.filename f) (File.extension f)
    (File.mime_type f) (File.size f) (File.storage_key f).

(** More of the sample deployment. *)
Module SampleMore.

Definition user_png : MessageFile.t :=
  MessageFile.mk "m1" "image" "local_file" None (Some "user") (Some Sample.id1).

Definition assistant_png : MessageFile.t :=
  MessageFile.mk "m2" "image" "local_file" None (Some "assistant")
    (Some Sample.id1).

Definition tool_message : MessageFile.t :=
  MessageFile.mk "m3" "video" "tool_file" None (Some "user") (Some Sample.id3).

Definition accept_all : FileUploadConfig.t :=
  FileUploadConfig.mk None [] None [] 0.

Definition no_extensions : FileUploadConfig.t :=
  FileUploadConfig.mk None [] (Some []) [] 0.

Definition png_only : FileUploadConfig.t :=
  FileUploadConfig.mk None [] (Some [".png"]) [] 0.

Definition unknown_method : Mapping.t :=
  <["transfer_method" := Some "ftp"]> (<["url" := Some "ftp://x/y"]> ∅).

Definition bare_data : Mapping.t :=
  <["transfer_method" := Some "remote_url"]>
    (<["url" := Some "https://x/data"]> ∅).

Definition build_message (message_file : MessageFile.t) :=
  build_from_message_file Sample.IMAGE_EXTENSIONS Sample.VIDEO_EXTENSIONS
    Sample.AUDIO_EXTENSIONS Sample.DOCUMENT_EXTENSIONS Sample.UUID
    Sample.url_path Sample.guess_type Sample.guess_extension Sample.py_int
    Sample.head Sample.get_signed_file_url Sample.db_session message_file.

Definition build_messages (message_files : list MessageFile.t) :=
  build_from_message_files Sample.IMAGE_EXTENSIONS Sample.VIDEO_EXTENSIONS
    Sample.AUDIO_EXTENSIONS Sample.DOCUMENT_EXTENSIONS Sample.UUID
    Sample.url_path Sample.guess_type Sample.guess_extension Sample.py_int
    Sample.head Sample.get_signed_file_url Sample.db_session message_files.

Definition remote_info :=
  _get_remote_file_info Sample.url_path Sample.guess_type Sample.py_int
    Sample.head.

(** The file of the message file [user_png]. *)
Definition user_png_file : File.t :=
  File.mk (Some "m1") "t1" IMAGE LOCAL_FILE None (Some Sample.id1)
    (Some "cat.png") (Some ".png") (Some "image/png") 10 "upload/cat.png".

(** The file the record-backed REMOTE_URL descriptor builds. *)
Definition remote_png_file : File.t :=
  File.mk None "t1" IMAGE REMOTE_URL
    (Some (Sample.get_signed_file_url Sample.id1)) (Some Sample.id1)
    (Some "cat.png") (Some ".png") (Some "image/png") 10 "upload/cat.png".

(** A world whose object 0 is a built file with a record. *)
Definition built_world : World.t :=
  World.mk (λ l, match l with
                 | 0%nat => Sample.cat_file
                 | 1%nat => Sample.csv_file
                 | _ => remote_png_file
                 end) [].

End SampleMore.

(** * Properties *)

(** ** Exceptions *)

Lemma rbind_raise_if {A} (c : bool) (e : Error) (k : unit → result A) :
  rbind (raise_if c e) k = if c then Raise e else k tt.
Proof. by destruct c. Qed.

Lemma rbind_Ok {A B} (a : A) (k : A → result B) : rbind (Ok a) k = k a.
Proof. done. Qed.

Lemma rbind_inr_inv {A B} (r : result A) (k : A → result B) (b : B) :
  rbind r k = inr b → ∃ a, r = inr a ∧ k a = inr b.
Proof. destruct r as [e|a]; simpl; [done|eauto]. Qed.

Lemma rbind_inl_inv {A B} (r : result A) (k : A → result B) (e : Error) :
  rbind r k = inl e → r = inl e ∨ ∃ a, r = inr a ∧ k a = inl e.
Proof. destruct r as [e'|a]; simpl; [intros [= ->]; by left | eauto]. Qed.

Lemma mem_true (x : string) (xs : list string) : Py.mem x xs = true ↔ x ∈ xs.
Proof. unfold Py.mem. by rewrite bool_decide_eq_true. Qed.

Lemma mem_false (x : string) (xs : list string) : Py.mem x xs = false ↔ x ∉ xs.
Proof. unfold Py.mem. by rewrite bool_decide_eq_false. Qed.

Lemma truthy_nonempty (s : string) : Py.truthy (Some s) = true ↔ s ≠ "".
Proof. destruct s; simpl; split; congruence. Qed.

Lemma nonempty_Some (v : option string) (s : string) :
  Py.nonempty v = Some s ↔ v = Some s ∧ s ≠ "".
Proof.
  unfold Py.nonempty.
  destruct v as [[|c r]|]; simpl; (split; [intros [= <-] | intros [[= <-] ?]]); done.
Qed.

Lemma nonempty_None (v : option string) :
  Py.nonempty v = None ↔ Py.truthy v = false.
Proof. unfold Py.nonempty. by destruct (Py.truthy v) eqn:E; destruct v. Qed.

(** ** The classifier *)

Section ClassifierFacts.

Variables IMG VID AUD DOC : list string.

Local Abbreviation classify := (_standardize_file_type IMG VID AUD DOC).
Local Abbreviation by_extension := (_get_file_type_by_extension IMG VID AUD DOC).

Lemma by_mimetype_is_some (m : string) :
  ∃ t, _get_file_type_by_mimetype m = Some t.
Proof. unfold _get_file_type_by_mimetype. repeat case_match; eauto. Qed.

Lemma classify_extension_hit (ext : string) (mime : option string) (t : FileType) :
  ext ≠ "" → by_extension ext = Some t → classify ext mime = t.
Proof.
  intros Hne Ht. unfold _standardize_file_type.
  apply truthy_nonempty in Hne. rewrite Hne, Ht. done.
Qed.

Lemma classify_extension_miss (ext : string) (mime : option string) :
  ext = "" ∨ by_extension ext = None →
  classify ext mime =
    match mime with
    | Some m => if Py.truthy (Some m)
                then default CUSTOM (_get_file_type_by_mimetype m) else CUSTOM
    | None => CUSTOM
    end.
Proof.
  intros H. unfold _standardize_file_type.
  assert ((if Py.truthy (Some ext) then by_extension ext else None) = None) as ->.
  { destruct H as [-> | H]; [done|]. rewrite H. by case_match. }
  destruct mime as [m|]; [|done]. by destruct (Py.truthy (Some m)).
Qed.

Lemma by_extension_none (ext : string) :
  by_extension ext = None ↔
  (Py.lstrip Py.dot ext ∉ IMG) ∧ (Py.lstrip Py.dot ext ∉ VID)
  ∧ (Py.lstrip Py.dot ext ∉ AUD) ∧ (Py.lstrip Py.dot ext ∉ DOC).
Proof.
  unfold _get_file_type_by_extension. cbv zeta.
  rewrite <- !mem_false.
  repeat (destruct (Py.mem _ _)); intuition congruence.
Qed.

Lemma classify_document_stem
    (ext : string) (mime : option string) :
  ext ≠ "" →
  Py.lstrip Py.dot ext ∈ DOC → Py.lstrip Py.dot ext ∉ IMG →
  Py.lstrip Py.dot ext ∉ VID → Py.lstrip Py.dot ext ∉ AUD →
  classify ext mime = DOCUMENT.
Proof.
  intros Hne Hdoc Himg Hvid Haud. apply classify_extension_hit; [done|].
  unfold _get_file_type_by_extension. cbv zeta.
  apply mem_true in Hdoc. apply mem_false in Himg, Hvid, Haud.
  by rewrite Himg, Hvid, Haud, Hdoc.
Qed.

Lemma by_extension_not_custom (ext : string) :
  by_extension ext ≠ Some CUSTOM.
Proof.
  unfold _get_file_type_by_extension. cbv zeta. by repeat case_match.
Qed.

(** A mime type that contains "text" is never classified CUSTOM. *)
Lemma classify_text_not_custom (ext mime : string) :
  Py.contains "text" mime = true → classify ext (Some mime) ≠ CUSTOM.
Proof.
  intros Htext.
  destruct (decide (ext = "")) as [He | He];
    [|destruct (by_extension ext) as [t|] eqn:Ht].
  - rewrite classify_extension_miss by (by left).
    assert (Py.truthy (Some mime) = true) as -> by (by destruct mime).
    unfold _get_file_type_by_mimetype. rewrite Htext. simpl.
    by repeat case_match.
  - rewrite (classify_extension_hit ext (Some mime) t) by done.
    intros ->. by apply (by_extension_not_custom ext).
  - rewrite classify_extension_miss by (by right).
    assert (Py.truthy (Some mime) = true) as -> by (by destruct mime).
    unfold _get_file_type_by_mimetype. rewrite Htext. simpl.
    by repeat case_match.
Qed.

End ClassifierFacts.

Lemma append_cons (c : ascii) (s t : string) :
  String c s ++ t = String c (s ++ t).
Proof. reflexivity. Qed.

Lemma prefix_app (p s : string) :
  String.prefix p s = true ↔ ∃ post, s = p ++ post.
Proof.
  revert s. induction p as [|c p IH]; intros [|d s]; simpl.
  - split; [by exists "" | done].
  - split; [by exists (String d s) | done].
  - split; [done | intros [post Hpost]]. by rewrite append_cons in Hpost.
  - destruct (Ascii.ascii_dec c d) as [-> | Hne].
    + rewrite IH. split; intros [post Hpost]; exists post;
        rewrite append_cons in *; congruence.
    + split; [done | intros [post Hpost]].
      rewrite append_cons in Hpost. congruence.
Qed.

(** [Py.contains] is the substring test. *)
Lemma contains_substring (needle hay : string) :
  Py.contains needle hay = true ↔ ∃ pre post, hay = pre ++ needle ++ post.
Proof.
  induction hay as [|c hay IH]; cbn [Py.contains].
  - rewrite orb_false_r, prefix_app. split.
    + intros [post H]. by exists "", post.
    + intros ([|d pre] & post & H); [by exists post|].
      by rewrite append_cons in H.
  - rewrite orb_true_iff, IH, prefix_app. split.
    + intros [[post H] | (pre & post & ->)].
      * by exists "", post.
      * by exists (String c pre), post.
    + intros ([|d pre] & post & H).
      * left. by exists post.
      * right. rewrite append_cons in H. injection H as -> ->. eauto.
Qed.

(** C8. The classifier always returns a category, and the extension comes
    first: an extension whose stem (the extension without leading dots) is
    in the image, video, audio or document table gives that table's category
    whatever the mime type, the tables being tried in this order; an empty
    extension, or one whose stem is in no table, leaves the decision to the
    substring test on the mime type ("image", then "video", then "audio",
    then "text" or "pdf" for DOCUMENT); when that finds nothing, or there is
    no mime type, the result is CUSTOM, as for [classify("", "")]. *)
Theorem standardize_file_type_extension_first
    (IMG VID AUD DOC : list string) (extension : string)
    (mime_type : option string) :
  let stem := Py.lstrip Py.dot extension in
  let category := _standardize_file_type IMG VID AUD DOC extension mime_type in
  (extension ≠ "" → stem ∈ IMG → category = IMAGE)
  ∧ (extension ≠ "" → stem ∉ IMG → stem ∈ VID → category = VIDEO)
  ∧ (extension ≠ "" → stem ∉ IMG → stem ∉ VID → stem ∈ AUD →
     category = AUDIO)
  ∧ (extension ≠ "" → stem ∉ IMG → stem ∉ VID → stem ∉ AUD → stem ∈ DOC →
     category = DOCUMENT)
  ∧ (extension = "" ∨ ((stem ∉ IMG) ∧ (stem ∉ VID) ∧ (stem ∉ AUD) ∧ (stem ∉ DOC)) →
     match mime_type with
     | None => category = CUSTOM
     | Some m =>
         (Py.contains "image" m = true → category = IMAGE)
         ∧ (Py.contains "image" m = false → Py.contains "video" m = true →
            category = VIDEO)
         ∧ (Py.contains "image" m = false → Py.contains "video" m = false →
            Py.contains "audio" m = true → category = AUDIO)
         ∧ (Py.contains "image" m = false → Py.contains "video" m = false →
            Py.contains "audio" m = false →
            Py.contains "text" m = true ∨ Py.contains "pdf" m = true →
            category = DOCUMENT)
         ∧ (Py.contains "image" m = false → Py.contains "video" m = false →
            Py.contains "audio" m = false → Py.contains "text" m = false →
            Py.contains "pdf" m = false → category = CUSTOM)
     end)
  ∧ _standardize_file_type IMG VID AUD DOC "" (Some "") = CUSTOM.
Proof.
  intros stem category.
  assert (Hhit : ∀ t, extension ≠ "" →
                      _get_file_type_by_extension IMG VID AUD DOC extension = Some t →
                      category = t).
  { intros t. apply classify_extension_hit. }
  unfold _get_file_type_by_extension in Hhit. cbv zeta in Hhit. fold stem in Hhit.
  repeat split.
  - intros Hne Hin. apply Hhit; [done|].
    apply mem_true in Hin. by rewrite Hin.
  - intros Hne H1 Hin. apply Hhit; [done|].
    apply mem_false in H1. apply mem_true in Hin. by rewrite H1, Hin.
  - intros Hne H1 H2 Hin. apply Hhit; [done|].
    apply mem_false in H1, H2. apply mem_true in Hin. by rewrite H1, H2, Hin.
  - intros Hne H1 H2 H3 Hin. apply Hhit; [done|].
    apply mem_false in H1, H2, H3. apply mem_true in Hin.
    by rewrite H1, H2, H3, Hin.
  - intros Hmiss.
    assert (Hfall := classify_extension_miss IMG VID AUD DOC extension mime_type).
    fold category in Hfall. rewrite Hfall.
    2:{ destruct Hmiss as [? | ?]; [by left | right]. by apply by_extension_none. }
    destruct mime_type as [m|]; [|done].
    unfold _get_file_type_by_mimetype.
    destruct (Py.truthy (Some m)) eqn:Ht.
    + repeat split.
      * by intros ->.
      * by intros -> ->.
      * by intros -> -> ->.
      * intros -> -> -> [-> | ->]; [done|]. by rewrite orb_true_r.
      * by intros -> -> -> -> ->.
    + assert (m = "") as -> by (by destruct m).
      repeat split; simpl; try done. by intros _ _ _ [? | ?].
Qed.

Ltac by_computation := apply (bool_decide_unpack _); vm_compute; exact I.

Lemma standardize_file_type_extension_first_witness :
  Sample.standardize ".png" (Some "text/plain") = IMAGE
  ∧ Sample.standardize ".zip" (Some "application/pdf") = DOCUMENT.
Proof.
  split.
  - destruct (standardize_file_type_extension_first
                Sample.IMAGE_EXTENSIONS Sample.VIDEO_EXTENSIONS
                Sample.AUDIO_EXTENSIONS Sample.DOCUMENT_EXTENSIONS
                ".png" (Some "text/plain")) as (Himage & _).
    apply Himage; [discriminate | by_computation].
  - destruct (standardize_file_type_extension_first
                Sample.IMAGE_EXTENSIONS Sample.VIDEO_EXTENSIONS
                Sample.AUDIO_EXTENSIONS Sample.DOCUMENT_EXTENSIONS
                ".zip" (Some "application/pdf"))
      as (_ & _ & _ & _ & Hmime & _).
    apply Hmime; [right; repeat split; by_computation | ..];
      first [reflexivity | right; reflexivity].
Defined.

(** ** The upload policy *)

Lemma eq_token_true (c : option string) (t : FileType) :
  FileTypeOps.eq_token c t = true ↔ Gates.category_is c t.
Proof. unfold FileTypeOps.eq_token. by rewrite bool_decide_eq_true. Qed.

Lemma eq_token_false (c : option string) (t : FileType) :
  FileTypeOps.eq_token c t = false ↔ ¬ Gates.category_is c t.
Proof. unfold FileTypeOps.eq_token. by rewrite bool_decide_eq_false. Qed.

Lemma existsb_eq_token (c : option string) (ts : list FileType) :
  existsb (FileTypeOps.eq_token c) ts = true
  ↔ ∃ t, t ∈ ts ∧ Gates.category_is c t.
Proof.
  rewrite existsb_exists. split; intros (t & Hin & Ht); exists t.
  - by rewrite list_elem_of_In, <- eq_token_true.
  - by rewrite <- list_elem_of_In, eq_token_true.
Qed.

Lemma category_gate_bool (c : option string) (cfg : FileUploadConfig.t) :
  Gates.category_gate c cfg ↔
  negb (bool_decide (FileUploadConfig.allowed_file_types cfg = []))
  && negb (existsb (FileTypeOps.eq_token c) (FileUploadConfig.allowed_file_types cfg))
  && negb (FileTypeOps.eq_token c CUSTOM) = false.
Proof.
  unfold Gates.category_gate.
  rewrite <- existsb_eq_token, <- eq_token_true.
  destruct (bool_decide_reflect (FileUploadConfig.allowed_file_types cfg = [])) as [He|He];
    destruct (existsb _ _); destruct (FileTypeOps.eq_token c CUSTOM); simpl;
    split; try done; try (intros _ (? & ? & ?); done).
  intros H. exfalso. apply H. done.
Qed.

Lemma extension_gate_bool (c : option string) (e : string)
    (cfg : FileUploadConfig.t) :
  Gates.extension_gate c e cfg ↔
  FileTypeOps.eq_token c CUSTOM
  && match FileUploadConfig.allowed_file_extensions cfg with
     | Some allowed => negb (Py.mem e allowed)
     | None => false
     end = false.
Proof.
  unfold Gates.extension_gate. rewrite <- eq_token_true.
  destruct (FileTypeOps.eq_token c CUSTOM); simpl.
  - destruct (FileUploadConfig.allowed_file_extensions cfg) as [allowed|].
    + destruct (Py.mem e allowed) eqn:Hm; simpl.
      * apply mem_true in Hm. split; [done|].
        intros _ (_ & a & [= <-] & Hn). done.
      * apply mem_false in Hm. split; [|done].
        intros H. exfalso. apply H. eauto.
    + split; [done|]. intros _ (_ & a & [=] & _).
  - split; [done|]. intros _ (? & _). done.
Qed.

Lemma image_method_gate_bool (c : option string) (m : FileTransferMethod)
    (cfg : FileUploadConfig.t) :
  Gates.image_method_gate c m cfg ↔
  (FileTypeOps.eq_token c IMAGE = true →
   match FileUploadConfig.image_config cfg with
   | Some image_config =>
       negb (bool_decide (ImageConfig.transfer_methods image_config = []))
       && negb (bool_decide (m ∈ ImageConfig.transfer_methods image_config))
   | None => false
   end = false).
Proof.
  unfold Gates.image_method_gate. rewrite eq_token_true.
  apply forall_proper; intros _.
  destruct (FileUploadConfig.image_config cfg) as [ic|].
  - destruct (bool_decide_reflect (ImageConfig.transfer_methods ic = []));
      destruct (bool_decide_reflect (m ∈ ImageConfig.transfer_methods ic)); simpl;
      split; try done; try (intros _ (? & [= <-] & ? & ?); done).
    intros H. exfalso. apply H. eauto.
  - split; [done|]. intros _ (? & [=] & _).
Qed.

Lemma general_method_gate_bool (c : option string) (m : FileTransferMethod)
    (cfg : FileUploadConfig.t) :
  Gates.general_method_gate c m cfg ↔
  (FileTypeOps.eq_token c IMAGE = false →
   negb (bool_decide (FileUploadConfig.allowed_file_upload_methods cfg = []))
   && negb (bool_decide (m ∈ FileUploadConfig.allowed_file_upload_methods cfg))
   = false).
Proof.
  unfold Gates.general_method_gate. rewrite eq_token_false.
  apply forall_proper; intros _.
  destruct (bool_decide_reflect (FileUploadConfig.allowed_file_upload_methods cfg = []));
    destruct (bool_decide_reflect (m ∈ FileUploadConfig.allowed_file_upload_methods cfg));
    simpl; split; try done; try (intros _ (? & ?); done).
  intros H. exfalso. by apply H.
Qed.

(** C6. The upload-policy predicate accepts exactly when the four gates of
    the specification pass: the category gate, the extension gate for CUSTOM
    files, the image-specific method gate for IMAGE files, and the general
    method gate for the other files. For an IMAGE file the general method
    list is never consulted: replacing it changes nothing. *)
Theorem is_file_valid_with_config_gates
    (category : option string) (extension : string)
    (method : FileTransferMethod) (config : FileUploadConfig.t) :
  (_is_file_valid_with_config category extension method config = true
   ↔ Gates.category_gate category config
     ∧ Gates.extension_gate category extension config
     ∧ Gates.image_method_gate category method config
     ∧ Gates.general_method_gate category method config)
  ∧ (Gates.category_is category IMAGE →
     ∀ methods,
       _is_file_valid_with_config category extension method
         (FileUploadConfig.mk
            (FileUploadConfig.image_config config)
            (FileUploadConfig.allowed_file_types config)
            (FileUploadConfig.allowed_file_extensions config)
            methods
            (FileUploadConfig.number_limits config))
       = _is_file_valid_with_config category extension method config).
Proof.
  split.
  - rewrite category_gate_bool, extension_gate_bool, image_method_gate_bool,
      general_method_gate_bool.
    unfold _is_file_valid_with_config.
    destruct (negb (bool_decide (FileUploadConfig.allowed_file_types config = []))
              && negb (existsb _ _) && negb (FileTypeOps.eq_token category CUSTOM));
      [by split; [|intros (? & _)]|].
    destruct (FileTypeOps.eq_token category CUSTOM
              && match FileUploadConfig.allowed_file_extensions config with
                 | Some _ => _ | None => _ end);
      [by split; [|intros (_ & ? & _)]|].
    destruct (FileTypeOps.eq_token category IMAGE).
    + destruct (match FileUploadConfig.image_config config with
                | Some _ => _ | None => _ end).
      * split; [done|]. intros (_ & _ & H & _). by specialize (H eq_refl).
      * done.
    + destruct (negb (bool_decide (FileUploadConfig.allowed_file_upload_methods config = []))
                && negb (bool_decide (method ∈ _))).
      * split; [done|]. intros (_ & _ & _ & H). by specialize (H eq_refl).
      * done.
  - intros Himage methods. apply eq_token_true in Himage.
    unfold _is_file_valid_with_config. simpl. by rewrite Himage.
Qed.

Lemma is_file_valid_with_config_gates_witness :
  let config := FileUploadConfig.mk None [IMAGE] None [] 0 in
  Gates.category_gate (Some "image") config
  ∧ Gates.general_method_gate (Some "image") LOCAL_FILE config.
Proof.
  intros config.
  destruct (is_file_valid_with_config_gates (Some "image") ".png" LOCAL_FILE config)
    as [[Hgates _] _].
  destruct (Hgates eq_refl) as (H1 & _ & _ & H4). by split.
Defined.

(** ** Building files *)

Lemma of_value_Ok (token : string) (t : FileType) :
  FileTypeOps.of_value token = Ok t → FileTypeOps.value t = token.
Proof.
  unfold FileTypeOps.of_value, FileTypeOps.all. cbn [List.find].
  repeat match goal with
         | |- context [String.eqb ?a token] =>
             destruct (String.eqb_spec a token) as [<- | _]; [by intros [= <-] |]
         end.
  done.
Qed.

Lemma of_value_error (token : string) (e : Error) :
  FileTypeOps.of_value token = inl e → e = InvalidCategory.
Proof.
  unfold FileTypeOps.of_value. destruct (List.find _ _); [done|]. by intros [= <-].
Qed.

Section FactoryFacts.

Variables IMAGE_EXTENSIONS VIDEO_EXTENSIONS AUDIO_EXTENSIONS
          DOCUMENT_EXTENSIONS : list string.
Variable UUID : string → option uuid.
Variable url_path : string → string.
Variable guess_type : string → option string.
Variable guess_extension : string → option string.
Variable py_int : string → option Z.
Variable head : string → Response.t.
Variable get_signed_file_url : string → string.
Variable db_session : Session.t.

Local Abbreviation classify :=
  (_standardize_file_type IMAGE_EXTENSIONS VIDEO_EXTENSIONS AUDIO_EXTENSIONS
     DOCUMENT_EXTENSIONS).
Local Abbreviation build_local :=
  (_build_from_local_file IMAGE_EXTENSIONS VIDEO_EXTENSIONS AUDIO_EXTENSIONS
     DOCUMENT_EXTENSIONS UUID db_session).
Local Abbreviation build_remote :=
  (_build_from_remote_url IMAGE_EXTENSIONS VIDEO_EXTENSIONS AUDIO_EXTENSIONS
     DOCUMENT_EXTENSIONS UUID url_path guess_type guess_extension py_int head
     get_signed_file_url db_session).
Local Abbreviation build_tool :=
  (_build_from_tool_file IMAGE_EXTENSIONS VIDEO_EXTENSIONS AUDIO_EXTENSIONS
     DOCUMENT_EXTENSIONS db_session).
Local Abbreviation remote_info :=
  (_get_remote_file_info url_path guess_type py_int head).
Local Abbreviation build_one :=
  (build_from_mapping IMAGE_EXTENSIONS VIDEO_EXTENSIONS AUDIO_EXTENSIONS
     DOCUMENT_EXTENSIONS UUID url_path guess_type guess_extension py_int head
     get_signed_file_url db_session).
Local Abbreviation build_many :=
  (build_from_mappings IMAGE_EXTENSIONS VIDEO_EXTENSIONS AUDIO_EXTENSIONS
     DOCUMENT_EXTENSIONS UUID url_path guess_type guess_extension py_int head
     get_signed_file_url db_session).

Lemma type_differs_true (detected : FileType) (specified : option string) :
  type_differs detected specified = true
  ↔ specified ≠ Some (FileTypeOps.value detected).
Proof.
  unfold type_differs, FileTypeOps.eq_token.
  by rewrite negb_true_iff, bool_decide_eq_false.
Qed.

Lemma type_differs_false (detected : FileType) (specified : option string) :
  type_differs detected specified = false
  ↔ specified = Some (FileTypeOps.value detected).
Proof.
  unfold type_differs, FileTypeOps.eq_token.
  by rewrite negb_false_iff, bool_decide_eq_true.
Qed.

(** The category expression the record-backed paths share never raises a
    type mismatch; it returns the declared category when one is declared and
    is not CUSTOM, and the detected one otherwise. *)
Lemma specified_or_detected_error
    (specified : option string) (detected : FileType) (e : Error) :
  specified_or_detected specified detected = inl e → e = InvalidCategory.
Proof.
  unfold specified_or_detected. destruct specified as [token|]; [|done].
  destruct (_ && _); [apply of_value_error | done].
Qed.

Lemma specified_or_detected_declared
    (specified : option string) (detected t : FileType) (token : string) :
  specified_or_detected specified detected = Ok t →
  specified = Some token → token ≠ "" → token ≠ "custom" →
  FileTypeOps.value t = token.
Proof.
  intros H -> Hne Hcustom. unfold specified_or_detected in H.
  apply truthy_nonempty in Hne. rewrite Hne in H.
  assert (FileTypeOps.eq_token (Some token) CUSTOM = false) as Hc.
  { apply eq_token_false. unfold Gates.category_is. simpl. congruence. }
  rewrite Hc in H. by apply of_value_Ok.
Qed.

Lemma specified_or_detected_default
    (specified : option string) (detected t : FileType) :
  specified_or_detected specified detected = Ok t →
  specified = None ∨ specified = Some "" ∨ specified = Some "custom" →
  t = detected.
Proof.
  intros H [-> | [-> | ->]]; by injection H.
Qed.

(** A category expression followed by a constructor is never a type
    mismatch. *)
Lemma category_then_build_not_mismatch
    (declared : option string) (detected : FileType)
    (k : FileType → File.t) :
  (let* file_type := specified_or_detected declared detected in Ok (k file_type))
  ≠ (Raise TypeMismatch : result File.t).
Proof.
  destruct (specified_or_detected declared detected) as [e|t] eqn:Hs; [|done].
  apply specified_or_detected_error in Hs as ->. done.
Qed.

Lemma build_local_unfold
    (mapping : Mapping.t) (tenant : string) (method : FileTransferMethod)
    (strict : bool) (upload_file_id : string) (row : UploadFile.t) :
  Py.nonempty (Mapping.get mapping "upload_file_id") = Some upload_file_id →
  is_Some (UUID upload_file_id) →
  Session.scalar_upload_file db_session upload_file_id tenant = Some row →
  let detected :=
    classify ("." ++ UploadFile.extension row) (UploadFile.mime_type row) in
  let declared := Mapping.get_or mapping "type" "custom" in
  build_local mapping tenant method strict =
    if strict && type_differs detected declared then Raise TypeMismatch
    else
      let* file_type := specified_or_detected declared detected in
      Ok (File.mk (Mapping.get mapping "id") tenant file_type method
            (UploadFile.source_url row) (Mapping.get mapping "upload_file_id")
            (Some (UploadFile.name row))
            (Some ("." ++ UploadFile.extension row))
            (UploadFile.mime_type row) (UploadFile.size row)
            (UploadFile.key row)).
Proof.
  intros Hid [u Hu] Hrow detected declared.
  unfold _build_from_local_file. rewrite Hid, Hu, Hrow.
  rewrite bool_decide_eq_false_2 by done.
  rewrite !rbind_raise_if. simpl. done.
Qed.

(** C2, as the code has it. For a LOCAL build whose backing record exists,
    the build fails with TypeMismatch exactly when strict validation is
    requested and the declared category, taken to be "custom" when the
    descriptor has no "type" key, is not the classified one; when the build
    succeeds the File's category is the declared one if one is declared and
    it is not CUSTOM, and the classified one otherwise. *)
Theorem local_file_type_mismatch
    (mapping : Mapping.t) (tenant : string) (method : FileTransferMethod)
    (strict : bool) (upload_file_id : string) (row : UploadFile.t) :
  Py.nonempty (Mapping.get mapping "upload_file_id") = Some upload_file_id →
  is_Some (UUID upload_file_id) →
  Session.scalar_upload_file db_session upload_file_id tenant = Some row →
  let detected :=
    classify ("." ++ UploadFile.extension row) (UploadFile.mime_type row) in
  let outcome := build_local mapping tenant method strict in
  (outcome = Raise TypeMismatch
   ↔ strict = true
     ∧ Mapping.get_or mapping "type" "custom" ≠ Some (FileTypeOps.value detected))
  ∧ (∀ file, outcome = Ok file →
       (∀ token, Mapping.get mapping "type" = Some token →
                 token ≠ "" → token ≠ "custom" →
                 FileTypeOps.value (File.type file) = token)
       ∧ (Mapping.get mapping "type" = None
          ∨ Mapping.get mapping "type" = Some ""
          ∨ Mapping.get mapping "type" = Some "custom" →
          File.type file = detected)).
Proof.
  intros Hid Hu Hrow detected outcome.
  pose proof (build_local_unfold mapping tenant method strict _ _ Hid Hu Hrow) as Hb.
  cbv zeta in Hb. fold detected outcome in Hb.
  set (declared := Mapping.get_or mapping "type" "custom") in *.
  split.
  - rewrite Hb. rewrite <- type_differs_true.
    destruct strict, (type_differs detected declared); simpl;
      (split; [|intros [? ?]; done]); try done;
      intros H; by apply category_then_build_not_mismatch in H.
  - intros file Hfile. rewrite Hb in Hfile.
    destruct (strict && type_differs detected declared); [done|].
    apply rbind_inr_inv in Hfile as (t & Ht & [= <-]). simpl.
    assert (Hget : ∀ v, Mapping.get mapping "type" = Some v → declared = Some v).
    { intros v. unfold declared, Mapping.get, Mapping.get_or.
      destruct (mapping !! "type") as [[?|]|]; simpl; congruence. }
    split.
    + intros token Htok. eapply specified_or_detected_declared; eauto.
    + intros Hdef. eapply specified_or_detected_default; [exact Ht|].
      destruct Hdef as [Hnone | [Hv | Hv]]; [|right; left; auto|right; right; auto].
      unfold declared, Mapping.get, Mapping.get_or in *.
      destruct (mapping !! "type") as [[?|]|]; [done | by left | by right; right].
Qed.

Lemma build_remote_record_unfold
    (mapping : Mapping.t) (tenant : string) (method : FileTransferMethod)
    (strict : bool) (upload_file_id : string) (row : UploadFile.t) :
  Py.nonempty (Mapping.get mapping "upload_file_id") = Some upload_file_id →
  is_Some (UUID upload_file_id) →
  Session.scalar_upload_file db_session upload_file_id tenant = Some row →
  let detected :=
    classify ("." ++ UploadFile.extension row) (UploadFile.mime_type row) in
  let declared := Mapping.get mapping "type" in
  build_remote mapping tenant method strict =
    if strict && Py.truthy declared && type_differs detected declared
    then Raise TypeMismatch
    else
      let* file_type := specified_or_detected declared detected in
      Ok (File.mk (Mapping.get mapping "id") tenant file_type method
            (Some (get_signed_file_url upload_file_id))
            (Mapping.get mapping "upload_file_id")
            (Some (UploadFile.name row))
            (Some ("." ++ UploadFile.extension row))
            (UploadFile.mime_type row) (UploadFile.size row)
            (UploadFile.key row)).
Proof.
  intros Hid [u Hu] Hrow detected declared.
  unfold _build_from_remote_url, _build_from_remote_url_record.
  rewrite Hid, Hu, Hrow.
  rewrite bool_decide_eq_false_2 by done.
  by rewrite !rbind_raise_if.
Qed.

Lemma build_tool_unfold
    (mapping : Mapping.t) (tenant : string) (method : FileTransferMethod)
    (strict : bool) (tool_file : ToolFile.t) :
  Session.scalar_tool_file db_session (Mapping.get mapping "tool_file_id") tenant
    = Some tool_file →
  let detected :=
    classify (tool_extension tool_file) (ToolFile.mimetype tool_file) in
  let declared := Mapping.get mapping "type" in
  build_tool mapping tenant method strict =
    if strict && Py.truthy declared && type_differs detected declared
    then Raise TypeMismatch
    else
      let* file_type := specified_or_detected declared detected in
      Ok (File.mk (Mapping.get mapping "id") tenant file_type method
            (ToolFile.original_url tool_file)
            (Some (ToolFile.id tool_file))
            (Some (ToolFile.name tool_file))
            (Some (tool_extension tool_file))
            (ToolFile.mimetype tool_file) (ToolFile.size tool_file)
            (ToolFile.file_key tool_file)).
Proof.
  intros Hrow detected declared.
  unfold _build_from_tool_file. rewrite Hrow.
  by rewrite !rbind_raise_if.
Qed.

Lemma build_remote_bare_unfold
    (mapping : Mapping.t) (tenant : string) (method : FileTransferMethod)
    (strict : bool) (url : string) (mime_type : option string)
    (filename : string) (file_size : Z) (extension : string) :
  Py.nonempty (Mapping.get mapping "upload_file_id") = None →
  Py.nonempty (Py.or_else (Mapping.get mapping "url")
                          (Mapping.get mapping "remote_url")) = Some url →
  remote_info url = Ok (mime_type, filename, file_size) →
  remote_extension guess_extension mime_type filename = Ok extension →
  let category := classify extension mime_type in
  build_remote mapping tenant method strict =
    if type_differs category (Mapping.get_or mapping "type" "custom")
    then Raise TypeMismatch
    else Ok (File.mk (Mapping.get mapping "id") tenant category method
               (Some url) None (Some filename) (Some extension) mime_type
               file_size "").
Proof.
  intros Hid Hurl Hinfo Hext category.
  unfold _build_from_remote_url, _build_from_remote_url_bare.
  rewrite Hid, Hurl, Hinfo. simpl. rewrite Hext. simpl.
  by rewrite rbind_raise_if.
Qed.

(** C3. A bare remote URL (no related-record id) is checked against the
    declared category on every build: the strict flag has no effect on the
    outcome, and once the probe has answered the build fails with
    TypeMismatch exactly when the declared category ("custom" when the
    descriptor has no "type" key) is not the classified one. On the
    record-backed REMOTE_URL path and on the TOOL_PRODUCED path the build
    fails with TypeMismatch exactly when strict validation is requested, a
    category is declared, and it is not the classified one. *)
Theorem type_check_bare_always_others_strict
    (mapping : Mapping.t) (tenant : string) (method : FileTransferMethod) :
  (Py.nonempty (Mapping.get mapping "upload_file_id") = None →
   (∀ strict strict',
      build_remote mapping tenant method strict
      = build_remote mapping tenant method strict')
   ∧ (∀ strict url mime_type filename file_size extension,
        Py.nonempty (Py.or_else (Mapping.get mapping "url")
                                (Mapping.get mapping "remote_url")) = Some url →
        remote_info url = Ok (mime_type, filename, file_size) →
        remote_extension guess_extension mime_type filename = Ok extension →
        build_remote mapping tenant method strict = Raise TypeMismatch
        ↔ Mapping.get_or mapping "type" "custom"
          ≠ Some (FileTypeOps.value (classify extension mime_type))))
  ∧ (∀ strict upload_file_id row,
       Py.nonempty (Mapping.get mapping "upload_file_id") = Some upload_file_id →
       is_Some (UUID upload_file_id) →
       Session.scalar_upload_file db_session upload_file_id tenant = Some row →
       build_remote mapping tenant method strict = Raise TypeMismatch
       ↔ strict = true
         ∧ Py.truthy (Mapping.get mapping "type") = true
         ∧ Mapping.get mapping "type"
           ≠ Some (FileTypeOps.value
                     (classify ("." ++ UploadFile.extension row)
                               (UploadFile.mime_type row))))
  ∧ (∀ strict tool_file,
       Session.scalar_tool_file db_session
         (Mapping.get mapping "tool_file_id") tenant = Some tool_file →
       build_tool mapping tenant method strict = Raise TypeMismatch
       ↔ strict = true
         ∧ Py.truthy (Mapping.get mapping "type") = true
         ∧ Mapping.get mapping "type"
           ≠ Some (FileTypeOps.value
                     (classify (tool_extension tool_file)
                               (ToolFile.mimetype tool_file)))).
Proof.
  assert (Hgated : ∀ (strict : bool) declared detected k,
            (if strict && Py.truthy declared && type_differs detected declared
             then Raise TypeMismatch
             else let* file_type := specified_or_detected declared detected in
                  Ok (k file_type)) = (Raise TypeMismatch : result File.t)
            ↔ strict = true ∧ Py.truthy declared = true
              ∧ declared ≠ Some (FileTypeOps.value detected)).
  { intros strict declared detected k. rewrite <- type_differs_true.
    destruct strict, (Py.truthy declared), (type_differs detected declared);
      simpl; (split; [|intros (? & ? & ?); done]); try done;
      intros H; by apply category_then_build_not_mismatch in H. }
  split; [|split].
  - intros Hid. split.
    + intros strict strict'. unfold _build_from_remote_url. by rewrite Hid.
    + intros strict url mime_type filename file_size extension Hurl Hinfo Hext.
      rewrite (build_remote_bare_unfold mapping tenant method strict
                 url mime_type filename file_size extension) by done.
      rewrite <- type_differs_true.
      by destruct (type_differs _ _).
  - intros strict upload_file_id row Hid Hu Hrow.
    rewrite (build_remote_record_unfold mapping tenant method strict _ _ Hid Hu Hrow).
    apply Hgated.
  - intros strict tool_file Hrow.
    rewrite (build_tool_unfold mapping tenant method strict _ Hrow).
    apply Hgated.
Qed.

Lemma remote_info_not_ok (url : string) :
  Response.status_code (head url) ≠ HTTP_OK →
  remote_info url
  = Ok (guess_type (Py.basename (url_path url)), Py.basename (url_path url), -1).
Proof.
  intros Hstatus. unfold _get_remote_file_info.
  by rewrite bool_decide_eq_false_2.
Qed.

Lemma remote_extension_nonempty
    (mime_type : option string) (filename extension : string) :
  remote_extension guess_extension mime_type filename = Ok extension →
  extension ≠ "".
Proof.
  unfold remote_extension. destruct mime_type as [m|]; [|done].
  destruct (Py.nonempty (guess_extension m)) as [e|] eqn:He.
  - intros [= <-]. by apply nonempty_Some in He as [_ ?].
  - destruct (Py.has_char Py.dot filename); by intros [= <-].
Qed.

(** C1, as the code has it. For the descriptor [{url: "https://x/y.csv"}]
    with no related-record id and a HEAD response that is not OK, the probe
    gives filename "y.csv", size -1 and the mime type guessed from the
    filename; the extension is the one guessed from the mime type, else
    ".csv"; the category is the classified one, DOCUMENT when the stem of
    the extension is in the document table and in no earlier table. The
    build yields that File exactly when the declared category ("custom"
    when the descriptor has no "type" key) is the classified one, and fails
    with TypeMismatch otherwise: with no declared category it fails whenever
    the classified category is not CUSTOM, as for every mime type that
    contains "text". *)
Theorem bare_remote_csv_build
    (mapping : Mapping.t) (tenant : string) (method : FileTransferMethod)
    (strict : bool) (mime : string) :
  Py.nonempty (Mapping.get mapping "upload_file_id") = None →
  Py.or_else (Mapping.get mapping "url") (Mapping.get mapping "remote_url")
    = Some "https://x/y.csv" →
  url_path "https://x/y.csv" = "/y.csv" →
  Response.status_code (head "https://x/y.csv") ≠ HTTP_OK →
  guess_type "y.csv" = Some mime →
  let extension := default ".csv" (Py.nonempty (guess_extension mime)) in
  let category := classify extension (Some mime) in
  let outcome := build_remote mapping tenant method strict in
  let file :=
    File.mk (Mapping.get mapping "id") tenant category method
      (Some "https://x/y.csv") None (Some "y.csv") (Some extension) (Some mime)
      (-1) "" in
  (outcome =
     if bool_decide (Mapping.get_or mapping "type" "custom"
                     = Some (FileTypeOps.value category))
     then Ok file else Raise TypeMismatch)
  ∧ (Py.lstrip Py.dot extension ∈ DOCUMENT_EXTENSIONS →
     Py.lstrip Py.dot extension ∉ IMAGE_EXTENSIONS →
     Py.lstrip Py.dot extension ∉ VIDEO_EXTENSIONS →
     Py.lstrip Py.dot extension ∉ AUDIO_EXTENSIONS →
     category = DOCUMENT)
  ∧ (mapping !! "type" = None → category ≠ CUSTOM →
     outcome = Raise TypeMismatch)
  ∧ (Mapping.get mapping "type" = Some (FileTypeOps.value category) →
     outcome = Ok file)
  ∧ (mapping !! "type" = None → Py.contains "text" mime = true →
     outcome = Raise TypeMismatch).
Proof.
  intros Hid Hurl Hpath Hstatus Hmime extension category outcome file.
  assert (Hinfo : remote_info "https://x/y.csv" = Ok (Some mime, "y.csv", -1)).
  { rewrite remote_info_not_ok by done. rewrite Hpath.
    change (Py.basename "/y.csv") with "y.csv". by rewrite Hmime. }
  assert (Hext : remote_extension guess_extension (Some mime) "y.csv" = Ok extension).
  { unfold remote_extension, extension.
    by destruct (Py.nonempty (guess_extension mime)). }
  assert (Hout : outcome =
            if type_differs category (Mapping.get_or mapping "type" "custom")
            then Raise TypeMismatch else Ok file).
  { unfold outcome.
    rewrite (build_remote_bare_unfold mapping tenant method strict
               "https://x/y.csv" (Some mime) "y.csv" (-1) extension); try done.
    rewrite Hurl. done. }
  assert (Hne : extension ≠ "") by (by eapply remote_extension_nonempty).
  repeat split.
  - rewrite Hout. unfold type_differs, FileTypeOps.eq_token.
    by destruct (bool_decide _).
  - intros Hdoc Himg Hvid Haud.
    by apply (classify_document_stem
                IMAGE_EXTENSIONS VIDEO_EXTENSIONS AUDIO_EXTENSIONS
                DOCUMENT_EXTENSIONS extension (Some mime)).
  - intros Hnone Hcat. rewrite Hout.
    assert (type_differs category (Mapping.get_or mapping "type" "custom") = true)
      as ->; [|done].
    apply type_differs_true. unfold Mapping.get_or. rewrite Hnone. simpl.
    intros [= H]. by destruct category.
  - intros Hdecl. rewrite Hout.
    assert (type_differs category (Mapping.get_or mapping "type" "custom") = false)
      as ->; [|done].
    apply type_differs_false. unfold Mapping.get, Mapping.get_or in *.
    by destruct (mapping !! "type") as [[?|]|].
  - intros Hnone Htext. rewrite Hout.
    assert (type_differs category (Mapping.get_or mapping "type" "custom") = true)
      as ->; [|done].
    apply type_differs_true. unfold Mapping.get_or. rewrite Hnone. simpl.
    intros [= H].
    assert (category ≠ CUSTOM) as Hcat by (by apply classify_text_not_custom).
    by destruct category.
Qed.

Lemma dotted_cons (rest : string) : dotted ("." ++ rest).
Proof. right. by exists rest. Qed.

Lemma tool_extension_dotted (tool_file : ToolFile.t) :
  dotted (tool_extension tool_file).
Proof.
  unfold tool_extension. case_match; apply dotted_cons.
Qed.

Lemma remote_extension_dotted
    (mime_type : option string) (filename extension : string) :
  (∀ m e, guess_extension m = Some e → dotted e) →
  remote_extension guess_extension mime_type filename = Ok extension →
  dotted extension.
Proof.
  intros Hguess. unfold remote_extension. destruct mime_type as [m|]; [|done].
  destruct (Py.nonempty (guess_extension m)) as [e|] eqn:He.
  - intros [= <-]. apply nonempty_Some in He as [He _]. by eapply Hguess.
  - destruct (Py.has_char Py.dot filename); intros [= <-]; apply dotted_cons.
Qed.

(** C10. Every File built by the LOCAL path, by the REMOTE_URL path (with
    or without a backing record) or by the TOOL_PRODUCED path has an
    extension that is empty or starts with ".", given that
    [mimetypes.guess_extension] only returns such extensions (Python
    documents its result as including the leading dot). *)
Theorem built_extension_dotted
    (mapping : Mapping.t) (tenant : string) (method : FileTransferMethod)
    (strict : bool) (file : File.t) :
  (∀ m e, guess_extension m = Some e → dotted e) →
  build_local mapping tenant method strict = Ok file
  ∨ build_remote mapping tenant method strict = Ok file
  ∨ build_tool mapping tenant method strict = Ok file →
  ∃ extension, File.extension file = Some extension ∧ dotted extension.
Proof.
  intros Hguess [Hlocal | [Hremote | Htool]].
  - unfold _build_from_local_file in Hlocal.
    destruct (Py.nonempty _) as [upload_file_id|]; [|done].
    apply rbind_inr_inv in Hlocal as (_ & _ & Hlocal).
    destruct (Session.scalar_upload_file _ _ _) as [row|]; [|done].
    apply rbind_inr_inv in Hlocal as (_ & _ & Hlocal).
    apply rbind_inr_inv in Hlocal as (t & _ & [= <-]).
    eexists. split; [done | apply dotted_cons].
  - unfold _build_from_remote_url in Hremote.
    destruct (Py.nonempty _) as [upload_file_id|].
    + unfold _build_from_remote_url_record in Hremote.
      apply rbind_inr_inv in Hremote as (_ & _ & Hremote).
      destruct (Session.scalar_upload_file _ _ _) as [row|]; [|done].
      apply rbind_inr_inv in Hremote as (_ & _ & Hremote).
      apply rbind_inr_inv in Hremote as (t & _ & [= <-]).
      eexists. split; [done | apply dotted_cons].
    + unfold _build_from_remote_url_bare in Hremote.
      destruct (Py.nonempty _) as [url|]; [|done].
      apply rbind_inr_inv in Hremote as ([[mime_type filename] file_size] & _ & Hremote).
      apply rbind_inr_inv in Hremote as (extension & Hext & Hremote).
      apply rbind_inr_inv in Hremote as (_ & _ & [= <-]).
      eexists. split; [done|]. by eapply remote_extension_dotted.
  - unfold _build_from_tool_file in Htool.
    destruct (Session.scalar_tool_file _ _ _) as [tool_file|]; [|done].
    apply rbind_inr_inv in Htool as (_ & _ & Htool).
    apply rbind_inr_inv in Htool as (t & _ & [= <-]).
    eexists. split; [done | apply tool_extension_dotted].
Qed.

(** ** Policy validation after construction *)

Lemma build_one_with_config
    (mapping : Mapping.t) (tenant : string) (config : FileUploadConfig.t)
    (strict : bool) :
  build_one mapping tenant (Some config) strict =
    let* file := build_one mapping tenant None strict in
    if _is_file_valid_with_config
         (Mapping.get_or mapping "type" "custom")
         (default "" (Py.nonempty (File.extension file)))
         (File.transfer_method file) config
    then Ok file else Raise PolicyViolation.
Proof.
  unfold build_from_mapping.
  destruct (FileTransferMethodOps.value_of _) as [e|transfer_method]; [done|].
  simpl.
  destruct (match transfer_method with
            | LOCAL_FILE => _ | REMOTE_URL => _ | TOOL_FILE => _
            end mapping tenant transfer_method strict) as [e|file]; [done|].
  simpl. by destruct (_is_file_valid_with_config _ _ _ _).
Qed.

(** C9. The policy check that follows a single-file build is given the
    category declared in the descriptor, "custom" when the descriptor has no
    "type" key, and not the category of the built File. So for a descriptor
    without a declared category the outcome is that of the policy on a
    CUSTOM file, whatever the category of the built File; the category
    allow-list and the image configuration then have no effect. *)
Theorem policy_checks_declared_category
    (mapping : Mapping.t) (tenant : string) (config : FileUploadConfig.t)
    (strict : bool) :
  (∀ file,
     build_one mapping tenant None strict = Ok file →
     build_one mapping tenant (Some config) strict =
       if _is_file_valid_with_config
            (Mapping.get_or mapping "type" "custom")
            (default "" (Py.nonempty (File.extension file)))
            (File.transfer_method file) config
       then Ok file else Raise PolicyViolation)
  ∧ (∀ file,
       mapping !! "type" = None →
       build_one mapping tenant None strict = Ok file →
       build_one mapping tenant (Some config) strict =
         if _is_file_valid_with_config
              (Some (FileTypeOps.value CUSTOM))
              (default "" (Py.nonempty (File.extension file)))
              (File.transfer_method file) config
         then Ok file else Raise PolicyViolation)
  ∧ (∀ extension method types image_config,
       _is_file_valid_with_config (Some (FileTypeOps.value CUSTOM))
         extension method
         (FileUploadConfig.mk image_config types
            (FileUploadConfig.allowed_file_extensions config)
            (FileUploadConfig.allowed_file_upload_methods config)
            (FileUploadConfig.number_limits config))
       = _is_file_valid_with_config (Some (FileTypeOps.value CUSTOM))
           extension method config).
Proof.
  repeat split.
  - intros file Hfile. by rewrite build_one_with_config, Hfile.
  - intros file Hnone Hfile. rewrite build_one_with_config, Hfile.
    unfold Mapping.get_or. by rewrite Hnone.
  - intros extension method types image_config.
    unfold _is_file_valid_with_config. simpl.
    change (FileTypeOps.eq_token (Some "custom") CUSTOM) with true.
    change (FileTypeOps.eq_token (Some "custom") IMAGE) with false.
    by rewrite !andb_false_r.
Qed.

(** ** Batches *)

Lemma mapM_first_error {A B} (f : A → result B) (pre post : list A)
    (x : A) (e : Error) :
  (∀ y, y ∈ pre → ∃ b, f y = Ok b) →
  f x = inl e →
  mapM f (pre ++ x :: post)%list = inl e.
Proof.
  intros Hpre Hx. induction pre as [|y pre IH]; simpl.
  - by rewrite Hx.
  - destruct (Hpre y) as [b ->]; [by left|]. simpl.
    rewrite IH; [done|]. intros z Hz. apply Hpre. by right.
Qed.

Lemma mapM_Ok_all {A B} (f : A → result B) (xs : list A) (ys : list B) :
  mapM f xs = Ok ys →
  List.length ys = List.length xs ∧ ∀ x, x ∈ xs → ∃ b, f x = Ok b.
Proof.
  revert ys. induction xs as [|x xs IH]; intros ys; simpl.
  - intros [= <-]. split; [done|]. by intros x ?%elem_of_nil.
  - intros H. apply rbind_inr_inv in H as (y & Hy & H).
    apply rbind_inr_inv in H as (ys' & Hys & [= <-]).
    destruct (IH _ Hys) as [Hlen Hall]. split; [simpl; by rewrite Hlen|].
    intros z [-> | Hz]%elem_of_cons; eauto.
Qed.

(** C7. In a batch build the aggregate limits are looked at only once every
    per-file build has succeeded: if a per-file build fails, the batch fails
    with the first such error whatever the limits. Once all builds have
    succeeded the two checks run in turn: an image configuration whose limit
    is below the number of IMAGE files makes the batch fail with
    TooManyImages; then a non-zero overall limit below the number of files
    makes it fail with TooManyFiles; otherwise the batch is the list of
    built files. An exceeded overall limit thus always fails the batch,
    with TooManyFiles when the first check has passed. *)
Theorem batch_limits_after_builds
    (mappings : list Mapping.t) (config : option FileUploadConfig.t)
    (tenant : string) (strict : bool) :
  let build := λ mapping, build_one mapping tenant config strict in
  let outcome := build_many mappings config tenant strict in
  (∀ pre mapping post e,
     mappings = (pre ++ mapping :: post)%list →
     (∀ m, m ∈ pre → ∃ file, build m = Ok file) →
     build mapping = inl e →
     outcome = inl e)
  ∧ (∀ files,
       mapM build mappings = Ok files →
       match config with
       | None => outcome = Ok files
       | Some cfg =>
           (image_limit_exceeded cfg files → outcome = Raise TooManyImages)
           ∧ (¬ image_limit_exceeded cfg files →
              file_limit_exceeded cfg files → outcome = Raise TooManyFiles)
           ∧ (file_limit_exceeded cfg files →
              outcome = Raise TooManyImages ∨ outcome = Raise TooManyFiles)
           ∧ (¬ image_limit_exceeded cfg files →
              ¬ file_limit_exceeded cfg files → outcome = Ok files)
       end).
Proof.
  intros build outcome. split.
  - intros pre mapping post e -> Hpre Hbuild.
    unfold outcome, build_from_mappings.
    fold build. by rewrite (mapM_first_error build pre post mapping e).
  - intros files Hfiles. unfold outcome, build_from_mappings.
    fold build. rewrite Hfiles. simpl.
    destruct config as [cfg|]; [|done].
    unfold image_limit_exceeded, file_limit_exceeded.
    rewrite !rbind_raise_if.
    destruct (FileUploadConfig.image_config cfg) as [image_config|]; simpl.
    + rewrite rbind_raise_if.
      destruct (bool_decide_reflect
                  (count_images files > ImageConfig.number_limits image_config))
        as [Himg|Himg].
      * split_and!; intros; first [done | by left | exfalso; eauto].
      * assert (Hno : ¬ ∃ ic, Some image_config = Some ic
                              ∧ count_images files > ImageConfig.number_limits ic).
        { by intros (ic & [= <-] & ?). }
        destruct (bool_decide_reflect (FileUploadConfig.number_limits cfg = 0))
          as [Hz|Hz]; simpl;
          [split_and!; intros; first [done | tauto]|].
        destruct (bool_decide_reflect
                    (Z.of_nat (List.length files)
                     > FileUploadConfig.number_limits cfg)) as [Hlen|Hlen];
          split_and!; intros; first [done | by right | tauto].
    + assert (Hno : ¬ ∃ ic : ImageConfig.t, None = Some ic
                              ∧ count_images files > ImageConfig.number_limits ic).
      { by intros (ic & [=] & ?). }
      destruct (bool_decide_reflect (FileUploadConfig.number_limits cfg = 0))
        as [Hz|Hz]; simpl;
        [split_and!; intros; first [done | tauto]|].
      destruct (bool_decide_reflect
                  (Z.of_nat (List.length files)
                   > FileUploadConfig.number_limits cfg)) as [Hlen|Hlen];
        split_and!; intros; first [done | by right | tauto].
Qed.

End FactoryFacts.

(** ** The sample deployment *)

Ltac compute_eq := vm_compute; reflexivity.

(** C1, refuted as stated: the descriptor [{url: "https://x/y.csv"}] has no
    declared category, the HEAD response is not OK, "csv" is a document
    extension, and the build does not succeed: it fails with TypeMismatch,
    with or without strict validation. *)
Lemma bare_remote_csv_undeclared_fails :
  Sample.bare_csv !! "type" = None
  ∧ Mapping.get Sample.bare_csv "url" = Some "https://x/y.csv"
  ∧ Response.status_code (Sample.head "https://x/y.csv") = 404
  ∧ "csv" ∈ Sample.DOCUMENT_EXTENSIONS
  ∧ Sample.build Sample.bare_csv "t1" None false = Raise TypeMismatch
  ∧ Sample.build Sample.bare_csv "t1" None true = Raise TypeMismatch.
Proof.
  split_and!; first [compute_eq | by_computation].
Qed.

Lemma bare_remote_csv_build_witness :
  Sample.build_remote Sample.bare_csv_document "t1" REMOTE_URL false
  = Ok Sample.csv_file.
Proof.
  destruct (bare_remote_csv_build
              Sample.IMAGE_EXTENSIONS Sample.VIDEO_EXTENSIONS
              Sample.AUDIO_EXTENSIONS Sample.DOCUMENT_EXTENSIONS
              Sample.UUID Sample.url_path Sample.guess_type
              Sample.guess_extension Sample.py_int Sample.head
              Sample.get_signed_file_url Sample.db_session
              Sample.bare_csv_document "t1" REMOTE_URL false "text/csv")
    as (_ & _ & _ & Hdeclared & _);
    [compute_eq | compute_eq | compute_eq | by_computation | compute_eq |].
  apply Hdeclared. compute_eq.
Defined.

(** C2, refuted as stated: under strict validation a LOCAL build of a
    descriptor that declares no category fails with TypeMismatch when the
    record is classified IMAGE. *)
Lemma local_file_strict_rejects_undeclared :
  Sample.local_png !! "type" = None
  ∧ Sample.build_local Sample.local_png "t1" LOCAL_FILE false = Ok Sample.cat_file
  ∧ Sample.build_local Sample.local_png "t1" LOCAL_FILE true = Raise TypeMismatch.
Proof.
  split_and!; compute_eq.
Qed.

Lemma local_file_type_mismatch_witness :
  Sample.build_local Sample.local_png_document "t1" LOCAL_FILE true
  = Raise TypeMismatch.
Proof.
  apply (local_file_type_mismatch
           Sample.IMAGE_EXTENSIONS Sample.VIDEO_EXTENSIONS
           Sample.AUDIO_EXTENSIONS Sample.DOCUMENT_EXTENSIONS
           Sample.UUID Sample.db_session
           Sample.local_png_document "t1" LOCAL_FILE true Sample.id1
           (UploadFile.mk Sample.id1 "t1" "cat.png" "png" (Some "image/png") 10
              "upload/cat.png" None)).
  - compute_eq.
  - exists 1%N. compute_eq.
  - compute_eq.
  - split; [reflexivity | by_computation].
Defined.

Lemma type_check_bare_always_others_strict_witness :
  Sample.build_remote Sample.bare_csv "t1" REMOTE_URL false = Raise TypeMismatch
  ∧ Sample.build_remote Sample.remote_png "t1" REMOTE_URL true
    ≠ Raise TypeMismatch
  ∧ Sample.build_tool Sample.tool_mp4 "t1" TOOL_FILE true ≠ Raise TypeMismatch.
Proof.
  split_and!.
  - destruct (type_check_bare_always_others_strict
                Sample.IMAGE_EXTENSIONS Sample.VIDEO_EXTENSIONS
                Sample.AUDIO_EXTENSIONS Sample.DOCUMENT_EXTENSIONS
                Sample.UUID Sample.url_path Sample.guess_type
                Sample.guess_extension Sample.py_int Sample.head
                Sample.get_signed_file_url Sample.db_session
                Sample.bare_csv "t1" REMOTE_URL) as (Hbare & _).
    destruct Hbare as [_ Hbare]; [compute_eq|].
    apply (Hbare false "https://x/y.csv" (Some "text/csv") "y.csv" (-1) ".csv");
      first [compute_eq | by_computation].
  - destruct (type_check_bare_always_others_strict
                Sample.IMAGE_EXTENSIONS Sample.VIDEO_EXTENSIONS
                Sample.AUDIO_EXTENSIONS Sample.DOCUMENT_EXTENSIONS
                Sample.UUID Sample.url_path Sample.guess_type
                Sample.guess_extension Sample.py_int Sample.head
                Sample.get_signed_file_url Sample.db_session
                Sample.remote_png "t1" REMOTE_URL) as (_ & Hrecord & _).
    intros Hmismatch.
    apply (Hrecord true Sample.id1
             (UploadFile.mk Sample.id1 "t1" "cat.png" "png" (Some "image/png")
                10 "upload/cat.png" None)) in Hmismatch
      as (_ & Hdeclared & _);
      [vm_compute in Hdeclared; discriminate | compute_eq
      | exists 1%N; compute_eq | compute_eq].
  - destruct (type_check_bare_always_others_strict
                Sample.IMAGE_EXTENSIONS Sample.VIDEO_EXTENSIONS
                Sample.AUDIO_EXTENSIONS Sample.DOCUMENT_EXTENSIONS
                Sample.UUID Sample.url_path Sample.guess_type
                Sample.guess_extension Sample.py_int Sample.head
                Sample.get_signed_file_url Sample.db_session
                Sample.tool_mp4 "t1" TOOL_FILE) as (_ & _ & Htool).
    intros Hmismatch.
    apply (Htool true
             (ToolFile.mk Sample.id3 "t1" "out.mp4" "tools/t1/out.mp4"
                (Some "video/mp4") 30 None)) in Hmismatch
      as (_ & Hdeclared & _);
      [vm_compute in Hdeclared; discriminate | compute_eq].
Defined.

Lemma sample_guess_extension_dotted (m e : string) :
  Sample.guess_extension m = Some e → dotted e.
Proof.
  unfold Sample.guess_extension.
  destruct (List.find _ _) as [p|]; [|done].
  intros [= <-]. right. by exists (fst p).
Defined.

Lemma built_extension_dotted_witness :
  ∃ extension,
    File.extension Sample.csv_file = Some extension ∧ dotted extension.
Proof.
  apply (built_extension_dotted
           Sample.IMAGE_EXTENSIONS Sample.VIDEO_EXTENSIONS
           Sample.AUDIO_EXTENSIONS Sample.DOCUMENT_EXTENSIONS
           Sample.UUID Sample.url_path Sample.guess_type
           Sample.guess_extension Sample.py_int Sample.head
           Sample.get_signed_file_url Sample.db_session
           Sample.bare_csv_document "t1" REMOTE_URL false Sample.csv_file).
  - exact sample_guess_extension_dotted.
  - right. left. compute_eq.
Defined.

Lemma policy_checks_declared_category_witness :
  File.type Sample.cat_file = IMAGE
  ∧ Sample.build Sample.local_png "t1" (Some Sample.documents_only) false
    = Ok Sample.cat_file.
Proof.
  split; [reflexivity|].
  destruct (policy_checks_declared_category
              Sample.IMAGE_EXTENSIONS Sample.VIDEO_EXTENSIONS
              Sample.AUDIO_EXTENSIONS Sample.DOCUMENT_EXTENSIONS
              Sample.UUID Sample.url_path Sample.guess_type
              Sample.guess_extension Sample.py_int Sample.head
              Sample.get_signed_file_url Sample.db_session
              Sample.local_png "t1" Sample.documents_only false)
    as (_ & Hundeclared & _).
  unfold Sample.build.
  rewrite (Hundeclared Sample.cat_file); [reflexivity | compute_eq | compute_eq].
Defined.

(** The two checks in turn: three IMAGE files are built, the image limit is
    2 and the overall limit is 2; both are exceeded and the first check, on
    the images, is the one that fails the batch. *)
Lemma batch_both_limits_reports_images :
  let mappings := [Sample.local_png; Sample.local_png; Sample.local_png] in
  mapM (λ m, Sample.build m "t1" (Some Sample.two_images_two_files) false) mappings
  = Ok [Sample.cat_file; Sample.cat_file; Sample.cat_file]
  ∧ file_limit_exceeded Sample.two_images_two_files
      [Sample.cat_file; Sample.cat_file; Sample.cat_file]
  ∧ Sample.build_many mappings (Some Sample.two_images_two_files) "t1" false
    = Raise TooManyImages.
Proof.
  split_and!; [compute_eq | split; [discriminate | compute_eq] | compute_eq].
Qed.

Lemma batch_limits_after_builds_witness :
  Sample.build_many [Sample.local_png; Sample.local_png; Sample.local_png]
    (Some Sample.two_images) "t1" false
  = Raise TooManyImages.
Proof.
  destruct (batch_limits_after_builds
              Sample.IMAGE_EXTENSIONS Sample.VIDEO_EXTENSIONS
              Sample.AUDIO_EXTENSIONS Sample.DOCUMENT_EXTENSIONS
              Sample.UUID Sample.url_path Sample.guess_type
              Sample.guess_extension Sample.py_int Sample.head
              Sample.get_signed_file_url Sample.db_session
              [Sample.local_png; Sample.local_png; Sample.local_png]
              (Some Sample.two_images) "t1" false) as (_ & Hlimits).
  destruct (Hlimits [Sample.cat_file; Sample.cat_file; Sample.cat_file])
    as (Himages & _); [compute_eq|].
  apply Himages. exists (ImageConfig.mk 2 []). split; compute_eq.
Defined.

(** ** The storage-key loader *)

Section LoaderFacts.

Variable UUID : string → option uuid.
Variable self : StorageKeyLoader.t.

Local Abbreviation tenant := (StorageKeyLoader._tenant_id self).
Local Abbreviation session := (StorageKeyLoader._session self).
Local Abbreviation well_referenced := (Expected.well_referenced UUID self).
Local Abbreviation upload_ids := (Expected.ids_of UUID Expected.is_upload).
Local Abbreviation tool_ids := (Expected.ids_of UUID Expected.is_tool).

(** One turn of the first loop. *)
Lemma partition_ids_cons (file : loc) (files : list loc)
    (ups tls : list uuid) (w : World.t) :
  partition_ids UUID self (file :: files) ups tls w =
    let f := World.objects w file in
    match File.related_id f with
    | None => (w, inl MissingReference)
    | Some related =>
        if bool_decide (File.tenant_id f = tenant) then
          match UUID related with
          | None => (w, inl InvalidReference)
          | Some model_id =>
              if Expected.is_upload (File.transfer_method f)
              then partition_ids UUID self files (ups ++ [model_id]) tls w
              else partition_ids UUID self files ups (tls ++ [model_id]) w
          end
        else (w, inl TenantMismatch)
    end.
Proof.
  cbn [partition_ids]. unfold M.bind, M.read, M.raise, Ok, Raise. simpl.
  destruct (File.related_id _) as [related|]; [|done].
  destruct (bool_decide _); simpl; [|done].
  destruct (UUID related); [|done].
  by destruct (File.transfer_method _).
Qed.

Lemma ids_of_cons (select : FileTransferMethod → bool) (objects : loc → File.t)
    (file : loc) (files : list loc) :
  Expected.ids_of UUID select objects (file :: files) =
    match (if select (File.transfer_method (objects file))
           then File.related_id (objects file) ≫= UUID else None) with
    | Some u => u :: Expected.ids_of UUID select objects files
    | None => Expected.ids_of UUID select objects files
    end.
Proof. done. Qed.

(** The first loop leaves the world as it is. *)
Lemma partition_ids_world (files : list loc) (ups tls : list uuid) (w : World.t) :
  (partition_ids UUID self files ups tls w).1 = w.
Proof.
  revert ups tls. induction files as [|file files IH]; intros ups tls; [done|].
  rewrite partition_ids_cons. cbv zeta.
  repeat case_match; try done; apply IH.
Qed.

(** When it returns, it returns the ids by record type, in input order, and
    every file was well referenced. *)
Lemma partition_ids_returns (files : list loc) (ups tls : list uuid)
    (w : World.t) (ups' tls' : list uuid) :
  (partition_ids UUID self files ups tls w).2 = inr (ups', tls') →
  ups' = (ups ++ upload_ids (World.objects w) files)%list
  ∧ tls' = (tls ++ tool_ids (World.objects w) files)%list
  ∧ ∀ l, l ∈ files → well_referenced (World.objects w l).
Proof.
  revert ups tls. induction files as [|file files IH]; intros ups tls.
  - intros [= <- <-]. rewrite !app_nil_r. split_and!; [done..|].
    by intros l ?%elem_of_nil.
  - rewrite partition_ids_cons, !ids_of_cons. cbv zeta.
    destruct (File.related_id (World.objects w file)) as [related|] eqn:Hrel;
      [|done].
    destruct (bool_decide_reflect (File.tenant_id (World.objects w file) = tenant))
      as [Hten|Hten]; [|done].
    simpl. destruct (UUID related) as [u|] eqn:Hu; [|done].
    assert (well_referenced (World.objects w file)) as Hwell.
    { split; [done|]. rewrite Hrel. simpl. rewrite Hu. by eexists. }
    destruct (File.transfer_method (World.objects w file)); simpl;
      intros H; apply IH in H as (-> & -> & Hall);
      rewrite <- ?app_assoc; (split_and!; [done..|]);
      intros l [-> | Hl]%elem_of_cons; auto.
Qed.

(** When it raises, some file is the reason. *)
Lemma partition_ids_raises (files : list loc) (ups tls : list uuid)
    (w : World.t) (e : Error) :
  (partition_ids UUID self files ups tls w).2 = inl e →
  ∃ l, l ∈ files ∧
    ((e = MissingReference ∧ File.related_id (World.objects w l) = None)
     ∨ (e = TenantMismatch ∧ File.tenant_id (World.objects w l) ≠ tenant)
     ∨ (e = InvalidReference
        ∧ File.related_id (World.objects w l) ≫= UUID = None)).
Proof.
  revert ups tls. induction files as [|file files IH]; intros ups tls; [done|].
  rewrite partition_ids_cons. cbv zeta.
  destruct (File.related_id (World.objects w file)) as [related|] eqn:Hrel.
  2:{ intros [= <-]. exists file. split; [by left|]. by left. }
  destruct (bool_decide_reflect (File.tenant_id (World.objects w file) = tenant))
    as [Hten|Hten].
  2:{ intros [= <-]. exists file. split; [by left|]. right. by left. }
  destruct (UUID related) as [u|] eqn:Hu.
  2:{ intros [= <-]. exists file. split; [by left|]. right. right.
      rewrite Hrel. by simpl. }
  destruct (Expected.is_upload _); intros H; apply IH in H as (l & Hl & H);
    exists l; (split; [by right | done]).
Qed.

(** It returns whenever every file is well referenced. *)
Lemma partition_ids_total (files : list loc) (ups tls : list uuid) (w : World.t) :
  (∀ l, l ∈ files → well_referenced (World.objects w l)) →
  ∃ ids, (partition_ids UUID self files ups tls w).2 = inr ids.
Proof.
  intros Hall.
  destruct (partition_ids UUID self files ups tls w).2 as [e|ids] eqn:H; [|eauto].
  apply partition_ids_raises in H as (l & Hl & H).
  destruct (Hall l Hl) as [Hten [u Hu]].
  destruct H as [[_ H] | [[_ H] | [_ H]]]; [|done|congruence].
  by rewrite H in Hu.
Qed.

(** The id-to-record dictionaries. *)
Lemma dict_by_uuid_error {R} (id_of : R → string) (rows : list R)
    (acc : gmap uuid R) (e : Error) :
  dict_by_uuid UUID id_of rows acc = inl e → e = InvalidReference.
Proof.
  revert acc. induction rows as [|r rows IH]; intros acc; simpl; [done|].
  destruct (UUID (id_of r)); [apply IH | by intros [= <-]].
Qed.

Lemma dict_by_uuid_total {R} (id_of : R → string) (rows : list R)
    (acc : gmap uuid R) :
  (∀ r, r ∈ rows → is_Some (UUID (id_of r))) →
  ∃ d, dict_by_uuid UUID id_of rows acc = Ok d.
Proof.
  revert acc. induction rows as [|r rows IH]; intros acc Hrows; simpl; [eauto|].
  destruct (Hrows r) as [u ->]; [by left|].
  apply IH. intros r' Hr'. apply Hrows. by right.
Qed.

Lemma dict_by_uuid_lookup {R} (id_of : R → string) (rows : list R)
    (acc d : gmap uuid R) (u : uuid) :
  dict_by_uuid UUID id_of rows acc = Ok d →
  match d !! u with
  | Some r => (r ∈ rows ∧ UUID (id_of r) = Some u) ∨ acc !! u = Some r
  | None => acc !! u = None ∧ ∀ r, r ∈ rows → UUID (id_of r) ≠ Some u
  end.
Proof.
  revert acc. induction rows as [|r rows IH]; intros acc; simpl.
  - intros [= <-]. destruct (acc !! u); [by right|].
    split; [done|]. by intros r ?%elem_of_nil.
  - destruct (UUID (id_of r)) as [v|] eqn:Hv; [|done].
    intros H. specialize (IH _ H). destruct (d !! u) as [r'|].
    + destruct IH as [[Hin Hr'] | Hacc].
      * left. split; [by right | done].
      * destruct (decide (v = u)) as [-> | Hne].
        -- rewrite lookup_insert_eq in Hacc. injection Hacc as <-.
           left. split; [by left | done].
        -- rewrite lookup_insert_ne in Hacc by done. by right.
    + destruct IH as [Hacc Hrows].
      destruct (decide (v = u)) as [-> | Hne];
        [by rewrite lookup_insert_eq in Hacc|].
      rewrite lookup_insert_ne in Hacc by done. split; [done|].
      intros r' [-> | Hr']%elem_of_cons; [congruence | by apply Hrows].
Qed.

(** Objects that differ at most in their storage key have the same record. *)
Lemma key_for_same_except_key
    (ups : gmap uuid UploadFile.t) (tls : gmap uuid ToolFile.t) (f g : File.t) :
  Expected.same_except_key f g →
  Expected.key_for UUID ups tls f = Expected.key_for UUID ups tls g.
Proof.
  unfold Expected.same_except_key, Expected.key_for. intros H.
  assert (File.related_id f = File.related_id g) as ->
    by apply (f_equal File.related_id H).
  assert (File.transfer_method f = File.transfer_method g) as ->
    by apply (f_equal File.transfer_method H).
  done.
Qed.

Lemma same_except_key_set (k : string) (f : File.t) :
  Expected.same_except_key (File.set_storage_key k f) f.
Proof. done. Qed.

(** One turn of the second loop. *)
Lemma assign_keys_cons (file : loc) (files : list loc)
    (ups : gmap uuid UploadFile.t) (tls : gmap uuid ToolFile.t) (w : World.t) :
  assign_keys UUID (file :: files) ups tls w =
    let f := World.objects w file in
    match File.related_id f ≫= UUID with
    | None => (w, inl InvalidReference)
    | Some _ =>
        match Expected.key_for UUID ups tls f with
        | None => (w, inl RecordNotFound)
        | Some k =>
            assign_keys UUID files ups tls
              (World.mk (<[file := File.set_storage_key k f]> (World.objects w))
                        (World.queries w))
        end
    end.
Proof.
  cbn [assign_keys]. unfold Expected.key_for.
  unfold M.bind, M.read, M.raise, M.assign_storage_key, Ok, Raise. simpl.
  destruct (File.related_id (World.objects w file) ≫= UUID) as [u|]; [|done].
  simpl.
  destruct (File.transfer_method (World.objects w file)); simpl;
    first [by destruct (ups !! u) | by destruct (tls !! u)].
Qed.

(** The second loop: the files of [assigned], a prefix of the input, have
    received the key of their record, every other object is as it was, and
    the loop either reached the end or stopped at the first file without a
    record. *)
Lemma assign_keys_run (files : list loc)
    (ups : gmap uuid UploadFile.t) (tls : gmap uuid ToolFile.t) (w : World.t) :
  ∃ assigned,
    let w' := (assign_keys UUID files ups tls w).1 in
    (∀ l, l ∈ assigned →
          Expected.key_for UUID ups tls (World.objects w l)
          = Some (File.storage_key (World.objects w' l)))
    ∧ (∀ l, l ∉ assigned → World.objects w' l = World.objects w l)
    ∧ (∀ l, Expected.same_except_key (World.objects w' l) (World.objects w l))
    ∧ World.queries w' = World.queries w
    ∧ match (assign_keys UUID files ups tls w).2 with
      | inr _ => assigned = files
      | inl e =>
          ∃ l post,
            files = (assigned ++ l :: post)%list
            ∧ Expected.key_for UUID ups tls (World.objects w l) = None
            ∧ e = match File.related_id (World.objects w l) ≫= UUID with
                  | Some _ => RecordNotFound
                  | None => InvalidReference
                  end
      end.
Proof.
  revert w. induction files as [|file files IH]; intros w.
  - exists []. simpl. split_and!; try done. by intros l ?%elem_of_nil.
  - rewrite assign_keys_cons. cbv zeta.
    destruct (File.related_id (World.objects w file) ≫= UUID) as [u|] eqn:Hu.
    2:{ exists []. simpl. split_and!; try done; [by intros l ?%elem_of_nil|].
        exists file, files. rewrite Hu. split_and!; try done.
        unfold Expected.key_for. by rewrite Hu. }
    destruct (Expected.key_for UUID ups tls (World.objects w file)) as [k|] eqn:Hk.
    2:{ exists []. simpl. split_and!; try done; [by intros l ?%elem_of_nil|].
        exists file, files. by rewrite Hu. }
    set (w1 := World.mk _ _).
    destruct (IH w1) as (assigned & Hassigned & Hother & Hframe & Hqueries & Hend).
    cbv zeta in *.
    set (w' := (assign_keys UUID files ups tls w1).1) in *.
    assert (Hw1 : ∀ l, Expected.same_except_key (World.objects w1 l) (World.objects w l)).
    { intros l. unfold w1. simpl. destruct (decide (file = l)) as [-> | Hne].
      - rewrite fn_lookup_insert. apply same_except_key_set.
      - by rewrite fn_lookup_insert_ne. }
    exists (file :: assigned). split_and!.
    + intros l [-> | Hl]%elem_of_cons.
      * destruct (decide (file ∈ assigned)) as [Hin | Hnot].
        -- rewrite <- (Hassigned _ Hin).
           rewrite (key_for_same_except_key _ _ _ _ (Hw1 file)). done.
        -- rewrite (Hother _ Hnot). unfold w1. simpl.
           by rewrite fn_lookup_insert.
      * rewrite <- (Hassigned _ Hl).
        by rewrite (key_for_same_except_key _ _ _ _ (Hw1 l)).
    + intros l Hl. apply not_elem_of_cons in Hl as [Hne Hl].
      rewrite (Hother _ Hl). unfold w1. simpl. by rewrite fn_lookup_insert_ne.
    + intros l. unfold Expected.same_except_key in *. by rewrite Hframe, Hw1.
    + by rewrite Hqueries.
    + destruct (assign_keys UUID files ups tls w1).2 as [e|[]].
      * destruct Hend as (l & post & -> & Hnone & ->).
        exists l, post. split_and!; [done | |].
        -- by rewrite <- (key_for_same_except_key _ _ _ _ (Hw1 l)).
        -- assert (File.related_id (World.objects w1 l)
                   = File.related_id (World.objects w l)) as ->; [|done].
           apply (f_equal File.related_id (Hw1 l)).
      * by rewrite Hend.
Qed.

Local Abbreviation tool_rows ids :=
  (Session.scalars_tool_files session ids tenant).
Local Abbreviation upload_rows ids :=
  (Session.scalars_upload_files session ids tenant).

(** The whole run, loop by loop. *)
Lemma load_storage_keys_run (files : list loc) (w : World.t) :
  load_storage_keys UUID self files w =
    match (partition_ids UUID self files [] [] w).2 with
    | inl e => (w, inl e)
    | inr (uids, tids) =>
        let q1 := SelectToolFiles tids tenant in
        let q2 := SelectUploadFiles uids tenant in
        match dict_by_uuid UUID ToolFile.id (tool_rows tids) ∅ with
        | inl e => (World.mk (World.objects w) (World.queries w ++ [q1]), inl e)
        | inr tls =>
            match dict_by_uuid UUID UploadFile.id (upload_rows uids) ∅ with
            | inl e =>
                (World.mk (World.objects w) ((World.queries w ++ [q1]) ++ [q2]),
                 inl e)
            | inr ups =>
                assign_keys UUID files ups tls
                  (World.mk (World.objects w) ((World.queries w ++ [q1]) ++ [q2]))
            end
        end
    end.
Proof.
  unfold load_storage_keys, M.bind.
  pose proof (partition_ids_world files [] [] w) as Hw.
  destruct (partition_ids UUID self files [] [] w) as [w0 [e|[uids tids]]];
    simpl in *; subst w0; [done|].
  unfold _load_tool_files, _load_upload_files, M.bind, M.send, M.ret, M.raise,
    Ok, Raise.
  simpl.
  destruct (dict_by_uuid UUID ToolFile.id _ ∅) as [e|tls]; [done|]. simpl.
  by destruct (dict_by_uuid UUID UploadFile.id _ ∅) as [e|ups].
Qed.

(** The dictionaries hold the rows of the two lookups. *)
Lemma key_for_stored (uids tids : list uuid)
    (ups : gmap uuid UploadFile.t) (tls : gmap uuid ToolFile.t)
    (f : File.t) :
  dict_by_uuid UUID UploadFile.id (upload_rows uids) ∅ = Ok ups →
  dict_by_uuid UUID ToolFile.id (tool_rows tids) ∅ = Ok tls →
  match Expected.key_for UUID ups tls f with
  | Some k => Expected.stored_key_of UUID self uids tids f k
  | None =>
      is_Some (File.related_id f ≫= UUID) →
      ¬ ∃ k, Expected.stored_key_of UUID self uids tids f k
  end.
Proof.
  intros Hups Htls. unfold Expected.key_for, Expected.stored_key_of.
  destruct (File.related_id f ≫= UUID) as [u|] eqn:Hu; simpl.
  2:{ by intros [? ?]. }
  pose proof (dict_by_uuid_lookup _ _ _ _ u Hups) as Hup.
  pose proof (dict_by_uuid_lookup _ _ _ _ u Htls) as Htl.
  destruct (Expected.is_upload (File.transfer_method f)).
  - destruct (ups !! u) as [row|]; simpl.
    + exists u. split; [done|]. exists row.
      destruct Hup as [[? ?] | Hempty]; [done|]. by rewrite lookup_empty in Hempty.
    + intros _ (k & v & [= <-] & row & Hrow & Hid & _).
      destruct Hup as [_ Hup]. by apply (Hup row).
  - destruct (tls !! u) as [row|]; simpl.
    + exists u. split; [done|]. exists row.
      destruct Htl as [[? ?] | Hempty]; [done|]. by rewrite lookup_empty in Hempty.
    + intros _ (k & v & [= <-] & row & Hrow & Hid & _).
      destruct Htl as [_ Htl]. by apply (Htl row).
Qed.

(** C5, as the code has it. When the first loop rejects a file (no related
    id, an id that does not parse, or another tenant) no lookup is sent and
    the call fails. When every file passes, exactly two batched lookups are
    sent whatever the number of files, first the one over the tool-record
    ids of the TOOL_PRODUCED files, then the one over the upload-record ids
    of the LOCAL and REMOTE_URL files (the rows returned carrying ids that
    parse). When the call succeeds, these two lookups were sent and every
    file has received the stored key of a row returned for its related id;
    and it does succeed when every file passes and has such a row. *)
Theorem load_storage_keys_lookups
    (files : list loc) (w w' : World.t) (outcome : result unit) :
  load_storage_keys UUID self files w = (w', outcome) →
  let uids := upload_ids (World.objects w) files in
  let tids := tool_ids (World.objects w) files in
  let lookups := [SelectToolFiles tids tenant; SelectUploadFiles uids tenant] in
  ((∃ l, l ∈ files ∧ ¬ well_referenced (World.objects w l)) →
   World.queries w' = World.queries w ∧ ∃ e, outcome = inl e)
  ∧ ((∀ l, l ∈ files → well_referenced (World.objects w l)) →
     Expected.rows_have_ids UUID self →
     World.queries w' = (World.queries w ++ lookups)%list)
  ∧ (outcome = Ok tt →
     World.queries w' = (World.queries w ++ lookups)%list
     ∧ ∀ l, l ∈ files →
            Expected.stored_key_of UUID self uids tids (World.objects w l)
              (File.storage_key (World.objects w' l)))
  ∧ ((∀ l, l ∈ files →
           well_referenced (World.objects w l)
           ∧ ∃ k, Expected.stored_key_of UUID self uids tids (World.objects w l) k) →
     Expected.rows_have_ids UUID self →
     outcome = Ok tt).
Proof.
  intros Hrun uids tids lookups. rewrite load_storage_keys_run in Hrun.
  destruct (partition_ids UUID self files [] [] w).2 as [e|[uids' tids']] eqn:Hpart.
  { (* the first loop raised *)
    injection Hrun as <- <-.
    apply partition_ids_raises in Hpart as (l & Hl & Hwhy).
    assert (Hbad : ¬ well_referenced (World.objects w l)).
    { intros [Hten [u Hu]].
      destruct Hwhy as [[_ H] | [[_ H] | [_ H]]]; [|done|congruence].
      by rewrite H in Hu. }
    split_and!; [by eauto | | done |].
    - intros Hall. by destruct (Hbad (Hall l Hl)).
    - intros Hall. by destruct (Hbad (proj1 (Hall l Hl))). }
  apply partition_ids_returns in Hpart as (-> & -> & Hwell).
  simpl in Hrun. fold uids tids in Hrun. cbv zeta in Hrun.
  assert (Hqueries : ((World.queries w ++ [SelectToolFiles tids tenant])
                      ++ [SelectUploadFiles uids tenant])%list
                     = (World.queries w ++ lookups)%list).
  { by rewrite <- app_assoc. }
  rewrite Hqueries in Hrun.
  destruct (dict_by_uuid UUID ToolFile.id (tool_rows tids) ∅) as [e|tls] eqn:Htls.
  { (* a tool row whose id does not parse *)
    injection Hrun as <- <-. split_and!; try done.
    - intros (l & Hl & Hbad). by destruct (Hbad (Hwell l Hl)).
    - intros _ [Hrows _].
      destruct (dict_by_uuid_total ToolFile.id (tool_rows tids) ∅) as [d Hd];
        [by apply Hrows | by rewrite Hd in *].
    - intros _ [Hrows _].
      destruct (dict_by_uuid_total ToolFile.id (tool_rows tids) ∅) as [d Hd];
        [by apply Hrows | by rewrite Hd in *]. }
  destruct (dict_by_uuid UUID UploadFile.id (upload_rows uids) ∅) as [e|ups] eqn:Hups.
  { (* an upload row whose id does not parse *)
    injection Hrun as <- <-. split_and!; try done.
    - intros (l & Hl & Hbad). by destruct (Hbad (Hwell l Hl)).
    - intros _ [_ Hrows].
      destruct (dict_by_uuid_total UploadFile.id (upload_rows uids) ∅) as [d Hd];
        [by apply Hrows | by rewrite Hd in *]. }
  (* the second loop *)
  set (w2 := World.mk (World.objects w) (World.queries w ++ lookups)) in *.
  destruct (assign_keys_run files ups tls w2)
    as (assigned & Hassigned & Hother & Hframe & Hq & Hend).
  cbv zeta in *. rewrite Hrun in *. simpl in *.
  split_and!.
  - intros (l & Hl & Hbad). by destruct (Hbad (Hwell l Hl)).
  - done.
  - intros ->. change (assigned = files) in Hend. subst assigned.
    split; [done|].
    intros l Hl. specialize (Hassigned l Hl).
    pose proof (key_for_stored uids tids ups tls (World.objects w l) Hups Htls) as Hk.
    by rewrite Hassigned in Hk.
  - intros Hall _. destruct outcome as [e|[]]; [|done]. exfalso.
    destruct Hend as (l & post & Hfiles & Hnone & _).
    assert (Hl : l ∈ files).
    { rewrite Hfiles. apply elem_of_app. right. by left. }
    destruct (Hall l Hl) as [[_ Hu] Hk].
    pose proof (key_for_stored uids tids ups tls (World.objects w l) Hups Htls) as Hs.
    rewrite Hnone in Hs. by apply Hs.
Qed.

(** C4, as the code has it. A failure of the first loop, MissingReference
    for a file without a related id or TenantMismatch for a file of another
    tenant, leaves every file as it was. A RecordNotFound failure is raised
    by the second loop at the first file whose related id has no row in its
    batched lookup: the files before it have by then received their stored
    key, and every other object is as it was. In every case a file changes
    at most in its storage key. *)
Theorem load_storage_keys_failure
    (files : list loc) (w w' : World.t) (e : Error) :
  load_storage_keys UUID self files w = (w', inl e) →
  let uids := upload_ids (World.objects w) files in
  let tids := tool_ids (World.objects w) files in
  (e = MissingReference →
   w' = w ∧ ∃ l, l ∈ files ∧ File.related_id (World.objects w l) = None)
  ∧ (e = TenantMismatch →
     w' = w ∧ ∃ l, l ∈ files ∧ File.tenant_id (World.objects w l) ≠ tenant)
  ∧ (e = RecordNotFound →
     ∃ pre l post,
       files = (pre ++ l :: post)%list
       ∧ (¬ ∃ k, Expected.stored_key_of UUID self uids tids (World.objects w l) k)
       ∧ (∀ l', l' ∈ pre →
                Expected.stored_key_of UUID self uids tids (World.objects w l')
                  (File.storage_key (World.objects w' l')))
       ∧ (∀ l', l' ∉ pre → World.objects w' l' = World.objects w l'))
  ∧ (∀ l, Expected.same_except_key (World.objects w' l) (World.objects w l)).
Proof.
  intros Hrun uids tids. rewrite load_storage_keys_run in Hrun.
  destruct (partition_ids UUID self files [] [] w).2 as [e0|[uids' tids']] eqn:Hpart.
  { injection Hrun as <- <-.
    apply partition_ids_raises in Hpart as (l & Hl & Hwhy).
    split_and!; [| | |done].
    - intros ->. split; [done|]. exists l. split; [done|].
      by destruct Hwhy as [[_ ?] | [[? _] | [? _]]].
    - intros ->. split; [done|]. exists l. split; [done|].
      by destruct Hwhy as [[? _] | [[_ ?] | [? _]]].
    - intros ->. by destruct Hwhy as [[? _] | [[? _] | [? _]]]. }
  apply partition_ids_returns in Hpart as (-> & -> & Hwell).
  simpl in Hrun. fold uids tids in Hrun. cbv zeta in Hrun.
  destruct (dict_by_uuid UUID ToolFile.id (tool_rows tids) ∅) as [e0|tls] eqn:Htls.
  { injection Hrun as <- <-. apply dict_by_uuid_error in Htls as ->.
    by split_and!. }
  destruct (dict_by_uuid UUID UploadFile.id (upload_rows uids) ∅) as [e0|ups] eqn:Hups.
  { injection Hrun as <- <-. apply dict_by_uuid_error in Hups as ->.
    by split_and!. }
  set (w2 := World.mk _ _) in Hrun.
  destruct (assign_keys_run files ups tls w2)
    as (assigned & Hassigned & Hother & Hframe & _ & Hend).
  cbv zeta in *. rewrite Hrun in *. simpl in *.
  destruct Hend as (l & post & Hfiles & Hnone & He).
  split_and!; [| | |done].
  - intros ->. by destruct (File.related_id (World.objects w l) ≫= UUID).
  - intros ->. by destruct (File.related_id (World.objects w l) ≫= UUID).
  - intros ->. exists assigned, l, post. split_and!; [done | | |done].
    + pose proof (key_for_stored uids tids ups tls (World.objects w l) Hups Htls) as Hs.
      rewrite Hnone in Hs. apply Hs.
      by destruct (File.related_id (World.objects w l) ≫= UUID).
    + intros l' Hl'. specialize (Hassigned l' Hl').
      pose proof (key_for_stored uids tids ups tls (World.objects w l') Hups Htls)
        as Hs.
      by rewrite Hassigned in Hs.
Qed.

End LoaderFacts.

(** C4, refuted as stated: the object at location 0 has a record, the one
    at location 1 has none; the call fails with RecordNotFound, and the
    storage key of the first, empty before the call, has been assigned. *)
Lemma load_storage_keys_partial_assignment :
  let run := load_storage_keys Sample.UUID Sample.loader [0; 1]%nat Sample.world in
  run.2 = Raise RecordNotFound
  ∧ File.storage_key (World.objects Sample.world 0%nat) = ""
  ∧ File.storage_key (World.objects run.1 0%nat) = "upload/cat.png".
Proof.
  split_and!; compute_eq.
Qed.

Lemma load_storage_keys_failure_witness :
  (load_storage_keys Sample.UUID Sample.loader [0; 3]%nat Sample.world).1
  = Sample.world.
Proof.
  destruct (load_storage_keys_failure Sample.UUID Sample.loader [0; 3]%nat
              Sample.world
              (load_storage_keys Sample.UUID Sample.loader [0; 3]%nat Sample.world).1
              MissingReference) as (Hmissing & _); [compute_eq|].
  by destruct Hmissing.
Defined.

(** C5, refuted as stated: the object at location 3 has no related id; the
    call fails in the first loop and no lookup is sent. *)
Lemma load_storage_keys_no_lookup :
  let run := load_storage_keys Sample.UUID Sample.loader [0; 3]%nat Sample.world in
  run.2 = Raise MissingReference
  ∧ World.queries Sample.world = []
  ∧ World.queries run.1 = [].
Proof.
  split_and!; compute_eq.
Qed.

Lemma load_storage_keys_lookups_witness :
  let run :=
    load_storage_keys Sample.UUID Sample.loader [0; 2; 0]%nat Sample.world in
  World.queries run.1
  = [SelectToolFiles [3%N] "t1"; SelectUploadFiles [1%N; 1%N] "t1"]
  ∧ Expected.stored_key_of Sample.UUID Sample.loader [1%N; 1%N] [3%N]
      (World.objects Sample.world 2%nat)
      (File.storage_key (World.objects run.1 2%nat)).
Proof.
  intros run.
  destruct (load_storage_keys_lookups Sample.UUID Sample.loader [0; 2; 0]%nat
              Sample.world run.1 run.2) as (_ & _ & Hsucceeds & _);
    [apply surjective_pairing|].
  destruct Hsucceeds as [Hqueries Hkeys]; [compute_eq|].
  split; [exact Hqueries|].
  apply (Hkeys 2%nat). by_computation.
Defined.

(** * Further properties *)

Lemma raise_if_Ok (c : bool) (e : Error) (x : unit) :
  raise_if c e = inr x → c = false.
Proof. by destruct c. Qed.

Lemma value_of_Ok (v : option string) (m : FileTransferMethod) :
  FileTransferMethodOps.value_of v = Ok m →
  v = Some (FileTransferMethodOps.value m).
Proof.
  unfold FileTransferMethodOps.value_of.
  destruct v as [token|]; [|done].
  destruct (String.eqb_spec token "local_file") as [-> | H1]; [by intros [= <-]|].
  destruct (String.eqb_spec token "remote_url") as [-> | H2]; [by intros [= <-]|].
  destruct (String.eqb_spec token "tool_file") as [-> | H3]; [by intros [= <-]|].
  intros H. exfalso. revert H.
  repeat (case_match; try done); subst; done.
Qed.

Lemma of_value_value (t : FileType) :
  FileTypeOps.of_value (FileTypeOps.value t) = Ok t.
Proof. by destruct t. Qed.

Lemma value_inj (t t' : FileType) :
  FileTypeOps.value t = FileTypeOps.value t' → t = t'.
Proof. by destruct t, t'. Qed.

Section MoreFactoryFacts.

Variables IMAGE_EXTENSIONS VIDEO_EXTENSIONS AUDIO_EXTENSIONS
          DOCUMENT_EXTENSIONS : list string.
Variable UUID : string → option uuid.
Variable url_path : string → string.
Variable guess_type : string → option string.
Variable guess_extension : string → option string.
Variable py_int : string → option Z.
Variable head : string → Response.t.
Variable get_signed_file_url : string → string.
Variable db_session : Session.t.

Local Abbreviation classify :=
  (_standardize_file_type IMAGE_EXTENSIONS VIDEO_EXTENSIONS AUDIO_EXTENSIONS
     DOCUMENT_EXTENSIONS).
Local Abbreviation build_local :=
  (_build_from_local_file IMAGE_EXTENSIONS VIDEO_EXTENSIONS AUDIO_EXTENSIONS
     DOCUMENT_EXTENSIONS UUID db_session).
Local Abbreviation build_remote :=
  (_build_from_remote_url IMAGE_EXTENSIONS VIDEO_EXTENSIONS AUDIO_EXTENSIONS
     DOCUMENT_EXTENSIONS UUID url_path guess_type guess_extension py_int head
     get_signed_file_url db_session).
Local Abbreviation build_tool :=
  (_build_from_tool_file IMAGE_EXTENSIONS VIDEO_EXTENSIONS AUDIO_EXTENSIONS
     DOCUMENT_EXTENSIONS db_session).
Local Abbreviation remote_info :=
  (_get_remote_file_info url_path guess_type py_int head).
Local Abbreviation build_one :=
  (build_from_mapping IMAGE_EXTENSIONS VIDEO_EXTENSIONS AUDIO_EXTENSIONS
     DOCUMENT_EXTENSIONS UUID url_path guess_type guess_extension py_int head
     get_signed_file_url db_session).
Local Abbreviation build_many :=
  (build_from_mappings IMAGE_EXTENSIONS VIDEO_EXTENSIONS AUDIO_EXTENSIONS
     DOCUMENT_EXTENSIONS UUID url_path guess_type guess_extension py_int head
     get_signed_file_url db_session).
Local Abbreviation build_message :=
  (build_from_message_file IMAGE_EXTENSIONS VIDEO_EXTENSIONS AUDIO_EXTENSIONS
     DOCUMENT_EXTENSIONS UUID url_path guess_type guess_extension py_int head
     get_signed_file_url db_session).
Local Abbreviation build_messages :=
  (build_from_message_files IMAGE_EXTENSIONS VIDEO_EXTENSIONS AUDIO_EXTENSIONS
     DOCUMENT_EXTENSIONS UUID url_path guess_type guess_extension py_int head
     get_signed_file_url db_session).

(** *** What a successful build went through *)

Lemma build_local_Ok_inv
    (mapping : Mapping.t) (tenant : string) (method : FileTransferMethod)
    (strict : bool) (f : File.t) :
  build_local mapping tenant method strict = Ok f →
  ∃ upload_file_id row t,
    Py.nonempty (Mapping.get mapping "upload_file_id") = Some upload_file_id
    ∧ is_Some (UUID upload_file_id)
    ∧ Session.scalar_upload_file db_session upload_file_id tenant = Some row
    ∧ strict && type_differs
                  (classify ("." ++ UploadFile.extension row) (UploadFile.mime_type row))
                  (Mapping.get_or mapping "type" "custom") = false
    ∧ specified_or_detected (Mapping.get_or mapping "type" "custom")
        (classify ("." ++ UploadFile.extension row) (UploadFile.mime_type row))
      = Ok t
    ∧ f = File.mk (Mapping.get mapping "id") tenant t method
            (UploadFile.source_url row) (Mapping.get mapping "upload_file_id")
            (Some (UploadFile.name row))
            (Some ("." ++ UploadFile.extension row))
            (UploadFile.mime_type row) (UploadFile.size row)
            (UploadFile.key row).
Proof.
  intros H. unfold _build_from_local_file in H.
  destruct (Py.nonempty _) as [upload_file_id|] eqn:Hid; [|done].
  apply rbind_inr_inv in H as (? & Hu%raise_if_Ok%bool_decide_eq_false & H).
  destruct (Session.scalar_upload_file _ _ _) as [row|] eqn:Hrow; [|done].
  apply rbind_inr_inv in H as (? & Hstrict%raise_if_Ok & H).
  apply rbind_inr_inv in H as (t & Ht & [= <-]).
  exists upload_file_id, row, t. split_and!; try done.
  by destruct (UUID upload_file_id).
Qed.

Lemma build_remote_record_Ok_inv
    (mapping : Mapping.t) (tenant : string) (method : FileTransferMethod)
    (strict : bool) (upload_file_id : string) (f : File.t) :
  Py.nonempty (Mapping.get mapping "upload_file_id") = Some upload_file_id →
  build_remote mapping tenant method strict = Ok f →
  ∃ row t,
    is_Some (UUID upload_file_id)
    ∧ Session.scalar_upload_file db_session upload_file_id tenant = Some row
    ∧ strict && Py.truthy (Mapping.get mapping "type")
      && type_differs
           (classify ("." ++ UploadFile.extension row) (UploadFile.mime_type row))
           (Mapping.get mapping "type") = false
    ∧ specified_or_detected (Mapping.get mapping "type")
        (classify ("." ++ UploadFile.extension row) (UploadFile.mime_type row))
      = Ok t
    ∧ f = File.mk (Mapping.get mapping "id") tenant t method
            (Some (get_signed_file_url upload_file_id))
            (Mapping.get mapping "upload_file_id")
            (Some (UploadFile.name row))
            (Some ("." ++ UploadFile.extension row))
            (UploadFile.mime_type row) (UploadFile.size row)
            (UploadFile.key row).
Proof.
  intros Hid H. unfold _build_from_remote_url in H. rewrite Hid in H.
  unfold _build_from_remote_url_record in H.
  apply rbind_inr_inv in H as (? & Hu%raise_if_Ok%bool_decide_eq_false & H).
  destruct (Session.scalar_upload_file _ _ _) as [row|] eqn:Hrow; [|done].
  apply rbind_inr_inv in H as (? & Hstrict%raise_if_Ok & H).
  apply rbind_inr_inv in H as (t & Ht & [= <-]).
  exists row, t. split_and!; try done.
  by destruct (UUID upload_file_id).
Qed.

Lemma build_remote_bare_Ok_inv
    (mapping : Mapping.t) (tenant : string) (method : FileTransferMethod)
    (strict : bool) (f : File.t) :
  Py.nonempty (Mapping.get mapping "upload_file_id") = None →
  build_remote mapping tenant method strict = Ok f →
  ∃ url mime_type filename file_size extension,
    Py.nonempty (Py.or_else (Mapping.get mapping "url")
                            (Mapping.get mapping "remote_url")) = Some url
    ∧ remote_info url = Ok (mime_type, filename, file_size)
    ∧ remote_extension guess_extension mime_type filename = Ok extension
    ∧ Mapping.get_or mapping "type" "custom"
      = Some (FileTypeOps.value (classify extension mime_type))
    ∧ f = File.mk (Mapping.get mapping "id") tenant
            (classify extension mime_type) method (Some url) None
            (Some filename) (Some extension) mime_type file_size "".
Proof.
  intros Hid H. unfold _build_from_remote_url in H. rewrite Hid in H.
  unfold _build_from_remote_url_bare in H.
  destruct (Py.nonempty (Py.or_else _ _)) as [url|] eqn:Hurl; [|done].
  apply rbind_inr_inv in H as ([[mime_type filename] file_size] & Hinfo & H).
  apply rbind_inr_inv in H as (extension & Hext & H).
  apply rbind_inr_inv in H as (? & Hsame%raise_if_Ok & [= <-]).
  exists url, mime_type, filename, file_size, extension.
  split_and!; try done.
  unfold type_differs, FileTypeOps.eq_token in Hsame.
  by apply negb_false_iff, bool_decide_eq_true in Hsame.
Qed.

Lemma build_tool_Ok_inv
    (mapping : Mapping.t) (tenant : string) (method : FileTransferMethod)
    (strict : bool) (f : File.t) :
  build_tool mapping tenant method strict = Ok f →
  ∃ tool_file t,
    Session.scalar_tool_file db_session (Mapping.get mapping "tool_file_id")
      tenant = Some tool_file
    ∧ strict && Py.truthy (Mapping.get mapping "type")
      && type_differs
           (classify (tool_extension tool_file) (ToolFile.mimetype tool_file))
           (Mapping.get mapping "type") = false
    ∧ specified_or_detected (Mapping.get mapping "type")
        (classify (tool_extension tool_file) (ToolFile.mimetype tool_file))
      = Ok t
    ∧ f = File.mk (Mapping.get mapping "id") tenant t method
            (ToolFile.original_url tool_file) (Some (ToolFile.id tool_file))
            (Some (ToolFile.name tool_file))
            (Some (tool_extension tool_file))
            (ToolFile.mimetype tool_file) (ToolFile.size tool_file)
            (ToolFile.file_key tool_file).
Proof.
  intros H. unfold _build_from_tool_file in H.
  destruct (Session.scalar_tool_file _ _ _) as [tool_file|] eqn:Hrow; [|done].
  apply rbind_inr_inv in H as (? & Hstrict%raise_if_Ok & H).
  apply rbind_inr_inv in H as (t & Ht & [= <-]).
  by exists tool_file, t.
Qed.

(** A successful single-file build is a successful build on the path of
    the descriptor's transfer method. *)
Lemma build_one_Ok_inv
    (mapping : Mapping.t) (tenant : string)
    (config : option FileUploadConfig.t) (strict : bool) (f : File.t) :
  build_one mapping tenant config strict = Ok f →
  ∃ method,
    Mapping.get mapping "transfer_method"
    = Some (FileTransferMethodOps.value method)
    ∧ match method with
      | LOCAL_FILE => build_local mapping tenant method strict = Ok f
      | REMOTE_URL => build_remote mapping tenant method strict = Ok f
      | TOOL_FILE => build_tool mapping tenant method strict = Ok f
      end
    ∧ ∀ cfg, config = Some cfg →
        _is_file_valid_with_config (Mapping.get_or mapping "type" "custom")
          (default "" (Py.nonempty (File.extension f)))
          (File.transfer_method f) cfg = true.
Proof.
  intros H. unfold build_from_mapping in H.
  apply rbind_inr_inv in H as (method & Hmethod%value_of_Ok & H).
  apply rbind_inr_inv in H as (file & Hfile & H).
  apply rbind_inr_inv in H as (? & Hpolicy & [= <-]).
  exists method. split_and!; [done | by destruct method |].
  intros cfg ->. apply raise_if_Ok in Hpolicy.
  by apply negb_false_iff in Hpolicy.
Qed.

Lemma nonempty_get (v : option string) (x : string) :
  Py.nonempty v = Some x → v = Some x.
Proof. by intros [? _]%nonempty_Some. Qed.

(** *** Identity of the built file *)

(** X1. A File built by [build_from_mapping] carries the tenant it was built
    for, the id of the descriptor and the transfer method the descriptor
    names. It lacks a related id only when it was built from a bare remote
    URL; it then has an empty storage key and the descriptor's URL (["url"]
    before ["remote_url"]) as remote URL. *)
Theorem built_file_identity
    (mapping : Mapping.t) (tenant : string)
    (config : option FileUploadConfig.t) (strict : bool) (f : File.t) :
  build_one mapping tenant config strict = Ok f →
  File.tenant_id f = tenant
  ∧ File.id f = Mapping.get mapping "id"
  ∧ Mapping.get mapping "transfer_method"
    = Some (FileTransferMethodOps.value (File.transfer_method f))
  ∧ (File.related_id f = None →
     File.transfer_method f = REMOTE_URL
     ∧ Py.nonempty (Mapping.get mapping "upload_file_id") = None
     ∧ File.storage_key f = ""
     ∧ File.remote_url f
       = Py.or_else (Mapping.get mapping "url") (Mapping.get mapping "remote_url")
     ∧ Py.truthy (File.remote_url f) = true).
Proof.
  intros (method & Hmethod & Hbuild & _)%build_one_Ok_inv.
  destruct method.
  - apply build_local_Ok_inv in Hbuild
      as (id & row & t & Hid & _ & _ & _ & _ & ->).
    apply nonempty_get in Hid.
    simpl. split_and!; try done. by rewrite Hid.
  - destruct (Py.nonempty (Mapping.get mapping "upload_file_id"))
      as [id|] eqn:Hid.
    + destruct (build_remote_record_Ok_inv _ _ _ _ id _ Hid Hbuild)
        as (row & t & _ & _ & _ & _ & ->).
      simpl. split_and!; try done. apply nonempty_get in Hid. by rewrite Hid.
    + destruct (build_remote_bare_Ok_inv _ _ _ _ _ Hid Hbuild)
        as (url & m & name & size & ext & Hurl & _ & _ & _ & ->).
      apply nonempty_Some in Hurl as [Hurl Hne].
      simpl. split_and!; try done. intros _. split_and!; try done.
      by apply truthy_nonempty.
  - apply build_tool_Ok_inv in Hbuild as (tool_file & t & _ & _ & _ & ->).
    simpl. by split_and!.
Qed.

(** *** Errors raised before anything is classified *)

Lemma value_of_unknown (v : option string) :
  (∀ m, v ≠ Some (FileTransferMethodOps.value m)) →
  FileTransferMethodOps.value_of v = Raise UnsupportedMethod.
Proof.
  intros Hv.
  destruct (FileTransferMethodOps.value_of v) as [e|m] eqn:H.
  - unfold FileTransferMethodOps.value_of in H.
    repeat (case_match; try done); by injection H as <-.
  - apply value_of_Ok in H. by destruct (Hv m).
Qed.

Lemma build_one_dispatch
    (mapping : Mapping.t) (tenant : string)
    (config : option FileUploadConfig.t) (strict : bool)
    (method : FileTransferMethod) (e : Error) :
  Mapping.get mapping "transfer_method"
  = Some (FileTransferMethodOps.value method) →
  match method with
  | LOCAL_FILE => build_local mapping tenant method strict
  | REMOTE_URL => build_remote mapping tenant method strict
  | TOOL_FILE => build_tool mapping tenant method strict
  end = inl e →
  build_one mapping tenant config strict = inl e.
Proof.
  intros Hmethod Hbuild. unfold build_from_mapping. rewrite Hmethod.
  destruct method; simpl; by rewrite Hbuild.
Qed.

(** X2. The references of a descriptor are checked before anything is
    classified, whatever the policy, the strict flag and the declared
    category: an unknown or missing transfer method fails with
    UnsupportedMethod; a LOCAL descriptor without a non-empty upload id, or
    a LOCAL or REMOTE_URL descriptor whose upload id does not parse, fails
    with InvalidReference; an upload id or tool id without a row fails with
    RecordNotFound; a REMOTE_URL descriptor with neither an upload id nor a
    URL fails with InvalidUrl. *)
Theorem reference_errors
    (mapping : Mapping.t) (tenant : string)
    (config : option FileUploadConfig.t) (strict : bool) :
  let method := Mapping.get mapping "transfer_method" in
  let upload_file_id := Py.nonempty (Mapping.get mapping "upload_file_id") in
  let outcome := build_one mapping tenant config strict in
  ((∀ m, method ≠ Some (FileTransferMethodOps.value m)) →
   outcome = Raise UnsupportedMethod)
  ∧ (method = Some "local_file" → upload_file_id = None →
     outcome = Raise InvalidReference)
  ∧ (∀ id, method = Some "local_file" ∨ method = Some "remote_url" →
           upload_file_id = Some id → UUID id = None →
           outcome = Raise InvalidReference)
  ∧ (∀ id, method = Some "local_file" ∨ method = Some "remote_url" →
           upload_file_id = Some id → is_Some (UUID id) →
           Session.scalar_upload_file db_session id tenant = None →
           outcome = Raise RecordNotFound)
  ∧ (method = Some "tool_file" →
     Session.scalar_tool_file db_session (Mapping.get mapping "tool_file_id")
       tenant = None →
     outcome = Raise RecordNotFound)
  ∧ (method = Some "remote_url" → upload_file_id = None →
     Py.nonempty (Py.or_else (Mapping.get mapping "url")
                             (Mapping.get mapping "remote_url")) = None →
     outcome = Raise InvalidUrl).
Proof.
  intros method upload_file_id outcome. split_and!.
  - intros Hunknown. unfold outcome, build_from_mapping.
    by rewrite value_of_unknown.
  - intros Hmethod Hid. apply (build_one_dispatch _ _ _ _ LOCAL_FILE); [done|].
    unfold _build_from_local_file. fold upload_file_id. by rewrite Hid.
  - intros id [Hmethod | Hmethod] Hid Hu.
    + apply (build_one_dispatch _ _ _ _ LOCAL_FILE); [done|].
      unfold _build_from_local_file. fold upload_file_id. rewrite Hid, Hu.
      by rewrite bool_decide_eq_true_2.
    + apply (build_one_dispatch _ _ _ _ REMOTE_URL); [done|].
      unfold _build_from_remote_url, _build_from_remote_url_record.
      fold upload_file_id. rewrite Hid, Hu. by rewrite bool_decide_eq_true_2.
  - intros id [Hmethod | Hmethod] Hid [u Hu] Hrow.
    + apply (build_one_dispatch _ _ _ _ LOCAL_FILE); [done|].
      unfold _build_from_local_file. fold upload_file_id.
      rewrite Hid, Hu, Hrow. by rewrite bool_decide_eq_false_2.
    + apply (build_one_dispatch _ _ _ _ REMOTE_URL); [done|].
      unfold _build_from_remote_url, _build_from_remote_url_record.
      fold upload_file_id. rewrite Hid, Hu, Hrow.
      by rewrite bool_decide_eq_false_2.
  - intros Hmethod Hrow. apply (build_one_dispatch _ _ _ _ TOOL_FILE); [done|].
    unfold _build_from_tool_file. by rewrite Hrow.
  - intros Hmethod Hid Hurl. apply (build_one_dispatch _ _ _ _ REMOTE_URL); [done|].
    unfold _build_from_remote_url, _build_from_remote_url_bare.
    fold upload_file_id. by rewrite Hid, Hurl.
Qed.

(** *** The category of the built file *)

Lemma specified_or_detected_same (detected t : FileType) :
  specified_or_detected (Some (FileTypeOps.value detected)) detected = Ok t →
  t = detected.
Proof. destruct detected; by intros [= <-]. Qed.

Lemma specified_or_detected_falsy
    (specified : option string) (detected t : FileType) :
  Py.truthy specified = false →
  specified_or_detected specified detected = Ok t → t = detected.
Proof.
  unfold specified_or_detected. destruct specified as [token|]; [|by intros _ [= <-]].
  intros ->. by intros [= <-].
Qed.

Lemma gated_category_is_detected
    (specified : option string) (detected t : FileType) :
  Py.truthy specified && type_differs detected specified = false →
  specified_or_detected specified detected = Ok t → t = detected.
Proof.
  intros Hcheck. destruct (Py.truthy specified) eqn:Htruthy.
  - apply type_differs_false in Hcheck as ->. apply specified_or_detected_same.
  - by apply specified_or_detected_falsy.
Qed.

(** X3. Under strict validation the category of every built File is the
    classification of the File's own extension and mime type; for a File
    built from a bare remote URL this holds with or without strict
    validation. *)
Theorem strict_category_is_classified
    (mapping : Mapping.t) (tenant : string)
    (config : option FileUploadConfig.t) (strict : bool) (f : File.t) :
  build_one mapping tenant config strict = Ok f →
  strict = true ∨ File.related_id f = None →
  File.type f = classify (default "" (File.extension f)) (File.mime_type f).
Proof.
  intros (method & _ & Hbuild & _)%build_one_Ok_inv Hwhen.
  destruct method.
  - apply build_local_Ok_inv in Hbuild
      as (id & row & t & Hid & _ & _ & Hcheck & Ht & ->).
    apply nonempty_get in Hid.
    simpl in *. destruct Hwhen as [-> | Hnone]; [|by rewrite Hid in Hnone].
    simpl in Hcheck. apply type_differs_false in Hcheck.
    rewrite Hcheck in Ht. by apply specified_or_detected_same in Ht.
  - destruct (Py.nonempty (Mapping.get mapping "upload_file_id"))
      as [id|] eqn:Hid.
    + destruct (build_remote_record_Ok_inv _ _ _ _ id _ Hid Hbuild)
        as (row & t & _ & _ & Hcheck & Ht & ->).
      apply nonempty_get in Hid.
      simpl in *. destruct Hwhen as [-> | Hnone]; [|by rewrite Hid in Hnone].
      simpl in Hcheck. by eapply gated_category_is_detected.
    + by destruct (build_remote_bare_Ok_inv _ _ _ _ _ Hid Hbuild)
        as (url & m & name & size & ext & _ & _ & _ & _ & ->).
  - apply build_tool_Ok_inv in Hbuild as (tool_file & t & _ & Hcheck & Ht & ->).
    simpl in *. destruct Hwhen as [-> | Hnone]; [|done].
    simpl in Hcheck. by eapply gated_category_is_detected.
Qed.

(** X4. A declared category other than CUSTOM is honoured or the build
    fails: whenever a build succeeds on a descriptor whose ["type"] is a
    non-empty token other than "custom", the File has the category of that
    token. In particular a token that names no category never yields a
    File. *)
Theorem declared_category_honoured
    (mapping : Mapping.t) (tenant : string)
    (config : option FileUploadConfig.t) (strict : bool) (f : File.t)
    (token : string) :
  build_one mapping tenant config strict = Ok f →
  Mapping.get mapping "type" = Some token →
  token ≠ "" → token ≠ "custom" →
  FileTypeOps.value (File.type f) = token.
Proof.
  intros (method & _ & Hbuild & _)%build_one_Ok_inv Htoken Hne Hcustom.
  assert (Hdeclared : Mapping.get_or mapping "type" "custom" = Some token).
  { unfold Mapping.get, Mapping.get_or in *.
    by destruct (mapping !! "type") as [[?|]|]. }
  destruct method.
  - apply build_local_Ok_inv in Hbuild as (id & row & t & _ & _ & _ & _ & Ht & ->).
    simpl. by eapply specified_or_detected_declared.
  - destruct (Py.nonempty (Mapping.get mapping "upload_file_id"))
      as [id|] eqn:Hid.
    + destruct (build_remote_record_Ok_inv _ _ _ _ id _ Hid Hbuild)
        as (row & t & _ & _ & _ & Ht & ->).
      simpl. by eapply specified_or_detected_declared.
    + destruct (build_remote_bare_Ok_inv _ _ _ _ _ Hid Hbuild)
        as (url & m & name & size & ext & _ & _ & _ & Hsame & ->).
      simpl. congruence.
  - apply build_tool_Ok_inv in Hbuild as (tool_file & t & _ & _ & Ht & ->).
    simpl. by eapply specified_or_detected_declared.
Qed.

Lemma specified_default_custom (mapping : Mapping.t) (detected : FileType) :
  specified_or_detected (Mapping.get_or mapping "type" "custom") detected
  = specified_or_detected (Mapping.get mapping "type") detected.
Proof.
  unfold Mapping.get, Mapping.get_or.
  by destruct (mapping !! "type") as [[?|]|].
Qed.

(** X5. Without strict validation, for a descriptor with a non-empty upload
    id, the REMOTE_URL path and the LOCAL path raise the same errors and
    build the same File, except that the REMOTE_URL path sets the remote URL
    to the signed URL of the upload id where the LOCAL path keeps the
    record's source URL. *)
Theorem remote_record_is_local_with_signed_url
    (mapping : Mapping.t) (tenant : string) (method : FileTransferMethod)
    (upload_file_id : string) :
  Py.nonempty (Mapping.get mapping "upload_file_id") = Some upload_file_id →
  build_remote mapping tenant method false =
    match build_local mapping tenant method false with
    | inr f => Ok (with_remote_url (Some (get_signed_file_url upload_file_id)) f)
    | inl e => inl e
    end.
Proof.
  intros Hid.
  unfold _build_from_remote_url, _build_from_remote_url_record,
    _build_from_local_file.
  rewrite Hid. destruct (bool_decide (UUID upload_file_id = None)); [done|].
  simpl. destruct (Session.scalar_upload_file _ _ _) as [row|]; [|done].
  simpl. rewrite specified_default_custom.
  by destruct (specified_or_detected _ _).
Qed.

(** *** The extension allow-list *)

Lemma dot_append_nonempty (rest : string) : "." ++ rest ≠ "".
Proof. by rewrite append_cons. Qed.

Lemma tool_extension_nonempty (tool_file : ToolFile.t) :
  tool_extension tool_file ≠ "".
Proof. unfold tool_extension. case_match; apply dot_append_nonempty. Qed.

Lemma build_one_extension_nonempty
    (mapping : Mapping.t) (tenant : string)
    (config : option FileUploadConfig.t) (strict : bool) (f : File.t) :
  build_one mapping tenant config strict = Ok f →
  ∃ extension, File.extension f = Some extension ∧ extension ≠ "".
Proof.
  intros (method & _ & Hbuild & _)%build_one_Ok_inv.
  destruct method.
  - apply build_local_Ok_inv in Hbuild as (id & row & t & _ & _ & _ & _ & _ & ->).
    eexists. split; [done | apply dot_append_nonempty].
  - destruct (Py.nonempty (Mapping.get mapping "upload_file_id"))
      as [id|] eqn:Hid.
    + destruct (build_remote_record_Ok_inv _ _ _ _ id _ Hid Hbuild)
        as (row & t & _ & _ & _ & _ & ->).
      eexists. split; [done | apply dot_append_nonempty].
    + destruct (build_remote_bare_Ok_inv _ _ _ _ _ Hid Hbuild)
        as (url & m & name & size & ext & _ & _ & Hext & _ & ->).
      eexists. split; [done|]. by eapply remote_extension_nonempty.
  - apply build_tool_Ok_inv in Hbuild as (tool_file & t & _ & _ & _ & ->).
    eexists. split; [done | apply tool_extension_nonempty].
Qed.

(** X6. When the policy configures an extension allow-list, a descriptor
    that declares no category, or declares "custom", is built only if the
    File's extension, with its leading dot and compared exactly, is in the
    list. An empty allow-list therefore rejects every such descriptor. *)
Theorem extension_allow_list_on_undeclared
    (mapping : Mapping.t) (tenant : string) (config : FileUploadConfig.t)
    (strict : bool) (f : File.t) (allowed : list string) :
  build_one mapping tenant (Some config) strict = Ok f →
  Mapping.get_or mapping "type" "custom" = Some "custom" →
  FileUploadConfig.allowed_file_extensions config = Some allowed →
  ∃ extension, File.extension f = Some extension ∧ extension ∈ allowed.
Proof.
  intros Hbuild Hcustom Hallowed.
  destruct (build_one_extension_nonempty _ _ _ _ _ Hbuild) as (e & He & Hne).
  apply build_one_Ok_inv in Hbuild as (_ & _ & _ & Hvalid).
  specialize (Hvalid config eq_refl). exists e. split; [done|].
  rewrite Hcustom, He in Hvalid.
  assert (Py.nonempty (Some e) = Some e) as Hsome by (by apply nonempty_Some).
  rewrite Hsome in Hvalid. simpl in Hvalid.
  unfold _is_file_valid_with_config in Hvalid. rewrite Hallowed in Hvalid.
  change (FileTypeOps.eq_token (Some "custom") CUSTOM) with true in Hvalid.
  rewrite andb_false_r in Hvalid. simpl in Hvalid.
  destruct (Py.mem e allowed) eqn:Hmem; [by apply mem_true | done].
Qed.

(** *** The probe *)

(** X7. Once the URL has been parsed and the HEAD request answered, the
    only exception the remote metadata probe raises is that of [int] on a
    Content-Length it rejects, on an OK response. When the probe returns,
    the mime type is the one guessed from the returned filename; the size
    is -1 unless the response is OK and carries a Content-Length, which is
    then its value; the filename is the basename of the URL path unless the
    response is OK and carries a non-empty Content-Disposition, of which it
    is then the text after the last "filename=", without surrounding
    quotes. Header names are matched without regard to case. *)
Theorem remote_info_outcomes (url : string) :
  let resp := head url in
  let ok := Response.status_code resp = HTTP_OK in
  (∀ e, remote_info url = inl e →
        e = BadContentLength
        ∧ ok
        ∧ ∃ s, Response.get resp "Content-Length" = Some s
               ∧ py_int s = None)
  ∧ (∀ mime_type filename file_size,
       remote_info url = Ok (mime_type, filename, file_size) →
       mime_type = guess_type filename
       ∧ (file_size = -1 ∧ ¬ (ok ∧ is_Some (Response.get resp "Content-Length"))
          ∨ ok ∧ ∃ s, Response.get resp "Content-Length" = Some s
                      ∧ py_int s = Some file_size)
       ∧ (filename = Py.basename (url_path url)
          ∧ ¬ (ok ∧ is_Some (Py.nonempty
                               (Response.get resp "Content-Disposition")))
          ∨ ok ∧ ∃ cd, Py.nonempty (Response.get resp "Content-Disposition")
                       = Some cd
                       ∧ filename = Py.strip Py.dquote (Py.split_last "filename=" cd)))
  ∧ (∀ name spelling, Response.lower spelling = Response.lower name →
                      Response.get resp spelling = Response.get resp name).
Proof.
  intros resp ok. split_and!; [| |by intros name spelling; unfold Response.get; intros ->].
  all: unfold _get_remote_file_info; fold resp.
  all: destruct (bool_decide_reflect (Response.status_code resp = HTTP_OK)) as [Hok|Hok].
  - destruct (Py.nonempty (Response.get resp "Content-Disposition")) as [cd|];
      destruct (Response.get resp "Content-Length") as [s|] eqn:Hs;
      try destruct (py_int s) as [n|] eqn:Hn; simpl; try done.
    all: intros e [= <-]; by eauto.
  - done.
  - destruct (Py.nonempty (Response.get resp "Content-Disposition"))
      as [cd|] eqn:Hcd;
      destruct (Response.get resp "Content-Length") as [s|] eqn:Hs;
      try destruct (py_int s) as [n|] eqn:Hn; simpl; try done;
      intros m name size [= <- <- <-]; split_and!; try done;
      first [ right; split; [done|]; by eauto
            | left; split; [done|]; intros [_ [? ?]]; done ].
  - intros m name size [= <- <- <-].
    split_and!; [done | left | left]; (split; [done | by intros [? _]]).
Qed.

(** *** Batches *)

Lemma mapM_Forall2 {A B} (f : A → result B) (xs : list A) (ys : list B) :
  mapM f xs = Ok ys ↔ Forall2 (λ x y, f x = Ok y) xs ys.
Proof.
  revert ys. induction xs as [|x xs IH]; intros ys; simpl.
  - split; [intros [= <-]; constructor | by intros ->%Forall2_nil_inv_l].
  - split.
    + intros H. apply rbind_inr_inv in H as (y & Hy & H).
      apply rbind_inr_inv in H as (ys' & Hys & [= <-]).
      constructor; [done | by apply IH].
    + intros (y & ys' & Hy & Hys & ->)%Forall2_cons_inv_l.
      rewrite Hy. simpl. apply IH in Hys. by rewrite Hys.
Qed.

(** X8. A successful batch build returns one File per descriptor, in the
    order of the descriptors, each the File the single-file build gives for
    its descriptor; and the batch respects the configured limits: the
    number of IMAGE files does not exceed the limit of an image
    configuration, nor the number of files a non-zero overall limit. *)
Theorem batch_is_pointwise
    (mappings : list Mapping.t) (config : option FileUploadConfig.t)
    (tenant : string) (strict : bool) (files : list File.t) :
  build_many mappings config tenant strict = Ok files →
  Forall2 (λ mapping f, build_one mapping tenant config strict = Ok f)
          mappings files
  ∧ ∀ cfg, config = Some cfg →
      (∀ image_config,
         FileUploadConfig.image_config cfg = Some image_config →
         count_images files ≤ ImageConfig.number_limits image_config)
      ∧ (FileUploadConfig.number_limits cfg ≠ 0 →
         Z.of_nat (List.length files) ≤ FileUploadConfig.number_limits cfg).
Proof.
  intros H. unfold build_from_mappings in H.
  apply rbind_inr_inv in H as (fs & Hfs & H).
  apply rbind_inr_inv in H as (? & Himages & H).
  apply rbind_inr_inv in H as (? & Htotal & [= <-]).
  split; [by apply mapM_Forall2|].
  intros cfg ->. split.
  - intros image_config Hic. rewrite Hic in Himages.
    apply raise_if_Ok, bool_decide_eq_false in Himages. lia.
  - intros Hlimit. apply raise_if_Ok in Htotal.
    rewrite bool_decide_eq_false_2 in Htotal by done. simpl in Htotal.
    apply bool_decide_eq_false in Htotal. lia.
Qed.

(** *** Message files *)

Lemma message_mapping_method (message_file : MessageFile.t) :
  Mapping.get (message_file_mapping message_file) "transfer_method"
  = Some (MessageFile.transfer_method message_file).
Proof. unfold Mapping.get, message_file_mapping. by rewrite lookup_insert_eq. Qed.

Lemma message_mapping_tool_file_id (message_file : MessageFile.t) :
  Mapping.get (message_file_mapping message_file) "tool_file_id" = None.
Proof.
  unfold Mapping.get, message_file_mapping.
  by rewrite !lookup_insert_ne, lookup_empty.
Qed.

(** X9. [build_from_message_files] ignores the message files that belong
    to the assistant: wherever such a file stands in the input, and whether
    or not a File could be built from it, the outcome is that of the input
    without it. *)
Theorem message_files_skip_assistant
    (pre post : list MessageFile.t) (assistant : MessageFile.t)
    (tenant : string) (config : FileUploadConfig.t) :
  MessageFile.belongs_to assistant = Some ASSISTANT →
  build_messages (pre ++ assistant :: post)%list tenant config
  = build_messages (pre ++ post)%list tenant config.
Proof.
  intros Hassistant. unfold build_from_message_files.
  rewrite !list.filter_app, list.filter_cons_False; [done|].
  intros Hnot. by apply Hnot.
Qed.

(** X10. The descriptor made of a message file has no ["tool_file_id"]
    key, so a message file whose transfer method is "tool_file" is looked
    up without an id, whatever its columns: when the store has no tool row
    for a missing id, the build fails with RecordNotFound. *)
Theorem message_tool_file_not_found
    (message_file : MessageFile.t) (tenant : string)
    (config : FileUploadConfig.t) :
  MessageFile.transfer_method message_file = "tool_file" →
  Session.scalar_tool_file db_session None tenant = None →
  build_message message_file tenant config = Raise RecordNotFound.
Proof.
  intros Hmethod Hrow. unfold build_from_message_file. cbv zeta.
  apply (build_one_dispatch _ _ _ _ TOOL_FILE).
  - by rewrite message_mapping_method, Hmethod.
  - unfold _build_from_tool_file.
    by rewrite message_mapping_tool_file_id, Hrow.
Qed.

End MoreFactoryFacts.

(** ** Extensions and the classifier *)

Lemma after_last_char_None (c : ascii) (s : string) :
  Py.after_last_char c s = None ↔ Py.has_char c s = false.
Proof.
  induction s as [|d s IH]; simpl; [done|].
  destruct (Py.after_last_char c s) as [r|].
  - split; [done|]. intros [_ H]%orb_false_iff.
    apply IH in H. done.
  - destruct IH as [IH _]. rewrite (IH eq_refl), orb_false_r.
    by destruct (Ascii.eqb c d).
Qed.

Lemma after_last_char_Some (c : ascii) (s r : string) :
  Py.after_last_char c s = Some r →
  Py.has_char c r = false ∧ ∃ pre, s = pre ++ String c r.
Proof.
  revert r. induction s as [|d s IH]; intros r; simpl; [done|].
  destruct (Py.after_last_char c s) as [r'|] eqn:Hs.
  - intros [= <-]. destruct (IH r' eq_refl) as [Hr (pre & ->)].
    split; [done|]. by exists (String d pre).
  - destruct (Ascii.eqb_spec c d) as [<- | _]; [|done].
    intros [= <-]. split; [by apply after_last_char_None|]. by exists "".
Qed.

Lemma lstrip_absent (c : ascii) (s : string) :
  Py.has_char c s = false → Py.lstrip c s = s.
Proof.
  destruct s as [|d s]; simpl; [done|].
  by intros [-> _]%orb_false_iff.
Qed.

(** X11. The extension given to a tool file is a dot followed by a stem
    without any dot: the text after the last dot of the record's file key,
    or "bin" when the key has no dot. The classifier tests that stem
    against the extension tables. *)
Theorem tool_extension_is_last_suffix (tool_file : ToolFile.t) :
  ∃ stem,
    tool_extension tool_file = "." ++ stem
    ∧ Py.has_char Py.dot stem = false
    ∧ Py.lstrip Py.dot (tool_extension tool_file) = stem
    ∧ if Py.has_char Py.dot (ToolFile.file_key tool_file)
      then ∃ pre, ToolFile.file_key tool_file = pre ++ "." ++ stem
      else stem = "bin".
Proof.
  unfold tool_extension.
  destruct (Py.has_char Py.dot (ToolFile.file_key tool_file)) eqn:Hdot.
  - unfold Py.split_last_char.
    destruct (Py.after_last_char Py.dot (ToolFile.file_key tool_file))
      as [stem|] eqn:Hlast.
    + apply after_last_char_Some in Hlast as [Hstem [pre Hpre]].
      exists stem. simpl. split_and!; [done | done | | by exists pre].
      change ("" ++ stem) with stem. by apply lstrip_absent.
    + apply after_last_char_None in Hlast. congruence.
  - exists "bin". by split_and!.
Qed.

(** X12. The classifier gives an extension the same category with or
    without a leading dot, provided the extension is not empty. *)
Theorem classify_ignores_leading_dot
    (IMG VID AUD DOC : list string) (extension : string)
    (mime_type : option string) :
  extension ≠ "" →
  _standardize_file_type IMG VID AUD DOC ("." ++ extension) mime_type
  = _standardize_file_type IMG VID AUD DOC extension mime_type.
Proof.
  intros Hne%truthy_nonempty. unfold _standardize_file_type.
  rewrite Hne. rewrite append_cons.
  change (Py.truthy (Some (String "." ("" ++ extension)))) with true.
  cbv iota. by unfold _get_file_type_by_extension.
Qed.

(** X13. [get_file_type_by_mime_type] is the classifier without an
    extension: for every mime type it returns what the classifier returns
    for the empty extension, whatever the extension tables; the mime test
    always decides, so its CUSTOM default is never taken. *)
Theorem mime_type_category_is_classifier
    (IMG VID AUD DOC : list string) (mime_type : string) :
  get_file_type_by_mime_type mime_type
  = _standardize_file_type IMG VID AUD DOC "" (Some mime_type)
  ∧ _get_file_type_by_mimetype mime_type
    = Some (get_file_type_by_mime_type mime_type).
Proof.
  split.
  - unfold get_file_type_by_mime_type, _standardize_file_type. simpl.
    by destruct mime_type.
  - unfold get_file_type_by_mime_type.
    by destruct (by_mimetype_is_some mime_type) as [t ->].
Qed.

(** ** More on the storage-key loader *)

Lemma same_except_key_eq (f g : File.t) :
  Expected.same_except_key f g →
  File.storage_key f = File.storage_key g → f = g.
Proof.
  unfold Expected.same_except_key, File.set_storage_key.
  destruct f, g. simpl. intros [= -> -> -> -> -> -> -> -> -> ->] ->. done.
Qed.

Lemma same_except_key_fields (f g : File.t) :
  Expected.same_except_key f g →
  File.related_id f = File.related_id g
  ∧ File.tenant_id f = File.tenant_id g
  ∧ File.transfer_method f = File.transfer_method g.
Proof.
  intros H. split_and!.
  - apply (f_equal File.related_id H).
  - apply (f_equal File.tenant_id H).
  - apply (f_equal File.transfer_method H).
Qed.

Section MoreLoaderFacts.

Variable UUID : string → option uuid.
Variable self : StorageKeyLoader.t.

Local Abbreviation tenant := (StorageKeyLoader._tenant_id self).
Local Abbreviation session := (StorageKeyLoader._session self).
Local Abbreviation upload_ids := (Expected.ids_of UUID Expected.is_upload).
Local Abbreviation tool_ids := (Expected.ids_of UUID Expected.is_tool).

(** The first loop reads nothing but the related id, the tenant and the
    transfer method of the files, and of the loader only its tenant. *)
Lemma partition_ids_same (self' : StorageKeyLoader.t) (files : list loc)
    (ups tls : list uuid) (w1 w2 : World.t) :
  StorageKeyLoader._tenant_id self' = tenant →
  (∀ l, Expected.same_except_key (World.objects w1 l) (World.objects w2 l)) →
  (partition_ids UUID self' files ups tls w1).2
  = (partition_ids UUID self files ups tls w2).2.
Proof.
  intros Htenant Hsame. revert ups tls.
  induction files as [|file files IH]; intros ups tls; [done|].
  rewrite !partition_ids_cons. cbv zeta. rewrite Htenant.
  destruct (same_except_key_fields _ _ (Hsame file)) as (-> & -> & ->).
  repeat case_match; try done; apply IH.
Qed.

Lemma ids_of_same (select : FileTransferMethod → bool) (files : list loc)
    (o1 o2 : loc → File.t) :
  (∀ l, Expected.same_except_key (o1 l) (o2 l)) →
  Expected.ids_of UUID select o1 files = Expected.ids_of UUID select o2 files.
Proof.
  intros Hsame. induction files as [|file files IH]; [done|].
  rewrite !ids_of_cons, IH.
  by destruct (same_except_key_fields _ _ (Hsame file)) as (-> & _ & ->).
Qed.

Lemma ids_of_lengths (objects : loc → File.t) (files : list loc) :
  (∀ l, l ∈ files → is_Some (File.related_id (objects l) ≫= UUID)) →
  (List.length (tool_ids objects files) + List.length (upload_ids objects files)
   = List.length files)%nat.
Proof.
  induction files as [|file files IH]; intros Hall; [done|].
  rewrite !ids_of_cons.
  destruct (Hall file) as [u Hu]; [by left|]. rewrite Hu.
  assert (IH' := IH (λ l Hl, Hall l (list_elem_of_further _ _ _ Hl))).
  destruct (File.transfer_method (objects file)); simpl; lia.
Qed.

(** A call changes an object at most in its storage key. *)
Lemma load_storage_keys_same_except_key (files : list loc) (w : World.t) (l : loc) :
  Expected.same_except_key
    (World.objects (load_storage_keys UUID self files w).1 l)
    (World.objects w l).
Proof.
  rewrite load_storage_keys_run.
  destruct (partition_ids UUID self files [] [] w).2 as [e|[uids tids]]; [done|].
  cbv zeta.
  destruct (dict_by_uuid UUID ToolFile.id _ ∅) as [e|tls]; [done|].
  destruct (dict_by_uuid UUID UploadFile.id _ ∅) as [e|ups]; [done|].
  set (w2 := World.mk _ _).
  destruct (assign_keys_run UUID files ups tls w2) as (_ & _ & _ & Hframe & _).
  apply Hframe.
Qed.

(** X14. Whatever its outcome, [load_storage_keys] changes a File at most
    in its storage key, leaves every object that is not in the input as it
    was, keeps the queries sent before it and sends at most two. *)
Theorem load_storage_keys_frame (files : list loc) (w : World.t) :
  let w' := (load_storage_keys UUID self files w).1 in
  (∀ l, Expected.same_except_key (World.objects w' l) (World.objects w l))
  ∧ (∀ l, l ∉ files → World.objects w' l = World.objects w l)
  ∧ ∃ sent, World.queries w' = (World.queries w ++ sent)%list
            ∧ (List.length sent ≤ 2)%nat.
Proof.
  rewrite load_storage_keys_run.
  destruct (partition_ids UUID self files [] [] w).2 as [e|[uids tids]].
  { simpl. split_and!; [done..|]. exists [].
    split; [by rewrite app_nil_r | simpl; lia]. }
  cbv zeta.
  destruct (dict_by_uuid UUID ToolFile.id _ ∅) as [e|tls].
  { simpl. split_and!; [done..|]. eexists [_]. split; [done | simpl; lia]. }
  destruct (dict_by_uuid UUID UploadFile.id _ ∅) as [e|ups].
  { simpl. split_and!; [done..|]. eexists [_; _].
    rewrite <- app_assoc. split; [done | simpl; lia]. }
  set (w2 := World.mk _ _).
  destruct (assign_keys_run UUID files ups tls w2)
    as (assigned & _ & Hother & Hframe & Hq & Hend).
  cbv zeta in *. split_and!.
  - done.
  - intros l Hl. apply Hother. intros Hin. apply Hl.
    destruct (assign_keys UUID files ups tls w2).2 as [e|[]].
    + destruct Hend as (l' & post & -> & _). apply elem_of_app. by left.
    + by subst.
  - rewrite Hq. unfold w2. simpl. eexists [_; _].
    rewrite <- app_assoc. split; [done | simpl; lia].
Qed.

(** X15. Resolving twice is resolving once, as long as the record store
    has not changed in between: after a successful call, a second call on
    the same input, by a loader of the same tenant whose session answers
    the two batched lookups as the first session did, succeeds too and
    leaves every File as the first call left it. *)
Theorem load_storage_keys_idempotent
    (self' : StorageKeyLoader.t) (files : list loc) (w w' : World.t) :
  load_storage_keys UUID self files w = (w', Ok tt) →
  StorageKeyLoader._tenant_id self' = tenant →
  Session.scalars_tool_files (StorageKeyLoader._session self')
    (tool_ids (World.objects w) files) tenant
  = Session.scalars_tool_files session
      (tool_ids (World.objects w) files) tenant →
  Session.scalars_upload_files (StorageKeyLoader._session self')
    (upload_ids (World.objects w) files) tenant
  = Session.scalars_upload_files session
      (upload_ids (World.objects w) files) tenant →
  ∃ w'', load_storage_keys UUID self' files w' = (w'', Ok tt)
         ∧ ∀ l, World.objects w'' l = World.objects w' l.
Proof.
  intros Hrun Htenant Htool_rows Hupload_rows.
  assert (Hw' : ∀ l, Expected.same_except_key (World.objects w' l) (World.objects w l)).
  { intros l. pose proof (load_storage_keys_same_except_key files w l) as H.
    by rewrite Hrun in H. }
  rewrite load_storage_keys_run in Hrun.
  rewrite load_storage_keys_run.
  rewrite (partition_ids_same self' files [] [] w' w Htenant Hw').
  destruct (partition_ids UUID self files [] [] w).2 as [e|[uids tids]] eqn:Hpart;
    [done|].
  apply partition_ids_returns in Hpart as (-> & -> & _).
  simpl in Hrun, Htool_rows, Hupload_rows |- *. cbv zeta in *.
  rewrite Htenant, Htool_rows, Hupload_rows.
  destruct (dict_by_uuid UUID ToolFile.id _ ∅) as [e|tls]; [done|].
  destruct (dict_by_uuid UUID UploadFile.id _ ∅) as [e|ups]; [done|].
  set (w1 := World.mk (World.objects w) _) in Hrun.
  set (w2 := World.mk (World.objects w') _).
  destruct (assign_keys_run UUID files ups tls w1)
    as (assigned1 & Hassigned1 & Hother1 & _ & _ & Hend1).
  destruct (assign_keys_run UUID files ups tls w2)
    as (assigned2 & Hassigned2 & Hother2 & Hframe2 & _ & Hend2).
  cbv zeta in *. rewrite Hrun in *. simpl in *.
  change (assigned1 = files) in Hend1. subst assigned1.
  assert (Hkey : ∀ l, l ∈ files →
            Expected.key_for UUID ups tls (World.objects w' l)
            = Some (File.storage_key (World.objects w' l))).
  { intros l Hl. rewrite <- (Hassigned1 l Hl).
    apply key_for_same_except_key, Hw'. }
  destruct (assign_keys UUID files ups tls w2) as [w'' [e|[]]] eqn:Hrun2;
    simpl in *.
  { destruct Hend2 as (l & post & Hfiles & Hnone & _).
    rewrite Hkey in Hnone; [done|].
    rewrite Hfiles. apply elem_of_app. right. by left. }
  subst assigned2. exists w''. split; [done|].
  intros l. destruct (decide (l ∈ files)) as [Hl | Hl].
  - apply same_except_key_eq; [apply Hframe2|].
    specialize (Hassigned2 l Hl). rewrite (Hkey l Hl) in Hassigned2.
    by injection Hassigned2.
  - by apply Hother2.
Qed.

(** X16. A successful call sends one id per input file: the ids of its two
    lookups add up to the number of files, a File that occurs twice giving
    its id twice. *)
Theorem load_storage_keys_one_id_per_file
    (files : list loc) (w w' : World.t) :
  load_storage_keys UUID self files w = (w', Ok tt) →
  ∃ tids uids,
    World.queries w'
    = (World.queries w
       ++ [SelectToolFiles tids tenant; SelectUploadFiles uids tenant])%list
    ∧ (List.length tids + List.length uids = List.length files)%nat.
Proof.
  intros Hrun. rewrite load_storage_keys_run in Hrun.
  destruct (partition_ids UUID self files [] [] w).2 as [e|[uids tids]] eqn:Hpart;
    [done|].
  apply partition_ids_returns in Hpart as (-> & -> & Hwell).
  cbv zeta in Hrun. simpl in Hrun.
  destruct (dict_by_uuid UUID ToolFile.id _ ∅) as [e|tls]; [done|].
  destruct (dict_by_uuid UUID UploadFile.id _ ∅) as [e|ups]; [done|].
  set (w2 := World.mk _ _) in Hrun.
  destruct (assign_keys_run UUID files ups tls w2) as (_ & _ & _ & _ & Hq & _).
  cbv zeta in Hq. rewrite Hrun in Hq. simpl in Hq.
  eexists _, _. split.
  - rewrite Hq. by rewrite <- app_assoc.
  - apply ids_of_lengths. intros l Hl. by destruct (Hwell l Hl).
Qed.

End MoreLoaderFacts.

(** ** Built files and the loader *)

Section BuildThenLoad.

Variables IMAGE_EXTENSIONS VIDEO_EXTENSIONS AUDIO_EXTENSIONS
          DOCUMENT_EXTENSIONS : list string.
Variable UUID : string → option uuid.
Variable url_path : string → string.
Variable guess_type : string → option string.
Variable guess_extension : string → option string.
Variable py_int : string → option Z.
Variable head : string → Response.t.
Variable get_signed_file_url : string → string.
Variable db_session : Session.t.

Local Abbreviation build_one :=
  (build_from_mapping IMAGE_EXTENSIONS VIDEO_EXTENSIONS AUDIO_EXTENSIONS
     DOCUMENT_EXTENSIONS UUID url_path guess_type guess_extension py_int head
     get_signed_file_url db_session).

(** X17. A File built from a bare remote URL cannot be resolved: any call
    of [load_storage_keys] whose input contains it fails in the first loop,
    sending no lookup and changing nothing. A File built by the LOCAL path,
    or by the REMOTE_URL path from an upload id, passes the first loop of a
    loader bound to the tenant it was built for. *)
Theorem built_files_and_the_loader
    (mapping : Mapping.t) (tenant : string)
    (config : option FileUploadConfig.t) (strict : bool) (f : File.t)
    (self : StorageKeyLoader.t) :
  build_one mapping tenant config strict = Ok f →
  (Mapping.get mapping "transfer_method" = Some "remote_url" →
   Py.nonempty (Mapping.get mapping "upload_file_id") = None →
   ∀ files w l,
     l ∈ files → World.objects w l = f →
     ∃ e, load_storage_keys UUID self files w = (w, inl e))
  ∧ (Mapping.get mapping "transfer_method" = Some "local_file"
     ∨ Mapping.get mapping "transfer_method" = Some "remote_url"
       ∧ is_Some (Py.nonempty (Mapping.get mapping "upload_file_id")) →
     StorageKeyLoader._tenant_id self = tenant →
     Expected.well_referenced UUID self f).
Proof.
  intros Hbuild.
  destruct (build_one_Ok_inv _ _ _ _ _ _ _ _ _ _ _ _ _ _ _ _ _ Hbuild)
    as (method & Hmethod & Hpath & _).
  split.
  - intros Hremote Hid files w l Hl Hobj.
    rewrite Hremote in Hmethod.
    destruct method; try discriminate Hmethod.
    destruct (build_remote_bare_Ok_inv _ _ _ _ _ _ _ _ _ _ _ _ _ _ _ _ _ Hid Hpath)
      as (url & m & name & size & ext & _ & _ & _ & _ & ->).
    rewrite load_storage_keys_run.
    destruct (partition_ids UUID self files [] [] w).2 as [e|[uids tids]] eqn:Hpart;
      [by exists e|].
    apply partition_ids_returns in Hpart as (_ & _ & Hwell).
    destruct (Hwell l Hl) as [_ [u Hu]]. by rewrite Hobj in Hu.
  - intros Hmethods Htenant.
    destruct Hmethods as [Hlocal | [Hremote [id Hid]]].
    + rewrite Hlocal in Hmethod. destruct method; try discriminate Hmethod.
      apply build_local_Ok_inv in Hpath
        as (id & row & t & Hid & Hu & _ & _ & _ & ->).
      apply nonempty_get in Hid.
      split; [done|]. simpl. rewrite Hid. done.
    + rewrite Hremote in Hmethod. destruct method; try discriminate Hmethod.
      destruct (build_remote_record_Ok_inv _ _ _ _ _ _ _ _ _ _ _ _ _ _ _ _ id _ Hid Hpath)
        as (row & t & Hu & _ & _ & _ & ->).
      apply nonempty_get in Hid.
      split; [done|]. simpl. rewrite Hid. done.
Qed.

End BuildThenLoad.

(** ** A bare remote URL without a guessable mime type *)

Section BareUnknownMime.

Variables IMAGE_EXTENSIONS VIDEO_EXTENSIONS AUDIO_EXTENSIONS
          DOCUMENT_EXTENSIONS : list string.
Variable UUID : string → option uuid.
Variable url_path : string → string.
Variable guess_type : string → option string.
Variable guess_extension : string → option string.
Variable py_int : string → option Z.
Variable head : string → Response.t.
Variable get_signed_file_url : string → string.
Variable db_session : Session.t.

(** X18. A bare remote URL for which no mime type is guessed is never
    built: when the HEAD response is not OK and [mimetypes] guesses no type
    from the basename of the URL path, the build fails with the
    AttributeError of [mimetypes.guess_extension(None)], whatever the
    declared category and the strict flag. *)
Theorem bare_unknown_mime_raises
    (mapping : Mapping.t) (tenant : string) (method : FileTransferMethod)
    (strict : bool) (url : string) :
  Py.nonempty (Mapping.get mapping "upload_file_id") = None →
  Py.nonempty (Py.or_else (Mapping.get mapping "url")
                          (Mapping.get mapping "remote_url")) = Some url →
  Response.status_code (head url) ≠ HTTP_OK →
  guess_type (Py.basename (url_path url)) = None →
  _build_from_remote_url IMAGE_EXTENSIONS VIDEO_EXTENSIONS AUDIO_EXTENSIONS
    DOCUMENT_EXTENSIONS UUID url_path guess_type guess_extension py_int head
    get_signed_file_url db_session mapping tenant method strict
  = Raise AttributeError.
Proof.
  intros Hid Hurl Hstatus Hmime.
  unfold _build_from_remote_url, _build_from_remote_url_bare.
  rewrite Hid, Hurl.
  rewrite (remote_info_not_ok url_path guess_type py_int head url Hstatus).
  by rewrite Hmime.
Qed.

End BareUnknownMime.

(** ** The further properties on the sample deployment *)

Abbreviation on_sample thm :=
  (thm Sample.IMAGE_EXTENSIONS Sample.VIDEO_EXTENSIONS Sample.AUDIO_EXTENSIONS
       Sample.DOCUMENT_EXTENSIONS Sample.UUID Sample.url_path Sample.guess_type
       Sample.guess_extension Sample.py_int Sample.head
       Sample.get_signed_file_url Sample.db_session).

Lemma built_file_identity_witness :
  File.tenant_id Sample.csv_file = "t1"
  ∧ File.storage_key Sample.csv_file = ""
  ∧ File.remote_url Sample.csv_file = Some "https://x/y.csv".
Proof.
  destruct (on_sample built_file_identity
              Sample.bare_csv_document "t1" None false Sample.csv_file)
    as (Htenant & _ & _ & Hbare); [compute_eq|].
  destruct Hbare as (_ & _ & Hkey & Hurl & _); [reflexivity|].
  split_and!; [exact Htenant | exact Hkey | exact Hurl].
Defined.

Lemma reference_errors_witness :
  Sample.build SampleMore.unknown_method "t1" None false
  = Raise UnsupportedMethod.
Proof.
  destruct (on_sample reference_errors SampleMore.unknown_method "t1" None false)
    as (Hunknown & _).
  apply Hunknown. intros m. destruct m; vm_compute; discriminate.
Defined.

Lemma strict_category_is_classified_witness :
  File.type Sample.csv_file = Sample.standardize ".csv" (Some "text/csv").
Proof.
  apply (on_sample strict_category_is_classified
           Sample.bare_csv_document "t1" None false Sample.csv_file).
  - compute_eq.
  - right. reflexivity.
Defined.

Lemma declared_category_honoured_witness :
  FileTypeOps.value (File.type Sample.csv_file) = "document".
Proof.
  apply (on_sample declared_category_honoured
           Sample.bare_csv_document "t1" None false Sample.csv_file "document");
    first [compute_eq | discriminate].
Defined.

Lemma remote_record_is_local_with_signed_url_witness :
  Sample.build_remote Sample.remote_png "t1" REMOTE_URL false
  = Ok SampleMore.remote_png_file.
Proof.
  unfold Sample.build_remote.
  rewrite (on_sample remote_record_is_local_with_signed_url
             Sample.remote_png "t1" REMOTE_URL Sample.id1); compute_eq.
Defined.

Lemma extension_allow_list_on_undeclared_witness :
  ∃ extension,
    File.extension Sample.cat_file = Some extension
    ∧ extension ∈ [".png"].
Proof.
  apply (on_sample extension_allow_list_on_undeclared
           Sample.local_png "t1" SampleMore.png_only false Sample.cat_file);
    compute_eq.
Defined.

Lemma remote_info_outcomes_witness :
  Some "application/pdf" = Sample.guess_type "r.pdf".
Proof.
  destruct (remote_info_outcomes Sample.url_path Sample.guess_type
              Sample.py_int Sample.head "https://cdn/report")
    as (_ & Hreturns & _).
  destruct (Hreturns (Some "application/pdf") "r.pdf" 1234) as (Hmime & _);
    [compute_eq | exact Hmime].
Defined.

Lemma batch_is_pointwise_witness :
  Forall2 (λ mapping f, Sample.build mapping "t1" (Some Sample.two_images) false
                        = Ok f)
    [Sample.local_png; Sample.local_png] [Sample.cat_file; Sample.cat_file].
Proof.
  destruct (on_sample batch_is_pointwise
              [Sample.local_png; Sample.local_png] (Some Sample.two_images)
              "t1" false [Sample.cat_file; Sample.cat_file]) as (Heach & _);
    [compute_eq | exact Heach].
Defined.

Lemma message_files_skip_assistant_witness :
  SampleMore.build_messages [SampleMore.assistant_png; SampleMore.user_png]
    "t1" SampleMore.accept_all
  = SampleMore.build_messages [SampleMore.user_png] "t1" SampleMore.accept_all.
Proof.
  apply (on_sample message_files_skip_assistant
           [] [SampleMore.user_png] SampleMore.assistant_png "t1"
           SampleMore.accept_all).
  reflexivity.
Defined.

Lemma message_tool_file_not_found_witness :
  SampleMore.build_message SampleMore.tool_message "t1" SampleMore.accept_all
  = Raise RecordNotFound.
Proof.
  apply (on_sample message_tool_file_not_found
           SampleMore.tool_message "t1" SampleMore.accept_all);
    compute_eq.
Defined.

Lemma classify_ignores_leading_dot_witness :
  Sample.standardize ".png" None = Sample.standardize "png" None.
Proof.
  apply (classify_ignores_leading_dot
           Sample.IMAGE_EXTENSIONS Sample.VIDEO_EXTENSIONS
           Sample.AUDIO_EXTENSIONS Sample.DOCUMENT_EXTENSIONS "png" None).
  discriminate.
Defined.

Lemma load_storage_keys_idempotent_witness :
  let once :=
    (load_storage_keys Sample.UUID Sample.loader [0; 2; 0]%nat Sample.world).1 in
  ∃ twice,
    load_storage_keys Sample.UUID Sample.loader [0; 2; 0]%nat once
    = (twice, Ok tt)
    ∧ ∀ l, World.objects twice l = World.objects once l.
Proof.
  intros once.
  apply (load_storage_keys_idempotent Sample.UUID Sample.loader Sample.loader
           [0; 2; 0]%nat Sample.world once); compute_eq.
Defined.

Lemma load_storage_keys_one_id_per_file_witness :
  let run :=
    load_storage_keys Sample.UUID Sample.loader [0; 2; 0]%nat Sample.world in
  ∃ tids uids,
    World.queries run.1
    = (World.queries Sample.world
       ++ [SelectToolFiles tids "t1"; SelectUploadFiles uids "t1"])%list
    ∧ (List.length tids + List.length uids = 3)%nat.
Proof.
  intros run.
  apply (load_storage_keys_one_id_per_file Sample.UUID Sample.loader
           [0; 2; 0]%nat Sample.world run.1).
  compute_eq.
Defined.

Lemma built_files_and_the_loader_witness :
  ∃ e,
    load_storage_keys Sample.UUID Sample.loader [0; 1]%nat SampleMore.built_world
    = (SampleMore.built_world, inl e).
Proof.
  destruct (on_sample built_files_and_the_loader
              Sample.bare_csv_document "t1" None false Sample.csv_file
              Sample.loader) as (Hbare & _); [compute_eq|].
  apply (Hbare eq_refl eq_refl [0; 1]%nat SampleMore.built_world 1%nat);
    [by_computation | reflexivity].
Defined.

Lemma bare_unknown_mime_raises_witness :
  Sample.build_remote SampleMore.bare_data "t1" REMOTE_URL false
  = Raise AttributeError.
Proof.
  apply (on_sample bare_unknown_mime_raises
           SampleMore.bare_data "t1" REMOTE_URL false "https://x/data");
    first [compute_eq | by_computation].
Defined.
